(** * Tourism vector-search DAOs: ingestion validation and hybrid ranking

    Shallow embedding of [database/tourism_collection_dao.py]
    (class [TourismMultimodalDAO]) and [database/tourism_dao.py]
    (class [BaiChayTourismDAO]).

    Modelling conventions.
    - Python [float] values (distances, scores, weights, prices) are
      rationals [Q]; the integer literal [0] stored in a score slot is [0 : Q].
      Arithmetic on them is exact, except where a statement is about the
      rounding of doubles: [Float64] gives the operations of IEEE 754
      binary64 on finite values, and [format_hit64] is [_format_results]
      with its score computed in them.
    - Python [int] values (ids, [top_k]) are [Z].
    - A Python [dict] is an insertion-ordered association list: assigning to
      an existing key keeps the key's position and replaces its value,
      assigning to a new key appends.
    - Exceptions are the [Raise] case of [result]; a method that mutates the
      DAO returns the new DAO next to its outcome.
    - The Milvus server is an external collaborator.  Its nearest-neighbour
      search and its acceptance of a columnar batch are section variables. *)

From Stdlib Require Import String.
From Stdlib Require Import ZArith QArith List Bool Lia Lqa.
From Stdlib Require Import Qpower Qround.
From Stdlib Require Import Permutation Sorted.
Import ListNotations.

Set Implicit Arguments.

Local Open Scope string_scope.
Local Open Scope list_scope.
Local Open Scope Q_scope.

(** ** Exceptions and results *)

Inductive exn : Type :=
| AssertionError (msg : string)
| KeyError (key : string)
| TypeError
| ZeroDivisionError
| MilvusException.

Inductive result (A : Type) : Type :=
| Ok (a : A)
| Raise (e : exn).

Arguments Ok {A} a.
Arguments Raise {A} e.

Definition bind {A B : Type} (m : result A) (f : A -> result B) : result B :=
  match m with
  | Ok a => f a
  | Raise e => Raise e
  end.

Notation "x <- m ;; k" := (bind m (fun x => k))
  (at level 61, m at next level, right associativity).
Notation "m ;;; k" := (bind m (fun _ => k))
  (at level 61, right associativity).

(** [assert cond, msg] *)
Definition py_assert (cond : bool) (msg : string) : result unit :=
  if cond then Ok tt else Raise (AssertionError msg).

(** [[f(x) for x in xs]] where [f] may raise: the first exception wins. *)
Fixpoint mapM {A B : Type} (f : A -> result B) (xs : list A) : result (list B) :=
  match xs with
  | [] => Ok []
  | x :: xs' => y <- f x ;; ys <- mapM f xs' ;; Ok (y :: ys)
  end.

(** [for x in xs: body(x)] where the body may raise. *)
Fixpoint forM_ {A : Type} (body : A -> result unit) (xs : list A) : result unit :=
  match xs with
  | [] => Ok tt
  | x :: xs' => body x ;;; forM_ body xs'
  end.

(** ** Python numbers *)

(** [a < b] on floats. *)
Definition Qlt_bool (a b : Q) : bool := negb (Qle_bool b a).

(** [a / b]: raises [ZeroDivisionError] on a zero divisor. *)
Definition py_div (a b : Q) : result Q :=
  if Qeq_bool b 0 then Raise ZeroDivisionError else Ok (a / b).

(** ** Python floats as IEEE 754 binary64

    A finite double is the rational it stands for.  An operation gives the
    exact result rounded to the nearest double, ties to the even
    significand.  Subnormal numbers are covered; overflow to infinity is
    not, so the statements keep their values within [max_float]. *)

Module Float64.

(** Exponent of the smallest subnormal number. *)
Definition emin : Z := (-1074)%Z.

Definition pow2 (z : Z) : Q := 2 ^ z.

(** The nearest integer, ties to even. *)
Definition nearest_even (x : Q) : Z :=
  let f := Qfloor x in
  match Qcompare (x - inject_Z f) (1 # 2) with
  | Lt => f
  | Eq => if Z.even f then f else (f + 1)%Z
  | Gt => (f + 1)%Z
  end.

(** [floor (log2 q)] for [q > 0]. *)
Definition ilog2 (q : Q) : Z :=
  let z := (Z.log2 (Qnum q) - Z.log2 (Zpos (Qden q)))%Z in
  if Qle_bool (pow2 z) q then z else (z - 1)%Z.

(** Exponent of the unit in the last place of the doubles around [q]:
    53 bits of significand. *)
Definition ulp_exp (q : Q) : Z := Z.max (ilog2 q - 52) emin.

Definition round_pos (q : Q) : Q :=
  inject_Z (nearest_even (q / pow2 (ulp_exp q))) * pow2 (ulp_exp q).

(** The double nearest to [q]. *)
Definition round (q : Q) : Q :=
  match Qcompare q 0 with
  | Gt => round_pos q
  | Eq => 0
  | Lt => - round_pos (- q)
  end.

(** The largest finite double. *)
Definition max_float : Q := inject_Z (2 ^ 53 - 1) * pow2 971.

(** [a + b] *)
Definition add (a b : Q) : Q := round (a + b).

(** [a / b] *)
Definition div (a b : Q) : result Q :=
  if Qeq_bool b 0 then Raise ZeroDivisionError else Ok (round (a / b)).

(** [1 / (1 + distance)] *)
Definition score_of (distance : Q) : result Q := div 1 (add 1 distance).

End Float64.

(** ** Insertion-ordered dictionaries *)

Section PyDict.
Context {K V : Type}.
Variable eqb : K -> K -> bool.

Definition dict : Type := list (K * V).

(** [d.get(k)] *)
Fixpoint dict_get (k : K) (d : dict) : option V :=
  match d with
  | [] => None
  | (k', v) :: d' => if eqb k k' then Some v else dict_get k d'
  end.

(** [k in d] *)
Definition dict_mem (k : K) (d : dict) : bool :=
  match dict_get k d with Some _ => true | None => false end.

(** [d[k] = v] *)
Fixpoint dict_set (k : K) (v : V) (d : dict) : dict :=
  match d with
  | [] => [(k, v)]
  | (k', v') :: d' =>
      if eqb k k' then (k', v) :: d' else (k', v') :: dict_set k v d'
  end.

(** [d.keys()], [d.values()] in insertion order *)
Definition dict_keys (d : dict) : list K := map fst d.
Definition dict_values (d : dict) : list V := map snd d.
End PyDict.

(** ** [sorted(xs, key=..., reverse=True)] and [xs[:k]] *)

Section PySorted.
Context {A : Type}.
Variable key : A -> Q.

(** Insertion into an ascending list, after the elements whose key is
    strictly smaller and before every other one.  Only [<] is used, as in
    CPython's list sort. *)
Fixpoint insert_asc (x : A) (l : list A) : list A :=
  match l with
  | [] => [x]
  | y :: l' =>
      if Qlt_bool (key y) (key x) then y :: insert_asc x l' else x :: y :: l'
  end.

(** Stable ascending sort. *)
Definition sort_asc (l : list A) : list A := fold_right insert_asc [] l.

(** CPython keeps [reverse=True] stable by reversing the list, sorting it
    ascending with its stable sort, and reversing the outcome. *)
Definition py_sorted_reverse (l : list A) : list A := rev (sort_asc (rev l)).
End PySorted.

(** [l[:k]]: a negative [k] counts from the end. *)
Definition py_slice_to {A : Type} (k : Z) (l : list A) : list A :=
  if (0 <=? k)%Z then firstn (Z.to_nat k) l
  else firstn (length l - Z.to_nat (- k)) l.

(** ** Records handed to [insert_data] *)

(** The values a crawled record carries. *)
Inductive value : Type :=
| VNone
| VInt (z : Z)
| VFloat (q : Q)
| VStr (s : string)
| VVec (v : list Q).

(** A record is a [Dict] from field name to value. *)
Definition Item : Type := @dict string value.

(** [field in item] *)
Definition has_field (field : string) (item : Item) : bool :=
  dict_mem String.eqb field item.

(** [item[field]] *)
Definition getitem (item : Item) (field : string) : result value :=
  match dict_get String.eqb field item with
  | Some v => Ok v
  | None => Raise (KeyError field)
  end.

(** [item.get(field, default)] *)
Definition get_default (item : Item) (field : string) (default : value) : value :=
  match dict_get String.eqb field item with
  | Some v => v
  | None => default
  end.

(** The number of code points of a text held as UTF-8 bytes: the bytes
    that are not continuation bytes [10xxxxxx]. *)
Fixpoint code_points (s : string) : nat :=
  match s with
  | EmptyString => 0
  | String (Ascii.Ascii _ _ _ _ _ _ b6 b7) s' =>
      ((if b7 && negb b6 then 0 else 1) + code_points s')%nat
  end.

(** [len(v)]: the length of a list, the number of code points of a
    [str]. *)
Definition py_len (v : value) : result nat :=
  match v with
  | VVec l => Ok (length l)
  | VStr s => Ok (code_points s)
  | _ => Raise TypeError
  end.

(** ** The vector store, as far as the DAOs use it

    A collection holds rows; [insert] takes a columnar batch (a list of
    columns, primary keys first) and buffers its rows, [flush] persists the
    buffer, [num_entities] counts persisted rows.  Whether the server takes
    a batch is its own business: [accepts] stands for that decision. *)

Module Milvus.

Definition row : Type := list value.

Record Collection : Type := {
  persisted : list row;
  pending : list row
}.

Definition empty : Collection := {| persisted := []; pending := [] |}.

(** Row [i] of a batch takes entry [i] of every column. *)
Definition rows_of (columns : list (list value)) : list row :=
  map (fun i => map (fun col => nth i col VNone) columns)
      (seq 0 (length (hd [] columns))).

Section Server.
Variable accepts : Collection -> list (list value) -> bool.

(** [collection.insert(entities)]: the outcome carries [primary_keys]. *)
Definition insert (c : Collection) (columns : list (list value))
    : result (list value) * Collection :=
  if accepts c columns
  then (Ok (hd [] columns),
        {| persisted := persisted c;
           pending := pending c ++ rows_of columns |})
  else (Raise MilvusException, c).
End Server.

(** [collection.flush()] *)
Definition flush (c : Collection) : Collection :=
  {| persisted := persisted c ++ pending c; pending := [] |}.

(** [collection.num_entities] *)
Definition num_entities (c : Collection) : nat := length (persisted c).

(** All rows a collection has been given. *)
Definition rows (c : Collection) : list row := persisted c ++ pending c.

End Milvus.

(** ** [TourismMultimodalDAO]: search and hybrid ranking *)

Module TourismMultimodalDAO.

Definition IMAGE_VECTOR_DIM : nat := 512.
Definition DESCRIPTION_VECTOR_DIM : nat := 768.

(** One hit of a Milvus search with the requested output fields. *)
Record Hit : Type := {
  hit_id : Z;
  hit_location : string;
  hit_type : string;
  hit_description : string;
  hit_image_url : string;
  hit_price : Q;
  hit_distance : Q
}.

(** The dictionary built by [_format_results] for one hit. *)
Record SearchResult : Type := {
  id : Z;
  location : string;
  type_ : string;
  description : string;
  image_url : string;
  price : Q;
  distance : Q;
  score : Q
}.

Definition format_hit (hit : Hit) : result SearchResult :=
  s <- py_div 1 (1 + hit_distance hit) ;;
  Ok {| id := hit_id hit;
        location := hit_location hit;
        type_ := hit_type hit;
        description := hit_description hit;
        image_url := hit_image_url hit;
        price := hit_price hit;
        distance := hit_distance hit;
        score := s |}.

(** [_format_results]: one result per hit of every per-query hit list. *)
Definition format_results (results : list (list Hit)) : result (list SearchResult) :=
  mapM format_hit (concat results).

(** [_format_results] with [1 / (1 + hit.distance)] in doubles. *)
Definition format_hit64 (hit : Hit) : result SearchResult :=
  s <- Float64.score_of (hit_distance hit) ;;
  Ok {| id := hit_id hit;
        location := hit_location hit;
        type_ := hit_type hit;
        description := hit_description hit;
        image_url := hit_image_url hit;
        price := hit_price hit;
        distance := hit_distance hit;
        score := s |}.

Definition format_results64 (results : list (list Hit))
    : result (list SearchResult) :=
  mapM format_hit64 (concat results).

(** An entry of [merged]: [{**result, "text_score", "image_score",
    "combined_score"}]. *)
Record Merged : Type := {
  base : SearchResult;
  text_score : Q;
  image_score : Q;
  combined_score : Q
}.

Abbreviation merged_dict := (@dict Z Merged).

Definition text_entry (text_weight : Q) (r : SearchResult) : Merged :=
  {| base := r;
     text_score := score r;
     image_score := 0;
     combined_score := score r * text_weight |}.

Definition image_entry (image_weight : Q) (r : SearchResult) : Merged :=
  {| base := r;
     text_score := 0;
     image_score := score r;
     combined_score := score r * image_weight |}.

(** [merged[id]["image_score"] = s; merged[id]["combined_score"] += s * w] *)
Definition add_image (image_weight : Q) (e : Merged) (r : SearchResult) : Merged :=
  {| base := base e;
     text_score := text_score e;
     image_score := score r;
     combined_score := combined_score e + score r * image_weight |}.

(** Body of [for result in text_results]. *)
Definition merge_text_step (text_weight : Q) (merged : merged_dict)
    (r : SearchResult) : merged_dict :=
  dict_set Z.eqb (id r) (text_entry text_weight r) merged.

(** Body of [for result in image_results]. *)
Definition merge_image_step (image_weight : Q) (merged : merged_dict)
    (r : SearchResult) : merged_dict :=
  match dict_get Z.eqb (id r) merged with
  | Some e => dict_set Z.eqb (id r) (add_image image_weight e r) merged
  | None => dict_set Z.eqb (id r) (image_entry image_weight r) merged
  end.

(** The dictionary [merged] after both loops. *)
Definition merge (text_results image_results : list SearchResult)
    (text_weight image_weight : Q) : merged_dict :=
  fold_left (merge_image_step image_weight) image_results
    (fold_left (merge_text_step text_weight) text_results []).

(** The fused list before [[:top_k]]. *)
Definition ranked (text_results image_results : list SearchResult)
    (text_weight image_weight : Q) : list Merged :=
  py_sorted_reverse combined_score
    (dict_values (merge text_results image_results text_weight image_weight)).

(** What [hybrid_search] does with the two result lists. *)
Definition fuse (text_results image_results : list SearchResult)
    (text_weight image_weight : Q) (top_k : Z) : list Merged :=
  py_slice_to top_k (ranked text_results image_results text_weight image_weight).

Record DAO : Type := {
  text_collection : Milvus.Collection;
  image_collection : Milvus.Collection
}.

Section Search.
(** [collection.search(data=[v], anns_field, param, limit, expr,
    output_fields)]: collection, vector field, metric, query vector,
    limit and filter expression. *)
Variable milvus_search :
  Milvus.Collection -> string -> string -> list Q -> Z -> option string ->
  result (list (list Hit)).

Definition search_by_description (self : DAO) (query_vector : list Q)
    (top_k : Z) (filters : option string) : result (list SearchResult) :=
  results <- milvus_search (text_collection self) "description_vector"
               "COSINE" query_vector top_k filters ;;
  format_results results.

Definition search_by_image (self : DAO) (query_vector : list Q)
    (top_k : Z) (filters : option string) : result (list SearchResult) :=
  results <- milvus_search (image_collection self) "image_vector"
               "L2" query_vector top_k filters ;;
  format_results results.

Definition hybrid_search (self : DAO) (text_vector image_vector : list Q)
    (text_weight image_weight : Q) (top_k : Z) (filters : option string)
    : result (list Merged) :=
  text_results <- search_by_description self text_vector (top_k * 2) filters ;;
  image_results <- search_by_image self image_vector (top_k * 2) filters ;;
  Ok (fuse text_results image_results text_weight image_weight top_k).
End Search.

(** *** [insert_data] *)

Definition required_fields : list string :=
  ["id"; "location"; "type"; "description";
   "image_url"; "price"; "image_vector"; "description_vector"].

(** Body of [for item in data] in the validation pass. *)
Definition validate_item (item : Item) : result unit :=
  forM_ (fun field =>
           py_assert (has_field field item) ("Missing '" ++ field ++ "'")%string)
        required_fields ;;;
  iv <- getitem item "image_vector" ;;
  n <- py_len iv ;;
  py_assert (n =? IMAGE_VECTOR_DIM)%nat "" ;;;
  dv <- getitem item "description_vector" ;;
  m <- py_len dv ;;
  py_assert (m =? DESCRIPTION_VECTOR_DIM)%nat "".

Definition validate (data : list Item) : result unit :=
  forM_ validate_item data.

(** [[item[field] for item in data]] *)
Definition column (field : string) (data : list Item) : result (list value) :=
  mapM (fun item => getitem item field) data.

(** The six columns shared by both collections. *)
Definition common_columns (data : list Item) : result (list (list value)) :=
  ids <- column "id" data ;;
  locations <- column "location" data ;;
  types <- column "type" data ;;
  descriptions <- column "description" data ;;
  image_urls <- column "image_url" data ;;
  prices <- column "price" data ;;
  Ok [ids; locations; types; descriptions; image_urls; prices].

(** The value returned on success: [text_ids] and [image_ids]. *)
Record InsertIds : Type := {
  text_ids : list value;
  image_ids : list value
}.

Section Insert.
Variable accepts : Milvus.Collection -> list (list value) -> bool.

(** The outcome comes with the DAO as the call leaves it: an exception
    raised after a write does not undo the write. *)
Definition insert_data (self : DAO) (data : list Item)
    : result InsertIds * DAO :=
  match validate data with
  | Raise e => (Raise e, self)
  | Ok _ =>
    match common_columns data with
    | Raise e => (Raise e, self)
    | Ok common =>
      match column "description_vector" data with
      | Raise e => (Raise e, self)
      | Ok description_vectors =>
        let text_entities := common ++ [description_vectors] in
        match Milvus.insert accepts (text_collection self) text_entities with
        | (Raise e, _) => (Raise e, self)
        | (Ok text_keys, tc) =>
          let self1 := {| text_collection := Milvus.flush tc;
                          image_collection := image_collection self |} in
          match column "image_vector" data with
          | Raise e => (Raise e, self1)
          | Ok image_vectors =>
            let image_entities := common ++ [image_vectors] in
            match Milvus.insert accepts (image_collection self1) image_entities with
            | (Raise e, _) => (Raise e, self1)
            | (Ok image_keys, ic) =>
              (Ok {| text_ids := text_keys; image_ids := image_keys |},
               {| text_collection := text_collection self1;
                  image_collection := Milvus.flush ic |})
            end
          end
        end
      end
    end
  end.
End Insert.

(** [get_statistics]: the two entity counts. *)
Definition entity_counts (self : DAO) : nat * nat :=
  (Milvus.num_entities (text_collection self),
   Milvus.num_entities (image_collection self)).

End TourismMultimodalDAO.

(** ** [BaiChayTourismDAO]: the single-collection variant *)

Module BaiChayTourismDAO.

Definition DESCRIPTION_VECTOR_DIM : nat := 768.

(** One hit of a Milvus search with the requested output fields. *)
Record Hit : Type := {
  hit_id : Z;
  hit_name : string;
  hit_type : string;
  hit_sub_type : string;
  hit_location : string;
  hit_address : string;
  hit_description : string;
  hit_price_range : string;
  hit_price_min : Q;
  hit_price_max : Q;
  hit_opening_hours : string;
  hit_image_urls : string;
  hit_rating : Q;
  hit_view_count : Z;
  hit_url : string;
  hit_distance : Q
}.

(** The dictionary built by [_format_results] for one hit. *)
Record SearchResult : Type := {
  id : Z;
  name : string;
  type_ : string;
  sub_type : string;
  location : string;
  address : string;
  description : string;
  price_range : string;
  price_min : Q;
  price_max : Q;
  opening_hours : string;
  image_urls : string;
  rating : Q;
  view_count : Z;
  url : string;
  distance : Q;
  score : Q
}.

Definition format_hit (hit : Hit) : result SearchResult :=
  s <- py_div 1 (1 + hit_distance hit) ;;
  Ok {| id := hit_id hit;
        name := hit_name hit;
        type_ := hit_type hit;
        sub_type := hit_sub_type hit;
        location := hit_location hit;
        address := hit_address hit;
        description := hit_description hit;
        price_range := hit_price_range hit;
        price_min := hit_price_min hit;
        price_max := hit_price_max hit;
        opening_hours := hit_opening_hours hit;
        image_urls := hit_image_urls hit;
        rating := hit_rating hit;
        view_count := hit_view_count hit;
        url := hit_url hit;
        distance := hit_distance hit;
        score := s |}.

(** [_format_results] *)
Definition format_results (results : list (list Hit)) : result (list SearchResult) :=
  mapM format_hit (concat results).

(** [_format_results] with [1 / (1 + hit.distance)] in doubles. *)
Definition format_hit64 (hit : Hit) : result SearchResult :=
  s <- Float64.score_of (hit_distance hit) ;;
  Ok {| id := hit_id hit;
        name := hit_name hit;
        type_ := hit_type hit;
        sub_type := hit_sub_type hit;
        location := hit_location hit;
        address := hit_address hit;
        description := hit_description hit;
        price_range := hit_price_range hit;
        price_min := hit_price_min hit;
        price_max := hit_price_max hit;
        opening_hours := hit_opening_hours hit;
        image_urls := hit_image_urls hit;
        rating := hit_rating hit;
        view_count := hit_view_count hit;
        url := hit_url hit;
        distance := hit_distance hit;
        score := s |}.

Definition format_results64 (results : list (list Hit))
    : result (list SearchResult) :=
  mapM format_hit64 (concat results).

Record DAO : Type := {
  collection : Milvus.Collection
}.

Section Search.
Variable milvus_search :
  Milvus.Collection -> string -> string -> list Q -> Z -> option string ->
  result (list (list Hit)).

Definition search_by_description (self : DAO) (query_vector : list Q)
    (top_k : Z) (filters : option string) : result (list SearchResult) :=
  results <- milvus_search (collection self) "description_vector"
               "COSINE" query_vector top_k filters ;;
  format_results results.
End Search.

(** *** [insert_data] *)

Definition required_fields : list string :=
  ["id"; "name"; "type"; "description"; "description_vector"].

(** Body of [for item in data] in the validation pass. *)
Definition validate_item (item : Item) : result unit :=
  forM_ (fun field =>
           py_assert (has_field field item) ("Missing '" ++ field ++ "'")%string)
        required_fields ;;;
  dv <- getitem item "description_vector" ;;
  m <- py_len dv ;;
  py_assert (m =? DESCRIPTION_VECTOR_DIM)%nat "".

Definition validate (data : list Item) : result unit :=
  forM_ validate_item data.

(** [[item[field] for item in data]] *)
Definition column (field : string) (data : list Item) : result (list value) :=
  mapM (fun item => getitem item field) data.

(** [[item.get(field, default) for item in data]] *)
Definition column_default (field : string) (default : value)
    (data : list Item) : list value :=
  map (fun item => get_default item field default) data.

(** The list [entities], column by column in the order of the schema. *)
Definition entities_of (data : list Item) : result (list (list value)) :=
  ids <- column "id" data ;;
  names <- column "name" data ;;
  types <- column "type" data ;;
  let sub_types := column_default "sub_type" (VStr "") data in
  let locations := column_default "location" (VStr "Bãi Cháy, Quảng Ninh") data in
  let addresses := column_default "address" (VStr "") data in
  descriptions <- column "description" data ;;
  let price_ranges := column_default "price_range" (VStr "") data in
  let price_mins := column_default "price_min" (VFloat 0) data in
  let price_maxs := column_default "price_max" (VFloat 0) data in
  let hours := column_default "opening_hours" (VStr "") data in
  let urls_of_images := column_default "image_urls" (VStr "[]") data in
  let ratings := column_default "rating" (VFloat 0) data in
  let view_counts := column_default "view_count" (VInt 0) data in
  let urls := column_default "url" (VStr "") data in
  vectors <- column "description_vector" data ;;
  Ok [ids; names; types; sub_types; locations; addresses; descriptions;
      price_ranges; price_mins; price_maxs; hours; urls_of_images;
      ratings; view_counts; urls; vectors].

Section Insert.
Variable accepts : Milvus.Collection -> list (list value) -> bool.

Definition insert_data (self : DAO) (data : list Item)
    : result (list value) * DAO :=
  match validate data with
  | Raise e => (Raise e, self)
  | Ok _ =>
    match entities_of data with
    | Raise e => (Raise e, self)
    | Ok entities =>
      match Milvus.insert accepts (collection self) entities with
      | (Raise e, _) => (Raise e, self)
      | (Ok keys, c) => (Ok keys, {| collection := Milvus.flush c |})
      end
    end
  end.
End Insert.

(** [get_statistics]["collection"]["total_count"] *)
Definition total_count (self : DAO) : nat :=
  Milvus.num_entities (collection self).

End BaiChayTourismDAO.

(** ** Vocabulary of the statements *)

(** A loop body of the shape [d[key(r)] = f(d.get(key(r)), r)]. *)
Definition update_step {K V R : Type} (eqb : K -> K -> bool) (key : R -> K)
    (f : option V -> R -> V) (d : @dict K V) (r : R) : dict :=
  dict_set eqb (key r) (f (dict_get eqb (key r) d) r) d.

(** Ascending and descending order of keys. *)
Definition key_le {A : Type} (key : A -> Q) (a b : A) : Prop := key a <= key b.
Definition key_ge {A : Type} (key : A -> Q) (a b : A) : Prop := key b <= key a.

(** The ids of a list in order of first appearance. *)
Fixpoint first_seen (l : list Z) : list Z :=
  match l with
  | [] => []
  | x :: l' => x :: filter (fun y => negb (Z.eqb y x)) (first_seen l')
  end.

(** [x in l] for ids. *)
Definition mem_id (x : Z) (l : list Z) : bool := existsb (Z.eqb x) l.

(** The key list of a dictionary that starts with the keys [seen] and is
    then assigned at the ids [l] in turn. *)
Fixpoint add_new (seen l : list Z) : list Z :=
  match l with
  | [] => seen
  | i :: l' => add_new (if mem_id i seen then seen else seen ++ [i]) l'
  end.

Module HybridSpec.
Import TourismMultimodalDAO.

(** The results of a list that carry the id [i], in list order. *)
Definition occurrences (i : Z) (l : list SearchResult) : list SearchResult :=
  filter (fun r => Z.eqb i (id r)) l.

(** What one image result does to the entry found under its id. *)
Definition absorb (image_weight : Q) (found : option Merged)
    (r : SearchResult) : Merged :=
  match found with
  | Some e => add_image image_weight e r
  | None => image_entry image_weight r
  end.

(** The entry of an id after the text pass: the last text result with
    that id, if there is one. *)
Definition text_pass (text_weight : Q) (occ : list SearchResult) : option Merged :=
  fold_left (fun _ r => Some (text_entry text_weight r)) occ None.

(** The entry after the image pass, every image result with that id being
    absorbed in turn. *)
Definition image_pass (image_weight : Q) (start : option Merged)
    (occ : list SearchResult) : option Merged :=
  fold_left (fun acc r => Some (absorb image_weight acc r)) occ start.


(** The ids of a result list and of a fused list. *)
Definition ids_of (l : list SearchResult) : list Z := map id l.
Definition fused_ids (l : list Merged) : list Z := map (fun e => id (base e)) l.

(** Number of distinct ids across both input lists. *)
Definition distinct_ids (text image : list SearchResult) : nat :=
  length (nodup Z.eq_dec (ids_of text ++ ids_of image)).

(** The entry's id is one the text search found. *)
Definition in_text (text : list SearchResult) (e : Merged) : bool :=
  mem_id (id (base e)) (ids_of text).

(** Two entries for the same text result with equal text score and combined
    scores of equal value. *)
Definition same_text_entry (e t : Merged) : Prop :=
  base e = base t /\ text_score e = text_score t /\
  combined_score e == combined_score t.
End HybridSpec.

(** ** Sample data *)

Module Samples.
Import TourismMultimodalDAO.

(** A search result with the given id and score; the distance is the one
    that [1 / (1 + distance)] turns into that score. *)
Definition sample (i : Z) (s : Q) : SearchResult :=
  {| id := i;
     location := "Da Nang";
     type_ := "beach";
     description := "My Khe";
     image_url := "";
     price := 0;
     distance := 1 / s - 1;
     score := s |}.

Definition sample_text : list SearchResult :=
  [sample 1 (9 # 10); sample 2 (4 # 10)].

Definition sample_image : list SearchResult :=
  [sample 2 (8 # 10); sample 3 (95 # 100)].

(** Two results with one id inside a single list. *)
Definition twice : list SearchResult :=
  [sample 7 (1 # 2); sample 7 (1 # 4)].

Definition sample_hit (i : Z) (d : Q) : Hit :=
  {| hit_id := i;
     hit_location := "Da Nang";
     hit_type := "beach";
     hit_description := "My Khe";
     hit_image_url := "";
     hit_price := 0;
     hit_distance := d |}.

(** A server that answers a description search with ids 1 and 2 and an
    image search with ids 2 and 3, cut to the requested limit; formatted,
    its answers are [sample_text] and [sample_image]. *)
Definition sample_search (c : Milvus.Collection) (anns_field metric : string)
    (query : list Q) (limit : Z) (expr : option string)
    : result (list (list Hit)) :=
  if String.eqb anns_field "description_vector"
  then Ok [firstn (Z.to_nat limit) [sample_hit 1 (1 # 9); sample_hit 2 (6 # 4)]]
  else Ok [firstn (Z.to_nat limit) [sample_hit 2 (2 # 8); sample_hit 3 (5 # 95)]].

(** The same server when it refuses a limit that is not positive. *)
Definition strict_search (c : Milvus.Collection) (anns_field metric : string)
    (query : list Q) (limit : Z) (expr : option string)
    : result (list (list Hit)) :=
  if (limit <=? 0)%Z then Raise MilvusException
  else sample_search c anns_field metric query limit expr.

Definition sample_dao : DAO :=
  {| text_collection := Milvus.empty; image_collection := Milvus.empty |}.

(** A hit of the single-collection search at distance [d]. *)
Definition park_hit (i : Z) (d : Q) : BaiChayTourismDAO.Hit :=
  {| BaiChayTourismDAO.hit_id := i;
     BaiChayTourismDAO.hit_name := "Sun World Halong Park";
     BaiChayTourismDAO.hit_type := "diem-den";
     BaiChayTourismDAO.hit_sub_type := "";
     BaiChayTourismDAO.hit_location := "Bai Chay";
     BaiChayTourismDAO.hit_address := "";
     BaiChayTourismDAO.hit_description := "park";
     BaiChayTourismDAO.hit_price_range := "";
     BaiChayTourismDAO.hit_price_min := 350000;
     BaiChayTourismDAO.hit_price_max := 600000;
     BaiChayTourismDAO.hit_opening_hours := "8:00 - 22:00";
     BaiChayTourismDAO.hit_image_urls := "[]";
     BaiChayTourismDAO.hit_rating := 45 # 10;
     BaiChayTourismDAO.hit_view_count := 62;
     BaiChayTourismDAO.hit_url := "";
     BaiChayTourismDAO.hit_distance := d |}.
End Samples.

(** ** Vocabulary of the ingestion statements *)

(** [item] has [field] and [len(item[field]) == n]. *)
Definition len_is (item : Item) (field : string) (n : nat) : bool :=
  match dict_get String.eqb field item with
  | Some v => match py_len v with Ok m => (m =? n)%nat | Raise _ => false end
  | None => false
  end.

(** The exceptions the validation pass of [insert_data] can raise: a failed
    [assert], or [len] of a value that has none. *)
Definition is_validation_error (e : exn) : bool :=
  match e with
  | AssertionError _ => true
  | TypeError => true
  | _ => false
  end.

(** The first six entries of every row: id and display attributes. *)
Definition display (c : Milvus.Collection) : list Milvus.row :=
  map (firstn 6) (Milvus.rows c).

(** The score that [_format_results] gives to a distance in doubles. *)
Definition normalized64 (d s : Q) : Prop :=
  s == Float64.round (1 / Float64.round (1 + d)) /\
  0 < s /\ s <= 1 /\ (d == 0 -> s == 1).

(** A distance that is a finite double or lies between two. *)
Definition finite_distance (d : Q) : Prop := 0 <= d /\ d <= Float64.max_float.

Module IngestSpec.
(** A record that passes the validation of [BaiChayTourismDAO]. *)
Definition well_formed (item : Item) : bool :=
  forallb (fun field => has_field field item)
          BaiChayTourismDAO.required_fields &&
  len_is item "description_vector" BaiChayTourismDAO.DESCRIPTION_VECTOR_DIM.

(** A record that passes the validation of [TourismMultimodalDAO]. *)
Definition well_formed_multimodal (item : Item) : bool :=
  forallb (fun field => has_field field item)
          TourismMultimodalDAO.required_fields &&
  len_is item "image_vector" TourismMultimodalDAO.IMAGE_VECTOR_DIM &&
  len_is item "description_vector" TourismMultimodalDAO.DESCRIPTION_VECTOR_DIM.

(** A server that takes every batch. *)
Definition accept_all (c : Milvus.Collection) (columns : list (list value))
    : bool := true.

(** A record with [price_min > price_max] and a rating of 9. *)
Definition odd_prices : Item :=
  [("id", VInt 1); ("name", VStr "Sun World Halong Park");
   ("type", VStr "diem-den"); ("description", VStr "park");
   ("price_min", VFloat 5); ("price_max", VFloat 1); ("rating", VFloat 9);
   ("description_vector", VVec (repeat 0 768))].

(** A record without [description_vector]. *)
Definition no_vector : Item :=
  [("id", VInt 2); ("name", VStr "Bai Chay"); ("type", VStr "diem-den");
   ("description", VStr "beach")].

Definition beach : Item :=
  [("id", VInt 1); ("location", VStr "Da Nang"); ("type", VStr "beach");
   ("description", VStr "My Khe"); ("image_url", VStr "");
   ("price", VFloat 0); ("image_vector", VVec (repeat 0 512));
   ("description_vector", VVec (repeat 0 768))].

(** [beach] with an image vector of length 3. *)
Definition short_vector : Item :=
  [("id", VInt 3); ("location", VStr "Hoi An"); ("type", VStr "historical");
   ("description", VStr "old town"); ("image_url", VStr "");
   ("price", VFloat 120000); ("image_vector", VVec [0; 0; 0]);
   ("description_vector", VVec (repeat 0 768))].

Definition empty_dao : BaiChayTourismDAO.DAO :=
  {| BaiChayTourismDAO.collection := Milvus.empty |}.

(** The text and the image collection hold rows with the same ids and
    display attributes, in the same order. *)
Definition agree (self : TourismMultimodalDAO.DAO) : Prop :=
  display (TourismMultimodalDAO.text_collection self) =
  display (TourismMultimodalDAO.image_collection self).

End IngestSpec.

(** ** Collection schemas and index parameters *)

Module Schema.

Inductive DataType : Type := INT64 | VARCHAR | FLOAT | FLOAT_VECTOR.

(** [FieldSchema(name=..., dtype=..., is_primary=..., auto_id=...,
    max_length=..., dim=...)] *)
Record FieldSchema : Type := {
  name : string;
  dtype : DataType;
  is_primary : bool;
  auto_id : bool;
  max_length : option Z;
  dim : option nat
}.

(** [CollectionSchema(fields=..., description=..., enable_dynamic_field=...)] *)
Record CollectionSchema : Type := {
  fields : list FieldSchema;
  description : string;
  enable_dynamic_field : bool
}.

Definition primary (n : string) : FieldSchema :=
  {| name := n; dtype := INT64; is_primary := true; auto_id := false;
     max_length := None; dim := None |}.

Definition varchar (n : string) (len : Z) : FieldSchema :=
  {| name := n; dtype := VARCHAR; is_primary := false; auto_id := false;
     max_length := Some len; dim := None |}.

Definition scalar (n : string) (t : DataType) : FieldSchema :=
  {| name := n; dtype := t; is_primary := false; auto_id := false;
     max_length := None; dim := None |}.

Definition float_vector (n : string) (d : nat) : FieldSchema :=
  {| name := n; dtype := FLOAT_VECTOR; is_primary := false; auto_id := false;
     max_length := None; dim := Some d |}.

End Schema.

Module MultimodalSchema.
Import Schema.

(** [_create_text_schema] *)
Definition create_text_schema : CollectionSchema :=
  {| fields :=
       [primary "id";
        varchar "location" 255;
        varchar "type" 100;
        varchar "description" 2000;
        varchar "image_url" 500;
        scalar "price" FLOAT;
        float_vector "description_vector"
          TourismMultimodalDAO.DESCRIPTION_VECTOR_DIM];
     description := "Tourism text search collection";
     enable_dynamic_field := true |}.

(** [_create_image_schema] *)
Definition create_image_schema : CollectionSchema :=
  {| fields :=
       [primary "id";
        varchar "location" 255;
        varchar "type" 100;
        varchar "description" 2000;
        varchar "image_url" 500;
        scalar "price" FLOAT;
        float_vector "image_vector" TourismMultimodalDAO.IMAGE_VECTOR_DIM];
     description := "Tourism image search collection";
     enable_dynamic_field := true |}.

End MultimodalSchema.

Module BaiChaySchema.
Import Schema.

(** [_create_schema] *)
Definition create_schema : CollectionSchema :=
  {| fields :=
       [primary "id";
        varchar "name" 500;
        varchar "type" 100;
        varchar "sub_type" 200;
        varchar "location" 500;
        varchar "address" 1000;
        varchar "description" 65000;
        varchar "price_range" 200;
        scalar "price_min" FLOAT;
        scalar "price_max" FLOAT;
        varchar "opening_hours" 200;
        varchar "image_urls" 5000;
        scalar "rating" FLOAT;
        scalar "view_count" INT64;
        varchar "url" 500;
        float_vector "description_vector"
          BaiChayTourismDAO.DESCRIPTION_VECTOR_DIM];
     description := "Bãi Cháy tourism unified collection";
     enable_dynamic_field := true |}.

End BaiChaySchema.

(** ** [insert_crawled_data.py]: crawl every category and insert it *)

Module InsertCrawledData.

Definition MAX_ITEMS_PER_CATEGORY : option Z := None.
Definition MAX_PAGES_PER_CATEGORY : Z := 12.
Definition USE_SAFE_METHOD : bool := true.

Definition CATEGORIES_TO_CRAWL : list string :=
  ["diem-den"; "luu-tru"; "tour"; "nha-hang"; "am-thuc"; "du-thuyen"].

(** *** The objects the crawler returns

    [items] is a list of references.  The loop that assigns the ids
    changes the dicts they refer to, so a dict that is in the list twice
    is changed twice; an entry that is no dict makes the assignment
    raise. *)

Definition address : Type := nat.

(** The dicts the crawler has built, by address. *)
Definition Heap : Type := address -> Item.

(** An entry of the list: a reference to a dict, or something else. *)
Inductive entry : Type :=
| Dict (a : address)
| Other.

(** What [crawl_category] returns: the list, and the dicts it refers to. *)
Record Crawled : Type := {
  heap : Heap;
  items : list entry
}.

(** The heap after an assignment to the dict at [a]. *)
Definition update (h : Heap) (a : address) (item : Item) : Heap :=
  fun b => if Nat.eqb b a then item else h b.

(** [for item in items: item["id"] = id_counter; id_counter += 1]: the
    outcome, the heap and the counter the loop leaves.  It raises
    [TypeError] at the first entry that is no dict. *)
Fixpoint assign_ids (items : list entry) (h : Heap) (id_counter : Z)
    : result unit * Heap * Z :=
  match items with
  | [] => (Ok tt, h, id_counter)
  | Dict a :: rest =>
      assign_ids rest
        (update h a (dict_set String.eqb "id" (VInt id_counter) (h a)))
        (id_counter + 1)
  | Other :: _ => (Raise TypeError, h, id_counter)
  end.

(** The dicts of a list as a reader finds them, entry by entry. *)
Definition values (h : Heap) (items : list entry) : list Item :=
  flat_map (fun e => match e with Dict a => [h a] | Other => [] end) items.

(** [{k: v for k, v in item.items() if k != "description_vector"}] *)
Definition without_vector (item : Item) : Item :=
  filter (fun kv => negb (String.eqb (fst kv) "description_vector")) item.

(** [f"backup_{category}.json"] *)
Definition backup_file (category : string) : string :=
  ("backup_" ++ category ++ ".json")%string.

(** *** Files

    A backup file holds the list that was dumped into it, or what a dump
    that raised left of it. *)
Inductive File : Type :=
| Json (records : list Item)
| Incomplete.

(** How [with open(backup_file, 'w') as f: json.dump(..., f)] ends: the
    list is written; or [open] raises and the file is as before; or
    [json.dump] raises after [open] has emptied the file. *)
Inductive Written : Type :=
| Complete
| NotOpened
| Broken.

(** What [main] carries from one category to the next: the DAO, the two
    counters and the files.  [calls] is no variable of [main]: it keeps,
    in call order, the batch of every call of [dao.insert_data] and what
    the call gave, for the statements about the run. *)
Record Run : Type := {
  dao : BaiChayTourismDAO.DAO;
  total_inserted : Z;
  id_counter : Z;
  files : @dict string File;
  calls : list (list Item * result (list value))
}.

Section Main.
(** [crawler.crawl_category(category, max_items=..., max_pages=...,
    use_safe_method=...)]: the crawler is not part of these files. *)
Variable crawl_category : string -> option Z -> Z -> bool -> result Crawled.

(** [dao.insert_data(items)]: the outcome of the call and the DAO it
    leaves.  [BaiChayTourismDAO.insert_data accepts] is the embedded
    method, which only reads the records; the loop is described for any
    outcome of the call and any DAO it leaves. *)
Variable insert_data :
  BaiChayTourismDAO.DAO -> list Item ->
  result (list value) * BaiChayTourismDAO.DAO.

(** How the write of a backup file ends. *)
Variable write : string -> list Item -> Written.

Definition write_backup (name : string) (records : list Item)
    (fs : @dict string File) : @dict string File :=
  match write name records with
  | Complete => dict_set String.eqb name (Json records) fs
  | NotOpened => fs
  | Broken => dict_set String.eqb name Incomplete fs
  end.

(** Body of [for category in CATEGORIES_TO_CRAWL]: an exception anywhere
    in it is logged and the loop goes on with what has been done so far. *)
Definition process_category (run : Run) (category : string) : Run :=
  match crawl_category category MAX_ITEMS_PER_CATEGORY
          MAX_PAGES_PER_CATEGORY USE_SAFE_METHOD with
  | Raise _ => run
  | Ok crawled =>
      match items crawled with
      | [] => run
      | _ :: _ =>
          match assign_ids (items crawled) (heap crawled) (id_counter run) with
          | (Raise _, _, counter) =>
              {| dao := dao run;
                 total_inserted := total_inserted run;
                 id_counter := counter;
                 files := files run;
                 calls := calls run |}
          | (Ok _, h, counter) =>
              let batch := values h (items crawled) in
              match insert_data (dao run) batch with
              | (Raise e, dao') =>
                  {| dao := dao';
                     total_inserted := total_inserted run;
                     id_counter := counter;
                     files := files run;
                     calls := calls run ++ [(batch, Raise e)] |}
              | (Ok inserted_ids, dao') =>
                  {| dao := dao';
                     total_inserted :=
                       (total_inserted run +
                        Z.of_nat (length inserted_ids))%Z;
                     id_counter := counter;
                     files := write_backup (backup_file category)
                                (map without_vector batch) (files run);
                     calls := calls run ++ [(batch, Ok inserted_ids)] |}
              end
          end
      end
  end.

(** The loop over a list of categories. *)
Definition process_all (categories : list string) (run : Run) : Run :=
  fold_left process_category categories run.

(** [main], given the outcome of building the crawler and the DAO: when
    that raises nothing is done; otherwise the loop runs from
    [total_inserted = 0] and [id_counter = 1].  The statistics and the
    test searches that follow the loop only log. *)
Definition main (opened : result BaiChayTourismDAO.DAO)
    (files0 : @dict string File) : option Run :=
  match opened with
  | Raise _ => None
  | Ok dao0 =>
      Some (process_all CATEGORIES_TO_CRAWL
              {| dao := dao0; total_inserted := 0%Z; id_counter := 1%Z;
                 files := files0; calls := [] |})
  end.
End Main.

End InsertCrawledData.

(** ** Vocabulary of the further statements *)

Module ExtraSpec.

(** The fields of a [BaiChayTourismDAO] row in the order of the list
    [entities], each with the default [insert_data] gives it ([VNone] for
    the fields that are read with [item[...]]). *)
Definition entity_fields : list (string * value) :=
  [("id", VNone); ("name", VNone); ("type", VNone);
   ("sub_type", VStr ""); ("location", VStr "Bãi Cháy, Quảng Ninh");
   ("address", VStr ""); ("description", VNone);
   ("price_range", VStr ""); ("price_min", VFloat 0);
   ("price_max", VFloat 0); ("opening_hours", VStr "");
   ("image_urls", VStr "[]"); ("rating", VFloat 0);
   ("view_count", VInt 0); ("url", VStr "");
   ("description_vector", VNone)].

(** The row of one record of [BaiChayTourismDAO]. *)
Definition row_of (item : Item) : Milvus.row :=
  map (fun fd => get_default item (fst fd) (snd fd)) entity_fields.

(** The row of one record under a schema: the record's value for every
    field of the schema, in schema order. *)
Definition row_for (schema : Schema.CollectionSchema) (item : Item)
    : Milvus.row :=
  map (fun fs => get_default item (Schema.name fs) VNone)
      (Schema.fields schema).

(** [s * n] *)
Fixpoint str_repeat (s : string) (n : nat) : string :=
  match n with
  | O => ""
  | S m => (s ++ str_repeat s m)%string
  end.

(** ['é' * 768]: 768 code points, held in 1536 bytes. *)
Definition accented : string := str_repeat "é" 768.

(** The first required field a record lacks. *)
Definition first_missing (required : list string) (item : Item)
    : option string :=
  find (fun field => negb (has_field field item)) required.

(** A server that takes a batch only when its last column holds vectors
    of length 768: it takes the text batches and refuses the image ones. *)
Definition text_only_server (c : Milvus.Collection)
    (columns : list (list value)) : bool :=
  match last columns [] with
  | VVec v :: _ => (length v =? 768)%nat
  | _ => false
  end.

(** The addresses a crawled list refers to, entry by entry. *)
Definition addresses (items : list InsertCrawledData.entry) : list nat :=
  flat_map (fun e => match e with
                     | InsertCrawledData.Dict a => [a]
                     | InsertCrawledData.Other => []
                     end) items.

(** A crawler that never returns a list with the same dict in it twice. *)
Definition no_alias
    (crawl : string -> option Z -> Z -> bool ->
             result InsertCrawledData.Crawled) : Prop :=
  forall category max_items max_pages safe crawled,
    crawl category max_items max_pages safe = Ok crawled ->
    NoDup (addresses (InsertCrawledData.items crawled)).

(** The ids of the records of a batch, as [item.get("id")] reads them. *)
Definition ids_read (batch : list Item) : list (option value) :=
  map (dict_get String.eqb "id") batch.

(** The records handed to [dao.insert_data] by a list of calls. *)
Definition handed (calls : list (list Item * result (list value)))
    : list Item :=
  concat (map fst calls).




(** The ids handed over by a stretch of the loop are [ids], in this
    order; they increase strictly and lie between the two counters. *)
Definition increasing_ids (run0 run : InsertCrawledData.Run)
    (new : list (list Item * result (list value))) (ids : list Z) : Prop :=
  ids_read (handed new) = map (fun z => Some (VInt z)) ids /\
  StronglySorted Z.lt ids /\
  Forall (fun z => (InsertCrawledData.id_counter run0 <= z <
                    InsertCrawledData.id_counter run)%Z) ids.


(** The dicts of the sample crawler: two parks and a beach without
    vector. *)
Definition sample_heap : InsertCrawledData.Heap :=
  fun a => match a with
           | O => IngestSpec.odd_prices
           | S O => dict_set String.eqb "name" (VStr "Bai Tho") IngestSpec.odd_prices
           | _ => IngestSpec.no_vector
           end.

(** A crawler that finds two records for ["tour"], fails on ["luu-tru"],
    finds a record without vector for ["am-thuc"], a record and something
    that is no dict for ["nha-hang"], and nothing elsewhere. *)
Definition sample_crawl (category : string) (max_items : option Z)
    (max_pages : Z) (safe : bool) : result InsertCrawledData.Crawled :=
  if String.eqb category "tour"
  then Ok {| InsertCrawledData.heap := sample_heap;
             InsertCrawledData.items :=
               [InsertCrawledData.Dict 0%nat; InsertCrawledData.Dict 1%nat] |}
  else if String.eqb category "luu-tru" then Raise MilvusException
  else if String.eqb category "am-thuc"
  then Ok {| InsertCrawledData.heap := sample_heap;
             InsertCrawledData.items := [InsertCrawledData.Dict 2%nat] |}
  else if String.eqb category "nha-hang"
  then Ok {| InsertCrawledData.heap := sample_heap;
             InsertCrawledData.items :=
               [InsertCrawledData.Dict 0%nat; InsertCrawledData.Other] |}
  else Ok {| InsertCrawledData.heap := sample_heap;
             InsertCrawledData.items := [] |}.

(** A crawler whose list for every category holds one dict twice. *)
Definition aliasing_crawl (category : string) (max_items : option Z)
    (max_pages : Z) (safe : bool) : result InsertCrawledData.Crawled :=
  Ok {| InsertCrawledData.heap := sample_heap;
        InsertCrawledData.items :=
          [InsertCrawledData.Dict 0%nat; InsertCrawledData.Dict 0%nat] |}.

(** Every backup is written in full. *)
Definition write_all (name : string) (records : list Item)
    : InsertCrawledData.Written :=
  InsertCrawledData.Complete.

(** The dump of the backup of ["tour"] raises. *)
Definition write_but_tour (name : string) (records : list Item)
    : InsertCrawledData.Written :=
  if String.eqb name "backup_tour.json" then InsertCrawledData.Broken
  else InsertCrawledData.Complete.

Definition fresh_run : InsertCrawledData.Run :=
  {| InsertCrawledData.dao := IngestSpec.empty_dao;
     InsertCrawledData.total_inserted := 0%Z;
     InsertCrawledData.id_counter := 1%Z;
     InsertCrawledData.files := [];
     InsertCrawledData.calls := [] |}.

(** The run of [main] with the sample crawler on a new, empty collection,
    the embedded [insert_data] and a server that takes every batch. *)
Definition sample_run : InsertCrawledData.Run :=
  InsertCrawledData.process_all sample_crawl
    (BaiChayTourismDAO.insert_data IngestSpec.accept_all) write_all
    InsertCrawledData.CATEGORIES_TO_CRAWL fresh_run.


(** The [n] integers from [c] on. *)
Definition consecutive (c : Z) (n : nat) : list Z :=
  map (fun k => (c + Z.of_nat k)%Z) (seq 0 n).

(** All scores of a result list lie in [0, 1]. *)
Definition unit_scores (l : list TourismMultimodalDAO.SearchResult) : Prop :=
  Forall (fun r => 0 <= TourismMultimodalDAO.score r /\
                   TourismMultimodalDAO.score r <= 1) l.

End ExtraSpec.

(** ** The server's registry of databases and collections

    What [connections], [db], [utility] and [Collection] do, as far as the
    DAOs rely on it.  The process has one connection, the alias
    ["default"] that both DAOs name, and the database in use belongs to
    it.  Collections live in the database in use; creating a
    database or a collection that exists, using a database or opening a
    collection that does not, and loading a collection without index are
    refused.  A call returns the new state of the server; what a refused
    call leaves behind is not described. *)

Module Registry.

(** [index_params]: metric, index type and [nlist]. *)
Record IndexParams : Type := {
  metric_type : string;
  index_type : string;
  nlist : Z
}.

Record Stored : Type := {
  schema : Schema.CollectionSchema;
  index : option (string * IndexParams);
  loaded : bool;
  content : Milvus.Collection
}.

Record Server : Type := {
  reachable : bool;
  databases : list string;
  in_use : string;
  collections : @dict (string * string) Stored
}.

Definition stateful (A : Type) : Type := Server -> result (A * Server).

Definition ret {A : Type} (a : A) : stateful A := fun s => Ok (a, s).

Definition bindS {A B : Type} (m : stateful A) (f : A -> stateful B)
    : stateful B :=
  fun s => match m s with
           | Ok (a, s') => f a s'
           | Raise e => Raise e
           end.

Definition name_eqb (a b : string * string) : bool :=
  String.eqb (fst a) (fst b) && String.eqb (snd a) (snd b).

Definition in_names (n : string) (l : list string) : bool :=
  existsb (String.eqb n) l.

(** The collection of that name in the database in use. *)
Definition lookup (n : string) (s : Server) : option Stored :=
  dict_get name_eqb (in_use s, n) (collections s).

Definition store (n : string) (c : Stored) (s : Server) : Server :=
  {| reachable := reachable s;
     databases := databases s;
     in_use := in_use s;
     collections := dict_set name_eqb (in_use s, n) c (collections s) |}.

(** [connections.disconnect("default")] followed by
    [connections.connect(alias="default", host=..., port=...)]: a new
    connection uses the database ["default"]. *)
Definition connect : stateful unit :=
  fun s =>
    if reachable s
    then Ok (tt, {| reachable := true;
                    databases := databases s;
                    in_use := "default";
                    collections := collections s |})
    else Raise MilvusException.

(** [db.list_database()] *)
Definition list_database : stateful (list string) :=
  fun s => Ok (databases s, s).

(** [db.create_database(name)] *)
Definition create_database (n : string) : stateful unit :=
  fun s =>
    if in_names n (databases s) then Raise MilvusException
    else Ok (tt, {| reachable := reachable s;
                    databases := databases s ++ [n];
                    in_use := in_use s;
                    collections := collections s |}).

(** [db.using_database(name)] *)
Definition using_database (n : string) : stateful unit :=
  fun s =>
    if in_names n (databases s)
    then Ok (tt, {| reachable := reachable s;
                    databases := databases s;
                    in_use := n;
                    collections := collections s |})
    else Raise MilvusException.

(** [utility.has_collection(name)] *)
Definition has_collection (n : string) : stateful bool :=
  fun s => Ok (match lookup n s with Some _ => true | None => false end, s).

(** [Collection(name)] *)
Definition open_collection (n : string) : stateful unit :=
  fun s => match lookup n s with
           | Some _ => Ok (tt, s)
           | None => Raise MilvusException
           end.

(** [Collection(name=..., schema=...)] *)
Definition new_collection (n : string) (sch : Schema.CollectionSchema)
    : stateful unit :=
  fun s => match lookup n s with
           | Some _ => Raise MilvusException
           | None =>
               Ok (tt, store n {| schema := sch; index := None;
                                  loaded := false;
                                  content := Milvus.empty |} s)
           end.

(** [collection.create_index(field_name=..., index_params=...)] *)
Definition create_index (n field : string) (params : IndexParams)
    : stateful unit :=
  fun s => match lookup n s with
           | Some c =>
               Ok (tt, store n {| schema := schema c;
                                  index := Some (field, params);
                                  loaded := loaded c;
                                  content := content c |} s)
           | None => Raise MilvusException
           end.

(** [collection.load()] *)
Definition load (n : string) : stateful unit :=
  fun s => match lookup n s with
           | Some c =>
               match index c with
               | Some _ =>
                   Ok (tt, store n {| schema := schema c;
                                      index := index c;
                                      loaded := true;
                                      content := content c |} s)
               | None => Raise MilvusException
               end
           | None => Raise MilvusException
           end.

(** [utility.drop_collection(name)] *)
Definition drop (n : string) : stateful unit :=
  fun s => match lookup n s with
           | Some _ =>
               Ok (tt, {| reachable := reachable s;
                          databases := databases s;
                          in_use := in_use s;
                          collections :=
                            filter (fun kc => negb (name_eqb (fst kc) (in_use s, n)))
                                   (collections s) |})
           | None => Raise MilvusException
           end.

End Registry.

(** ** Opening and dropping the collection of [BaiChayTourismDAO] *)

Module BaiChaySetup.
Import Registry.

Notation "x <~ m ;; k" := (bindS m (fun x => k))
  (at level 61, m at next level, right associativity).

Definition DATABASE_NAME : string := "bai_chay_tourism_db".
Definition COLLECTION_NAME : string := "bai_chay_data".

(** [connect] *)
Definition connect : stateful unit := Registry.connect.

(** [switch_database] *)
Definition switch_database : stateful unit :=
  databases <~ list_database ;;
  _ <~ (if in_names DATABASE_NAME databases then ret tt
        else create_database DATABASE_NAME) ;;
  using_database DATABASE_NAME.

(** [_get_or_create_collection]: the collection object it returns is the
    collection of that name. *)
Definition get_or_create_collection : stateful unit :=
  found <~ has_collection COLLECTION_NAME ;;
  _ <~ (if found then open_collection COLLECTION_NAME
        else
          _ <~ new_collection COLLECTION_NAME BaiChaySchema.create_schema ;;
          create_index COLLECTION_NAME "description_vector"
            {| metric_type := "COSINE"; index_type := "IVF_FLAT";
               nlist := 256 |}) ;;
  load COLLECTION_NAME.

(** [__init__]: the DAO works on the content of the collection. *)
Definition init : stateful BaiChayTourismDAO.DAO :=
  _ <~ connect ;;
  _ <~ switch_database ;;
  _ <~ get_or_create_collection ;;
  fun s => match lookup COLLECTION_NAME s with
           | Some c => Ok ({| BaiChayTourismDAO.collection := content c |}, s)
           | None => Raise MilvusException
           end.

(** [drop_collection] *)
Definition drop_collection : stateful unit :=
  found <~ has_collection COLLECTION_NAME ;;
  if found then drop COLLECTION_NAME else ret tt.

End BaiChaySetup.

(** ** Opening and dropping the collections of [TourismMultimodalDAO] *)

Module MultimodalSetup.
Import Registry.

Notation "x <~ m ;; k" := (bindS m (fun x => k))
  (at level 61, m at next level, right associativity).

Definition DATABASE_NAME : string := "du_lich_db".
Definition TEXT_COLLECTION_NAME : string := "tourism_text_search".
Definition IMAGE_COLLECTION_NAME : string := "tourism_image_search".

(** [connect] *)
Definition connect : stateful unit := Registry.connect.

(** [switch_database] *)
Definition switch_database : stateful unit :=
  databases <~ list_database ;;
  _ <~ (if in_names DATABASE_NAME databases then ret tt
        else create_database DATABASE_NAME) ;;
  using_database DATABASE_NAME.

(** [_get_or_create_text_collection] *)
Definition get_or_create_text_collection : stateful unit :=
  found <~ has_collection TEXT_COLLECTION_NAME ;;
  _ <~ (if found then open_collection TEXT_COLLECTION_NAME
        else
          _ <~ new_collection TEXT_COLLECTION_NAME
                 MultimodalSchema.create_text_schema ;;
          create_index TEXT_COLLECTION_NAME "description_vector"
            {| metric_type := "COSINE"; index_type := "IVF_FLAT";
               nlist := 128 |}) ;;
  load TEXT_COLLECTION_NAME.

(** [_get_or_create_image_collection] *)
Definition get_or_create_image_collection : stateful unit :=
  found <~ has_collection IMAGE_COLLECTION_NAME ;;
  _ <~ (if found then open_collection IMAGE_COLLECTION_NAME
        else
          _ <~ new_collection IMAGE_COLLECTION_NAME
                 MultimodalSchema.create_image_schema ;;
          create_index IMAGE_COLLECTION_NAME "image_vector"
            {| metric_type := "L2"; index_type := "IVF_FLAT";
               nlist := 128 |}) ;;
  load IMAGE_COLLECTION_NAME.

(** [__init__] *)
Definition init : stateful TourismMultimodalDAO.DAO :=
  _ <~ connect ;;
  _ <~ switch_database ;;
  _ <~ get_or_create_text_collection ;;
  _ <~ get_or_create_image_collection ;;
  fun s =>
    match lookup TEXT_COLLECTION_NAME s, lookup IMAGE_COLLECTION_NAME s with
    | Some t, Some i =>
        Ok ({| TourismMultimodalDAO.text_collection := content t;
               TourismMultimodalDAO.image_collection := content i |}, s)
    | _, _ => Raise MilvusException
    end.

(** [drop_collections] *)
Definition drop_collections : stateful unit :=
  found <~ has_collection TEXT_COLLECTION_NAME ;;
  _ <~ (if found then drop TEXT_COLLECTION_NAME else ret tt) ;;
  found' <~ has_collection IMAGE_COLLECTION_NAME ;;
  if found' then drop IMAGE_COLLECTION_NAME else ret tt.

End MultimodalSetup.

(** ** Vocabulary for the registry *)

Module SetupSpec.
Import Registry.

(** The collection [n] of the database [d]. *)
Definition stored_in (d n : string) (s : Server) : option Stored :=
  dict_get name_eqb (d, n) (collections s).

(** A stored collection once it is loaded. *)
Definition opened (c : Stored) : Stored :=
  {| schema := schema c; index := index c; loaded := true;
     content := content c |}.

(** An empty collection with schema and index, loaded. *)
Definition created (sch : Schema.CollectionSchema) (field : string)
    (params : IndexParams) : Stored :=
  {| schema := sch; index := Some (field, params); loaded := true;
     content := Milvus.empty |}.

(** What opening makes of the collection found under a name, if it can be
    loaded. *)
Definition prepared (sch : Schema.CollectionSchema) (field : string)
    (params : IndexParams) (found : option Stored) : option Stored :=
  match found with
  | Some c => match index c with
              | Some _ => Some (opened c)
              | None => None
              end
  | None => Some (created sch field params)
  end.

(** The server after [connect] has succeeded. *)
Definition connected (s : Server) : Server :=
  {| reachable := true;
     databases := databases s;
     in_use := "default";
     collections := collections s |}.

(** The server after the connection has switched to the database [d]. *)
Definition switched (d : string) (s : Server) : Server :=
  {| reachable := reachable s;
     databases := if in_names d (databases s) then databases s
                  else databases s ++ [d];
     in_use := d;
     collections := collections s |}.

(** The common shape of [switch_database] in both DAOs. *)
Definition switch_to (d : string) : stateful unit :=
  bindS list_database (fun databases =>
  bindS (if in_names d databases then ret tt else create_database d)
        (fun _ => using_database d)).

(** The common shape of the [_get_or_create_*] methods. *)
Definition ensure (n : string) (sch : Schema.CollectionSchema)
    (field : string) (params : IndexParams) : stateful unit :=
  bindS (has_collection n) (fun found =>
  bindS (if found then open_collection n
         else bindS (new_collection n sch)
                    (fun _ => create_index n field params))
        (fun _ => load n)).

(** The common shape of dropping a collection if it is there. *)
Definition drop_if_there (n : string) : stateful unit :=
  bindS (has_collection n) (fun found => if found then drop n else ret tt).

(** The server without the collection [n] of the database in use. *)
Definition without (n : string) (s : Server) : Server :=
  {| reachable := reachable s;
     databases := databases s;
     in_use := in_use s;
     collections :=
       filter (fun kc => negb (name_eqb (fst kc) (in_use s, n)))
              (collections s) |}.

Definition cosine (n : Z) : IndexParams :=
  {| metric_type := "COSINE"; index_type := "IVF_FLAT"; nlist := n |}.

Definition l2 (n : Z) : IndexParams :=
  {| metric_type := "L2"; index_type := "IVF_FLAT"; nlist := n |}.

(** A reachable server that holds only the database ["default"]. *)
Definition new_server : Server :=
  {| reachable := true;
     databases := ["default"];
     in_use := "default";
     collections := [] |}.

(** A server on which the Bai Chay collection exists with one row,
    indexed and not loaded. *)
Definition used_server : Server :=
  {| reachable := true;
     databases := ["default"; "bai_chay_tourism_db"];
     in_use := "default";
     collections :=
       [(("bai_chay_tourism_db", "bai_chay_data"),
         {| schema := BaiChaySchema.create_schema;
            index := Some ("description_vector", cosine 256);
            loaded := false;
            content := {| Milvus.persisted := [[VInt 1]];
                          Milvus.pending := [] |} |})] |}.

End SetupSpec.

(** * Properties *)

(** ** Facts about insertion-ordered dictionaries *)

Section PyDictFacts.
Context {K V : Type}.
Variable eqb : K -> K -> bool.
Hypothesis eqb_eq : forall a b, eqb a b = true <-> a = b.

Lemma eqb_refl_true (k : K) : eqb k k = true.
Proof. now apply eqb_eq. Qed.

Lemma dict_get_set (k k' : K) (v : V) (d : dict) :
  dict_get eqb k (dict_set eqb k' v d) =
  if eqb k k' then Some v else dict_get eqb k d.
Proof.
  induction d as [|[k0 v0] d IH]; simpl; [reflexivity|].
  destruct (eqb k' k0) eqn:E'; simpl.
  - apply eqb_eq in E'; subst k0. now destruct (eqb k k').
  - destruct (eqb k k0) eqn:E; [|exact IH].
    destruct (eqb k k') eqn:E2; [|reflexivity].
    apply eqb_eq in E, E2; subst.
    rewrite eqb_refl_true in E'; discriminate.
Qed.

Lemma dict_mem_In (k : K) (d : @dict K V) :
  dict_mem eqb k d = true <-> In k (dict_keys d).
Proof.
  unfold dict_mem; induction d as [|[k0 v0] d IH]; simpl.
  - split; [discriminate | tauto].
  - destruct (eqb k k0) eqn:E.
    + apply eqb_eq in E; subst; tauto.
    + rewrite IH; split; [tauto|].
      intros [H|H]; [|exact H].
      subst; rewrite eqb_refl_true in E; discriminate.
Qed.

Lemma dict_keys_set (k : K) (v : V) (d : dict) :
  dict_keys (dict_set eqb k v d) =
  if dict_mem eqb k d then dict_keys d else dict_keys d ++ [k].
Proof.
  unfold dict_mem; induction d as [|[k0 v0] d IH]; simpl; [reflexivity|].
  destruct (eqb k k0) eqn:E; simpl; [reflexivity|].
  unfold dict_keys in *; rewrite IH.
  now destruct (dict_get eqb k d).
Qed.

Lemma dict_set_length (k : K) (v : V) (d : dict) :
  length (dict_set eqb k v d) =
  if dict_mem eqb k d then length d else S (length d).
Proof.
  rewrite <- !(length_map fst); fold (dict_keys (dict_set eqb k v d)).
  rewrite dict_keys_set; fold (dict_keys d).
  destruct (dict_mem eqb k d); [reflexivity|].
  rewrite length_app; simpl; lia.
Qed.

Lemma dict_keys_set_NoDup (k : K) (v : V) (d : dict) :
  NoDup (dict_keys d) -> NoDup (dict_keys (dict_set eqb k v d)).
Proof.
  intros H; rewrite dict_keys_set.
  destruct (dict_mem eqb k d) eqn:E; [exact H|].
  apply NoDup_app; [exact H | repeat constructor; intros [] |].
  intros x Hx [Hk|[]]; subst x.
  apply dict_mem_In in Hx; congruence.
Qed.

Lemma dict_get_In (k : K) (v : V) (d : dict) :
  dict_get eqb k d = Some v -> In (k, v) d.
Proof.
  induction d as [|[k0 v0] d IH]; simpl; [discriminate|].
  destruct (eqb k k0) eqn:E.
  - apply eqb_eq in E; subst; intros [= ->]; now left.
  - intros H; right; auto.
Qed.

Lemma dict_In_get (k : K) (v : V) (d : dict) :
  NoDup (dict_keys d) -> In (k, v) d -> dict_get eqb k d = Some v.
Proof.
  induction d as [|[k0 v0] d IH]; simpl; [tauto|].
  intros Hnd [H|H].
  - injection H as -> ->; now rewrite eqb_refl_true.
  - inversion Hnd as [|? ? Hnotin Hnd']; subst.
    destruct (eqb k k0) eqn:E.
    + apply eqb_eq in E; subst.
      exfalso; apply Hnotin; apply (in_map fst) in H; exact H.
    + auto.
Qed.

Section Fold.
Context {R : Type}.
Variable key : R -> K.
Variable f : option V -> R -> V.

Lemma fold_update_get (l : list R) (d : dict) (k : K) :
  dict_get eqb k (fold_left (update_step eqb key f) l d) =
  fold_left (fun acc r => Some (f acc r))
            (filter (fun r => eqb k (key r)) l) (dict_get eqb k d).
Proof.
  revert d; induction l as [|r l IH]; intros d; simpl; [reflexivity|].
  rewrite IH; unfold update_step; rewrite dict_get_set.
  destruct (eqb k (key r)) eqn:E; simpl; [|reflexivity].
  apply eqb_eq in E; now subst.
Qed.

Lemma fold_update_NoDup (l : list R) (d : dict) :
  NoDup (dict_keys d) -> NoDup (dict_keys (fold_left (update_step eqb key f) l d)).
Proof.
  revert d; induction l as [|r l IH]; intros d H; simpl; [exact H|].
  apply IH, dict_keys_set_NoDup, H.
Qed.
End Fold.
End PyDictFacts.

(** ** Facts about the stable descending sort and the slice *)

Lemma Qlt_bool_iff (a b : Q) : Qlt_bool a b = true <-> a < b.
Proof.
  unfold Qlt_bool; rewrite negb_true_iff.
  destruct (Qle_bool b a) eqn:E.
  - apply Qle_bool_iff in E; split; [discriminate|].
    intros H; exfalso; exact (Qlt_not_le _ _ H E).
  - split; [intros _ | reflexivity].
    apply Qnot_le_lt; intros H; apply Qle_bool_iff in H; congruence.
Qed.

Lemma Qlt_bool_false_iff (a b : Q) : Qlt_bool a b = false <-> b <= a.
Proof.
  unfold Qlt_bool; rewrite negb_false_iff; apply Qle_bool_iff.
Qed.

Lemma StronglySorted_snoc {A : Type} (R : A -> A -> Prop) (l : list A) (x : A) :
  StronglySorted R l -> Forall (fun y => R y x) l -> StronglySorted R (l ++ [x]).
Proof.
  induction 1 as [|y l Hs IH Hy]; intros Hx; simpl.
  - repeat constructor.
  - inversion Hx; subst; constructor; [auto|].
    apply Forall_app; split; [exact Hy | repeat constructor; assumption].
Qed.

Lemma StronglySorted_rev {A : Type} (R : A -> A -> Prop) (l : list A) :
  StronglySorted R l -> StronglySorted (fun a b => R b a) (rev l).
Proof.
  induction 1 as [|y l Hs IH Hy]; simpl; [constructor|].
  apply StronglySorted_snoc; [exact IH|].
  apply Forall_rev; exact Hy.
Qed.

Section PySortedFacts.
Context {A : Type}.
Variable key : A -> Q.

Lemma insert_asc_perm (x : A) (l : list A) :
  Permutation (insert_asc key x l) (x :: l).
Proof.
  induction l as [|y l IH]; simpl; [reflexivity|].
  destruct (Qlt_bool (key y) (key x)); [|reflexivity].
  rewrite IH; apply perm_swap.
Qed.

Lemma sort_asc_perm (l : list A) : Permutation (sort_asc key l) l.
Proof.
  induction l as [|x l IH]; simpl; [reflexivity|].
  rewrite insert_asc_perm; now constructor.
Qed.

Lemma insert_asc_head (x : A) (l : list A) :
  Forall (key_le key x) l -> insert_asc key x l = x :: l.
Proof.
  destruct l as [|y l]; simpl; [reflexivity|].
  intros H; inversion H as [|? ? Hy _]; subst.
  apply Qlt_bool_false_iff in Hy; now rewrite Hy.
Qed.

Lemma insert_asc_sorted (x : A) (l : list A) :
  StronglySorted (key_le key) l -> StronglySorted (key_le key) (insert_asc key x l).
Proof.
  induction 1 as [|y l Hs IH Hy]; simpl; [repeat constructor|].
  destruct (Qlt_bool (key y) (key x)) eqn:E.
  - constructor; [exact IH|].
    apply (Permutation_Forall (Permutation_sym (insert_asc_perm x l))).
    constructor; [|exact Hy].
    apply Qlt_bool_iff in E; apply Qlt_le_weak; exact E.
  - apply Qlt_bool_false_iff in E.
    constructor; [now constructor|].
    constructor; [exact E|].
    eapply Forall_impl; [|exact Hy].
    intros z Hz; unfold key_le in *; eapply Qle_trans; eassumption.
Qed.

Lemma sort_asc_sorted (l : list A) : StronglySorted (key_le key) (sort_asc key l).
Proof.
  induction l as [|x l IH]; simpl; [constructor|].
  now apply insert_asc_sorted.
Qed.

Lemma filter_insert_asc (P : A -> bool) (x : A) (l : list A) :
  StronglySorted (key_le key) l ->
  filter P (insert_asc key x l) =
  if P x then insert_asc key x (filter P l) else filter P l.
Proof.
  induction 1 as [|y l Hs IH Hy]; simpl.
  - now destruct (P x).
  - destruct (Qlt_bool (key y) (key x)) eqn:E; simpl.
    + rewrite IH.
      destruct (P y), (P x); simpl; try reflexivity.
      now rewrite E.
    + destruct (P x) eqn:Px; [|reflexivity].
      destruct (P y) eqn:Py; simpl; [now rewrite E|].
      symmetry; apply insert_asc_head.
      apply Qlt_bool_false_iff in E.
      apply incl_Forall with (l1 := l); [apply incl_filter|].
      eapply Forall_impl; [|exact Hy].
      intros z Hz; unfold key_le in *; eapply Qle_trans; eassumption.
Qed.

(** Sorting commutes with taking a sublist by a predicate. *)
Lemma sort_asc_filter (P : A -> bool) (l : list A) :
  filter P (sort_asc key l) = sort_asc key (filter P l).
Proof.
  induction l as [|x l IH]; simpl; [reflexivity|].
  rewrite filter_insert_asc by apply sort_asc_sorted.
  rewrite IH; now destruct (P x).
Qed.


Lemma py_sorted_reverse_perm (l : list A) :
  Permutation (py_sorted_reverse key l) l.
Proof.
  unfold py_sorted_reverse.
  rewrite <- Permutation_rev, sort_asc_perm; symmetry; apply Permutation_rev.
Qed.

Lemma py_sorted_reverse_In (x : A) (l : list A) :
  In x (py_sorted_reverse key l) <-> In x l.
Proof.
  split; apply Permutation_in;
    [|apply Permutation_sym]; apply py_sorted_reverse_perm.
Qed.

Lemma py_sorted_reverse_length (l : list A) :
  length (py_sorted_reverse key l) = length l.
Proof. apply Permutation_length, py_sorted_reverse_perm. Qed.

Lemma py_sorted_reverse_sorted (l : list A) :
  StronglySorted (key_ge key) (py_sorted_reverse key l).
Proof.
  unfold py_sorted_reverse.
  apply (StronglySorted_rev (R := key_le key)), sort_asc_sorted.
Qed.

Lemma py_sorted_reverse_filter (P : A -> bool) (l : list A) :
  filter P (py_sorted_reverse key l) = py_sorted_reverse key (filter P l).
Proof.
  unfold py_sorted_reverse.
  now rewrite filter_rev, sort_asc_filter, filter_rev.
Qed.


End PySortedFacts.

Lemma sort_asc_map {A B : Type} (key : B -> Q) (f : A -> B) (l : list A) :
  sort_asc key (map f l) = map f (sort_asc (fun a => key (f a)) l).
Proof.
  induction l as [|x l IH]; simpl; [reflexivity|].
  rewrite IH; generalize (sort_asc (fun a => key (f a)) l); intros s.
  induction s as [|y s IHs]; simpl; [reflexivity|].
  destruct (Qlt_bool (key (f y)) (key (f x))); simpl; [now rewrite IHs | reflexivity].
Qed.

Lemma py_sorted_reverse_map {A B : Type} (key : B -> Q) (f : A -> B) (l : list A) :
  py_sorted_reverse key (map f l) =
  map f (py_sorted_reverse (fun a => key (f a)) l).
Proof.
  unfold py_sorted_reverse.
  now rewrite <- map_rev, sort_asc_map, map_rev.
Qed.

Lemma py_slice_to_map {A B : Type} (f : A -> B) (k : Z) (l : list A) :
  py_slice_to k (map f l) = map f (py_slice_to k l).
Proof.
  unfold py_slice_to; rewrite length_map.
  destruct (0 <=? k)%Z; apply firstn_map.
Qed.


Lemma filter_firstn {A : Type} (P : A -> bool) (n : nat) (l : list A) :
  exists m, filter P (firstn n l) = firstn m (filter P l).
Proof.
  revert n; induction l as [|x l IH]; intros [|n]; simpl;
    try (exists 0%nat; reflexivity).
  destruct (IH n) as [m Hm]; rewrite Hm.
  destruct (P x); [exists (S m) | exists m]; reflexivity.
Qed.

Lemma Forall2_snoc_rev {A B : Type} (R : A -> B -> Prop) (l1 : list A) (l2 : list B) :
  Forall2 R l1 l2 -> Forall2 R (rev l1) (rev l2).
Proof.
  induction 1 as [|x y l1 l2 Hxy H IH]; simpl; [constructor|].
  apply Forall2_app; [exact IH | repeat constructor; exact Hxy].
Qed.

(** Sorting two lists whose keys agree entry by entry moves the entries in
    the same way. *)
Section SortTogether.
Context {A B : Type}.
Variable R : A -> B -> Prop.
Variable keyA : A -> Q.
Variable keyB : B -> Q.
Hypothesis R_key : forall a b, R a b -> keyA a == keyB b.

Lemma insert_asc_Forall2 (x : A) (y : B) (l1 : list A) (l2 : list B) :
  R x y -> Forall2 R l1 l2 ->
  Forall2 R (insert_asc keyA x l1) (insert_asc keyB y l2).
Proof.
  intros Hxy; induction 1 as [|a b l1 l2 Hab H IH]; simpl.
  - repeat constructor; exact Hxy.
  - assert (E : Qlt_bool (keyA a) (keyA x) = Qlt_bool (keyB b) (keyB y)).
    { unfold Qlt_bool; f_equal; apply Qleb_comp; now apply R_key. }
    rewrite E; destruct (Qlt_bool (keyB b) (keyB y)).
    + constructor; assumption.
    + repeat constructor; assumption.
Qed.

Lemma sort_asc_Forall2 (l1 : list A) (l2 : list B) :
  Forall2 R l1 l2 -> Forall2 R (sort_asc keyA l1) (sort_asc keyB l2).
Proof.
  induction 1 as [|a b l1 l2 Hab H IH]; simpl; [constructor|].
  now apply insert_asc_Forall2.
Qed.

Lemma py_sorted_reverse_Forall2 (l1 : list A) (l2 : list B) :
  Forall2 R l1 l2 ->
  Forall2 R (py_sorted_reverse keyA l1) (py_sorted_reverse keyB l2).
Proof.
  intros H; unfold py_sorted_reverse.
  now apply Forall2_snoc_rev, sort_asc_Forall2, Forall2_snoc_rev.
Qed.
End SortTogether.

Lemma Forall2_join {K A B : Type} (P : K -> A -> Prop) (Q' : K -> B -> Prop)
    (R : A -> B -> Prop) (ks : list K) (l1 : list A) (l2 : list B) :
  (forall k a b, In k ks -> P k a -> Q' k b -> R a b) ->
  Forall2 P ks l1 -> Forall2 Q' ks l2 -> Forall2 R l1 l2.
Proof.
  intros H H1; revert l2; induction H1 as [|k a ks l1 Hka H1 IH]; intros l2 H2.
  - inversion H2; constructor.
  - inversion H2 as [|? b ? l2' Hkb H2']; subst; constructor.
    + apply (H k); [now left | assumption | assumption].
    + apply IH; [|exact H2'].
      intros k' a' b' Hk'; apply H; now right.
Qed.

Lemma Forall2_Forall_r {K A : Type} (P : K -> A -> Prop) (ks : list K) (l : list A) :
  Forall2 P ks l -> Forall (fun a => exists k, In k ks /\ P k a) l.
Proof.
  induction 1 as [|k a ks l Hka H IH]; constructor.
  - exists k; split; [now left | exact Hka].
  - eapply Forall_impl; [|exact IH].
    intros a' [k' [Hk' Ha']]; exists k'; split; [now right | exact Ha'].
Qed.

Lemma py_slice_to_nonneg {A : Type} (k : Z) (l : list A) :
  (0 <= k)%Z -> py_slice_to k l = firstn (Z.to_nat k) l.
Proof.
  intros H; unfold py_slice_to.
  now rewrite (proj2 (Z.leb_le 0 k) H).
Qed.

Lemma py_slice_to_prefix {A : Type} (k : Z) (l : list A) :
  exists n, py_slice_to k l = firstn n l.
Proof.
  unfold py_slice_to; destruct (0 <=? k)%Z; eauto.
Qed.

Lemma py_slice_to_In {A : Type} (k : Z) (l : list A) (x : A) :
  In x (py_slice_to k l) -> In x l.
Proof.
  destruct (py_slice_to_prefix k l) as [n ->].
  rewrite <- (firstn_skipn n l) at 2; intros H; apply in_or_app; now left.
Qed.

(** ** The merge of [hybrid_search] *)

Module HybridFacts.
Import TourismMultimodalDAO HybridSpec Samples.

Lemma Zeqb_eq (a b : Z) : Z.eqb a b = true <-> a = b.
Proof. apply Z.eqb_eq. Qed.

Lemma fold_left_ext {X Y : Type} (f g : X -> Y -> X) (l : list Y) (x : X) :
  (forall a b, f a b = g a b) -> fold_left f l x = fold_left g l x.
Proof.
  intros H; revert x; induction l as [|y l IH]; intros x; simpl; [reflexivity|].
  now rewrite H, IH.
Qed.

Lemma merge_text_step_update (tw : Q) (d : merged_dict) (r : SearchResult) :
  merge_text_step tw d r =
  update_step Z.eqb id (fun _ r => text_entry tw r) d r.
Proof. reflexivity. Qed.

Lemma merge_image_step_update (iw : Q) (d : merged_dict) (r : SearchResult) :
  merge_image_step iw d r = update_step Z.eqb id (absorb iw) d r.
Proof.
  unfold merge_image_step, update_step, absorb.
  now destruct (dict_get Z.eqb (id r) d).
Qed.

(** The entry stored under any id, for any two input lists. *)
Lemma merge_get (text image : list SearchResult) (tw iw : Q) (i : Z) :
  dict_get Z.eqb i (merge text image tw iw) =
  image_pass iw (text_pass tw (occurrences i text)) (occurrences i image).
Proof.
  unfold merge, image_pass, text_pass, occurrences.
  rewrite (fold_left_ext _ _ _ _ (merge_image_step_update iw)).
  rewrite (fold_update_get Z.eqb Zeqb_eq).
  rewrite (fold_left_ext _ _ _ _ (merge_text_step_update tw)).
  now rewrite (fold_update_get Z.eqb Zeqb_eq).
Qed.

Lemma merge_keys_NoDup (text image : list SearchResult) (tw iw : Q) :
  NoDup (dict_keys (merge text image tw iw)).
Proof.
  unfold merge.
  rewrite (fold_left_ext _ _ _ _ (merge_image_step_update iw)).
  apply (fold_update_NoDup Z.eqb Zeqb_eq).
  rewrite (fold_left_ext _ _ _ _ (merge_text_step_update tw)).
  apply (fold_update_NoDup Z.eqb Zeqb_eq); constructor.
Qed.

Lemma occurrences_id (i : Z) (l : list SearchResult) (r : SearchResult) :
  In r (occurrences i l) -> id r = i.
Proof.
  unfold occurrences; rewrite filter_In; intros [_ H].
  apply Z.eqb_eq in H; congruence.
Qed.

Lemma occurrences_absent (i : Z) (l : list SearchResult) :
  ~ In i (map id l) -> occurrences i l = [].
Proof.
  induction l as [|r l IH]; simpl; [reflexivity|].
  intros H; destruct (Z.eqb i (id r)) eqn:E.
  - apply Z.eqb_eq in E; exfalso; apply H; now left.
  - apply IH; tauto.
Qed.

Lemma occurrences_unique (l : list SearchResult) (r : SearchResult) :
  NoDup (map id l) -> In r l -> occurrences (id r) l = [r].
Proof.
  induction l as [|x l IH]; simpl; [tauto|].
  intros Hnd Hin; inversion Hnd as [|? ? Hx Hnd']; subst.
  destruct Hin as [->|Hin].
  - rewrite Z.eqb_refl; f_equal; fold (occurrences (id r) l).
    now apply occurrences_absent.
  - destruct (Z.eqb (id r) (id x)) eqn:E.
    + apply Z.eqb_eq in E; exfalso; apply Hx; rewrite <- E.
      now apply in_map.
    + now apply IH.
Qed.

(** Every stored entry carries the id it is stored under. *)
Lemma image_pass_id (iw : Q) (i : Z) (occ : list SearchResult)
    (start : option Merged) (e : Merged) :
  (forall r, In r occ -> id r = i) ->
  (forall e0, start = Some e0 -> id (base e0) = i) ->
  image_pass iw start occ = Some e -> id (base e) = i.
Proof.
  unfold image_pass; revert start.
  induction occ as [|r occ IH]; intros start Hocc Hstart; simpl.
  - auto.
  - apply IH; [intros; apply Hocc; now right|].
    intros e0 [= <-]; destruct start as [e1|]; simpl.
    + now apply Hstart.
    + apply Hocc; now left.
Qed.

Lemma text_fold_id (tw : Q) (i : Z) (occ : list SearchResult)
    (start : option Merged) (e : Merged) :
  (forall r, In r occ -> id r = i) ->
  (forall e0, start = Some e0 -> id (base e0) = i) ->
  fold_left (fun _ r => Some (text_entry tw r)) occ start = Some e ->
  id (base e) = i.
Proof.
  revert start; induction occ as [|r occ IH]; intros start Hocc Hstart; simpl.
  - auto.
  - apply IH; [intros; apply Hocc; now right|].
    intros e0 [= <-]; simpl; apply Hocc; now left.
Qed.

Lemma text_pass_id (tw : Q) (i : Z) (occ : list SearchResult) (e : Merged) :
  (forall r, In r occ -> id r = i) ->
  text_pass tw occ = Some e -> id (base e) = i.
Proof.
  intros Hocc; apply text_fold_id; [exact Hocc | discriminate].
Qed.

Lemma merge_entry_id (text image : list SearchResult) (tw iw : Q)
    (i : Z) (e : Merged) :
  In (i, e) (merge text image tw iw) -> id (base e) = i.
Proof.
  intros H.
  apply (dict_In_get Z.eqb Zeqb_eq) in H; [|apply merge_keys_NoDup].
  rewrite merge_get in H.
  eapply image_pass_id; [apply occurrences_id | | exact H].
  intros e0 He0; eapply text_pass_id; [apply occurrences_id | exact He0].
Qed.

(** An entry of the ranked list is the one stored under its id. *)
Lemma ranked_entry (text image : list SearchResult) (tw iw : Q) (e : Merged) :
  In e (ranked text image tw iw) ->
  dict_get Z.eqb (id (base e)) (merge text image tw iw) = Some e.
Proof.
  unfold ranked; rewrite py_sorted_reverse_In; unfold dict_values.
  rewrite in_map_iff; intros [[i e'] [He H]]; simpl in He; subst e'.
  rewrite (merge_entry_id _ _ _ _ _ _ H).
  apply (dict_In_get Z.eqb Zeqb_eq); [apply merge_keys_NoDup | exact H].
Qed.

Lemma fuse_entry (text image : list SearchResult) (tw iw : Q) (k : Z)
    (e : Merged) :
  In e (fuse text image tw iw k) ->
  dict_get Z.eqb (id (base e)) (merge text image tw iw) = Some e.
Proof.
  intros H; apply ranked_entry; eapply py_slice_to_In; exact H.
Qed.


(** *** Keys of [merged]: order of first insertion *)

Lemma mem_id_In (x : Z) (l : list Z) : mem_id x l = true <-> In x l.
Proof.
  unfold mem_id; rewrite existsb_exists; split.
  - intros [y [Hy E]]; apply Z.eqb_eq in E; now subst.
  - intros H; exists x; split; [exact H | apply Z.eqb_refl].
Qed.

Lemma mem_id_ext (x : Z) (l l' : list Z) :
  (In x l <-> In x l') -> mem_id x l = mem_id x l'.
Proof.
  intros H; apply eq_true_iff_eq; now rewrite !mem_id_In.
Qed.

Lemma dict_mem_mem_id {V : Type} (k : Z) (d : @dict Z V) :
  dict_mem Z.eqb k d = mem_id k (dict_keys d).
Proof.
  apply eq_true_iff_eq.
  now rewrite mem_id_In, (dict_mem_In Z.eqb Zeqb_eq).
Qed.

Lemma fold_update_keys {V R : Type} (key : R -> Z) (f : option V -> R -> V)
    (l : list R) (d : @dict Z V) :
  dict_keys (fold_left (update_step Z.eqb key f) l d) =
  add_new (dict_keys d) (map key l).
Proof.
  revert d; induction l as [|r l IH]; intros d; simpl; [reflexivity|].
  rewrite IH; unfold update_step.
  rewrite (dict_keys_set Z.eqb), dict_mem_mem_id.
  now destruct (mem_id (key r) (dict_keys d)).
Qed.

Lemma filter_filter_andb {X : Type} (f g : X -> bool) (l : list X) :
  filter f (filter g l) = filter (fun x => g x && f x) l.
Proof.
  induction l as [|x l IH]; simpl; [reflexivity|].
  destruct (g x); simpl; [destruct (f x)|]; now rewrite IH.
Qed.

Lemma filter_all {X : Type} (f : X -> bool) (l : list X) :
  (forall x, In x l -> f x = true) -> filter f l = l.
Proof.
  induction l as [|x l IH]; intros H; simpl; [reflexivity|].
  rewrite (H x) by now left.
  f_equal; apply IH; intros; apply H; now right.
Qed.

Lemma filter_none {X : Type} (f : X -> bool) (l : list X) :
  (forall x, In x l -> f x = false) -> filter f l = [].
Proof.
  induction l as [|x l IH]; intros H; simpl; [reflexivity|].
  rewrite (H x) by now left.
  apply IH; intros; apply H; now right.
Qed.

Lemma first_seen_filter (P : Z -> bool) (l : list Z) :
  first_seen (filter P l) = filter P (first_seen l).
Proof.
  induction l as [|x l IH]; simpl; [reflexivity|].
  destruct (P x) eqn:Px; simpl.
  - rewrite IH, !filter_filter_andb.
    f_equal; apply filter_ext; intros y; apply andb_comm.
  - rewrite IH, filter_filter_andb.
    apply filter_ext_in; intros y _.
    destruct (Z.eqb y x) eqn:E; simpl; [|reflexivity].
    apply Z.eqb_eq in E; subst; now rewrite Px.
Qed.

Lemma first_seen_In (x : Z) (l : list Z) : In x (first_seen l) <-> In x l.
Proof.
  induction l as [|y l IH]; simpl; [tauto|].
  rewrite filter_In, IH, negb_true_iff, Z.eqb_neq.
  destruct (Z.eq_dec y x); [tauto|].
  split; [tauto|]; intros [H|H]; [tauto|]; right; split; [exact H|congruence].
Qed.

Lemma first_seen_NoDup (l : list Z) : NoDup (first_seen l).
Proof.
  induction l as [|y l IH]; simpl; constructor.
  - rewrite filter_In, Z.eqb_refl; simpl; intros [_ H]; discriminate.
  - now apply NoDup_filter.
Qed.

Lemma first_seen_distinct (l : list Z) : NoDup l -> first_seen l = l.
Proof.
  induction 1 as [|x l Hx Hnd IH]; simpl; [reflexivity|].
  rewrite IH; f_equal; apply filter_all.
  intros y Hy; rewrite negb_true_iff, Z.eqb_neq; congruence.
Qed.

Lemma add_new_first_seen (seen l : list Z) :
  add_new seen l =
  seen ++ first_seen (filter (fun i => negb (mem_id i seen)) l).
Proof.
  revert seen; induction l as [|i l IH]; intros seen; simpl.
  - now rewrite app_nil_r.
  - destruct (mem_id i seen) eqn:E; simpl; [apply IH|].
    rewrite IH, <- app_assoc; simpl; do 2 f_equal.
    rewrite <- first_seen_filter, filter_filter_andb.
    f_equal; apply filter_ext; intros y.
    unfold mem_id; rewrite existsb_app; simpl.
    now rewrite orb_false_r, negb_orb.
Qed.

(** The keys of [merged]: the text ids in order of first appearance, then
    the image ids not found by the text search, in order of first
    appearance. *)
Lemma merge_keys (text image : list SearchResult) (tw iw : Q) :
  dict_keys (merge text image tw iw) =
  first_seen (ids_of text) ++
  first_seen (filter (fun i => negb (mem_id i (ids_of text))) (ids_of image)).
Proof.
  unfold merge.
  rewrite (fold_left_ext _ _ _ _ (merge_image_step_update iw)).
  rewrite fold_update_keys.
  rewrite (fold_left_ext _ _ _ _ (merge_text_step_update tw)).
  rewrite fold_update_keys; simpl.
  rewrite (add_new_first_seen [] (map id text)); simpl.
  rewrite filter_all by reflexivity.
  rewrite add_new_first_seen; unfold ids_of; do 2 f_equal.
  apply filter_ext; intros y; f_equal.
  apply mem_id_ext, first_seen_In.
Qed.

Lemma merge_values_ids (text image : list SearchResult) (tw iw : Q) :
  fused_ids (dict_values (merge text image tw iw)) =
  dict_keys (merge text image tw iw).
Proof.
  unfold fused_ids, dict_values, dict_keys; rewrite map_map.
  apply map_ext_in; intros [i e] H; simpl.
  eapply merge_entry_id; exact H.
Qed.

Lemma merge_keys_In (text image : list SearchResult) (tw iw : Q) (i : Z) :
  In i (dict_keys (merge text image tw iw)) <->
  In i (ids_of text ++ ids_of image).
Proof.
  rewrite merge_keys, !in_app_iff, !first_seen_In, filter_In.
  rewrite negb_true_iff, <- not_true_iff_false, mem_id_In.
  destruct (in_dec Z.eq_dec i (ids_of text)); tauto.
Qed.

(** *** Scores of the fused entries *)

Ltac distinct_ids_tac :=
  repeat (constructor; [simpl; intuition discriminate|]); constructor.

(** C1 (fusion additivity).  When the ids of each result list are
    distinct, an id found by both searches has one entry in [merged]; its
    text score and image score are the scores of the two results, and its
    combined score is [text score * text_weight + image score *
    image_weight], computed by exactly that expression.  Every entry of
    the returned list with that id is this entry. *)
Theorem fusion_additivity (text image : list SearchResult) (tw iw : Q)
    (rt ri : SearchResult) :
  NoDup (ids_of text) -> NoDup (ids_of image) ->
  In rt text -> In ri image -> id rt = id ri ->
  exists e,
    dict_get Z.eqb (id rt) (merge text image tw iw) = Some e /\
    text_score e = score rt /\
    image_score e = score ri /\
    combined_score e = score rt * tw + score ri * iw /\
    forall k e', In e' (fuse text image tw iw k) ->
                 id (base e') = id rt -> e' = e.
Proof.
  intros Ht Hi Hrt Hri Hid.
  assert (G : dict_get Z.eqb (id rt) (merge text image tw iw) =
              Some (add_image iw (text_entry tw rt) ri)).
  { rewrite merge_get, (occurrences_unique _ _ Ht Hrt), Hid.
    now rewrite (occurrences_unique _ _ Hi Hri). }
  eexists; split; [exact G|]; simpl; repeat split.
  intros k e' He' Hid'.
  apply fuse_entry in He'; rewrite Hid', G in He'; congruence.
Qed.

Lemma fusion_additivity_witness :
  exists e,
    dict_get Z.eqb 2%Z (merge sample_text sample_image (7 # 10) (3 # 10)) = Some e /\
    text_score e = 4 # 10 /\
    image_score e = 8 # 10 /\
    combined_score e = (4 # 10) * (7 # 10) + (8 # 10) * (3 # 10) /\
    forall k e', In e' (fuse sample_text sample_image (7 # 10) (3 # 10) k) ->
                 id (base e') = 2%Z -> e' = e.
Proof.
  apply (fusion_additivity sample_text sample_image (7 # 10) (3 # 10)
           (sample 2 (4 # 10)) (sample 2 (8 # 10))).
  - distinct_ids_tac.
  - distinct_ids_tac.
  - simpl; tauto.
  - simpl; tauto.
  - reflexivity.
Defined.

(** *** The values of [merged], read off its keys *)

Lemma Forall2_fst_snd {K V : Type} (P : K -> V -> Prop) (d : list (K * V)) :
  (forall k v, In (k, v) d -> P k v) -> Forall2 P (map fst d) (map snd d).
Proof.
  induction d as [|[k v] d IH]; intros H; simpl; constructor.
  - apply H; now left.
  - apply IH; intros; apply H; now right.
Qed.

Lemma merge_lookup_all (text image : list SearchResult) (tw iw : Q) :
  Forall2 (fun i e => dict_get Z.eqb i (merge text image tw iw) = Some e)
          (dict_keys (merge text image tw iw))
          (dict_values (merge text image tw iw)).
Proof.
  apply Forall2_fst_snd; intros i e H.
  apply (dict_In_get Z.eqb Zeqb_eq); [apply merge_keys_NoDup | exact H].
Qed.

Lemma Forall2_lookup_map {R V : Type} (g : Z -> option V) (key : R -> Z)
    (h : R -> V) (l : list R) (vs : list V) :
  Forall2 (fun i v => g i = Some v) (map key l) vs ->
  (forall r, In r l -> g (key r) = Some (h r)) ->
  vs = map h l.
Proof.
  revert vs; induction l as [|r l IH]; intros vs H G; simpl in *.
  - now inversion H.
  - inversion H as [|? v ? vs' Hv Hvs]; subst.
    rewrite G in Hv by now left.
    injection Hv as <-; f_equal.
    apply IH; [exact Hvs | intros; apply G; now right].
Qed.

Lemma merge_get_text_only (text image : list SearchResult) (tw iw : Q)
    (r : SearchResult) :
  NoDup (ids_of text) -> In r text -> ~ In (id r) (ids_of image) ->
  dict_get Z.eqb (id r) (merge text image tw iw) = Some (text_entry tw r).
Proof.
  intros Ht Hr Hi.
  now rewrite merge_get, (occurrences_unique _ _ Ht Hr),
    (occurrences_absent _ _ Hi).
Qed.

Lemma merge_get_image_only (text image : list SearchResult) (tw iw : Q)
    (r : SearchResult) :
  NoDup (ids_of image) -> In r image -> ~ In (id r) (ids_of text) ->
  dict_get Z.eqb (id r) (merge text image tw iw) = Some (image_entry iw r).
Proof.
  intros Hi Hr Ht.
  now rewrite merge_get, (occurrences_unique _ _ Hi Hr),
    (occurrences_absent _ _ Ht).
Qed.

Lemma merge_values_image_only (image : list SearchResult) (tw iw : Q) :
  NoDup (ids_of image) ->
  dict_values (merge [] image tw iw) = map (image_entry iw) image.
Proof.
  intros Hi.
  apply (Forall2_lookup_map
           (fun i => dict_get Z.eqb i (merge [] image tw iw)) id).
  - pose proof (merge_lookup_all [] image tw iw) as H.
    rewrite merge_keys in H; simpl in H.
    rewrite filter_all, first_seen_distinct in H by (reflexivity || exact Hi).
    exact H.
  - intros r Hr; apply merge_get_image_only; auto.
Qed.

Lemma merge_values_text_only (text : list SearchResult) (tw iw : Q) :
  NoDup (ids_of text) ->
  dict_values (merge text [] tw iw) = map (text_entry tw) text.
Proof.
  intros Ht.
  apply (Forall2_lookup_map
           (fun i => dict_get Z.eqb i (merge text [] tw iw)) id).
  - pose proof (merge_lookup_all text [] tw iw) as H.
    rewrite merge_keys in H; simpl in H.
    rewrite app_nil_r, first_seen_distinct in H by exact Ht.
    exact H.
  - intros r Hr; apply merge_get_text_only; auto.
Qed.

(** The claim of C4 fails when the one list that holds an id holds it
    twice: id 7 is found by the image search only, with scores 1/2 and
    1/4, and its combined score is neither score times the image weight;
    the returned list is not the ranking of the image results either. *)
Lemma single_modality_counterexample :
  ~ In 7%Z (ids_of []) /\ In 7%Z (ids_of twice) /\
  exists e,
    dict_get Z.eqb 7%Z (merge [] twice 1 1) = Some e /\
    (forall r, In r twice -> ~ combined_score e == score r * 1) /\
    fuse [] twice 1 1 5 <>
      map (image_entry 1)
          (firstn 5 (py_sorted_reverse (fun r => score r * 1) twice)).
Proof.
  split; [simpl; tauto|]. split; [simpl; tauto|].
  eexists; split; [reflexivity|]; split.
  - intros r [<-|[<-|[]]]; vm_compute; discriminate.
  - vm_compute; discriminate.
Qed.

(** C4, amended (an id found by one search only).  Every id of either
    list has an entry in [merged].  When the list that holds the id holds
    no id twice, an id found by exactly one search has an entry whose
    other score is [0] and whose combined score is its score times the
    weight of the search that found it.  With no text results and an
    image list without repeated ids, the returned list is the image
    results sorted by [score * image_weight], descending, and cut to the
    first [top_k] of them (for a negative [top_k], to all but the last
    [- top_k]); with no image results it is that of the text results. *)
Theorem one_modality
    (search : Milvus.Collection -> string -> string -> list Q -> Z ->
              option string -> result (list (list Hit)))
    (self : DAO) (tv iv : list Q) (f : option string)
    (text image : list SearchResult) (tw iw : Q) (k : Z) :
  (forall i, In i (ids_of text ++ ids_of image) <->
             In i (dict_keys (merge text image tw iw))) /\
  (NoDup (ids_of text) ->
   forall r, In r text -> ~ In (id r) (ids_of image) ->
     exists e, dict_get Z.eqb (id r) (merge text image tw iw) = Some e /\
               base e = r /\ text_score e = score r /\
               image_score e = 0 /\ combined_score e = score r * tw) /\
  (NoDup (ids_of image) ->
   forall r, In r image -> ~ In (id r) (ids_of text) ->
     exists e, dict_get Z.eqb (id r) (merge text image tw iw) = Some e /\
               base e = r /\ text_score e = 0 /\
               image_score e = score r /\ combined_score e = score r * iw) /\
  (NoDup (ids_of image) ->
   exists ranking,
     Permutation ranking image /\
     StronglySorted (key_ge (fun r => score r * iw)) ranking /\
     ranking = py_sorted_reverse (fun r => score r * iw) image /\
     ((0 <= k)%Z ->
      fuse [] image tw iw k =
        map (image_entry iw) (firstn (Z.to_nat k) ranking)) /\
     ((k < 0)%Z ->
      fuse [] image tw iw k =
        map (image_entry iw)
            (firstn (length image - Z.to_nat (- k)) ranking)) /\
     (search_by_description search self tv (k * 2) f = Ok [] ->
      search_by_image search self iv (k * 2) f = Ok image ->
      hybrid_search search self tv iv tw iw k f =
        Ok (fuse [] image tw iw k))) /\
  (NoDup (ids_of text) ->
   exists ranking,
     Permutation ranking text /\
     StronglySorted (key_ge (fun r => score r * tw)) ranking /\
     ranking = py_sorted_reverse (fun r => score r * tw) text /\
     ((0 <= k)%Z ->
      fuse text [] tw iw k =
        map (text_entry tw) (firstn (Z.to_nat k) ranking)) /\
     ((k < 0)%Z ->
      fuse text [] tw iw k =
        map (text_entry tw)
            (firstn (length text - Z.to_nat (- k)) ranking)) /\
     (search_by_description search self tv (k * 2) f = Ok text ->
      search_by_image search self iv (k * 2) f = Ok [] ->
      hybrid_search search self tv iv tw iw k f =
        Ok (fuse text [] tw iw k))).
Proof.
  split; [intros i; symmetry; apply merge_keys_In|].
  split; [|split; [|split]].
  - intros Ht r Hr Hn; exists (text_entry tw r); repeat split.
    now apply merge_get_text_only.
  - intros Hi r Hr Hn; exists (image_entry iw r); repeat split.
    now apply merge_get_image_only.
  - intros Hi; eexists; split; [apply py_sorted_reverse_perm|].
    split; [apply py_sorted_reverse_sorted|]. split; [reflexivity|].
    assert (E : fuse [] image tw iw k =
                map (image_entry iw)
                    (py_slice_to k
                       (py_sorted_reverse (fun r => score r * iw) image))).
    { unfold fuse, ranked.
      rewrite merge_values_image_only by exact Hi.
      now rewrite py_sorted_reverse_map, py_slice_to_map. }
    split; [|split].
    + intros Hk; now rewrite E, py_slice_to_nonneg.
    + intros Hk; rewrite E; unfold py_slice_to.
      rewrite (proj2 (Z.leb_gt 0 k) Hk).
      now rewrite py_sorted_reverse_length.
    + intros Hs1 Hs2; unfold hybrid_search; now rewrite Hs1, Hs2.
  - intros Ht; eexists; split; [apply py_sorted_reverse_perm|].
    split; [apply py_sorted_reverse_sorted|]. split; [reflexivity|].
    assert (E : fuse text [] tw iw k =
                map (text_entry tw)
                    (py_slice_to k
                       (py_sorted_reverse (fun r => score r * tw) text))).
    { unfold fuse, ranked.
      rewrite merge_values_text_only by exact Ht.
      now rewrite py_sorted_reverse_map, py_slice_to_map. }
    split; [|split].
    + intros Hk; now rewrite E, py_slice_to_nonneg.
    + intros Hk; rewrite E; unfold py_slice_to.
      rewrite (proj2 (Z.leb_gt 0 k) Hk).
      now rewrite py_sorted_reverse_length.
    + intros Hs1 Hs2; unfold hybrid_search; now rewrite Hs1, Hs2.
Qed.

Lemma one_modality_witness :
  (forall r, In r sample_text -> ~ In (id r) (ids_of sample_image) ->
     exists e,
       dict_get Z.eqb (id r)
         (merge sample_text sample_image (7 # 10) (3 # 10)) = Some e /\
       base e = r /\ text_score e = score r /\
       image_score e = 0 /\ combined_score e = score r * (7 # 10)) /\
  (forall r, In r sample_image -> ~ In (id r) (ids_of sample_text) ->
     exists e,
       dict_get Z.eqb (id r)
         (merge sample_text sample_image (7 # 10) (3 # 10)) = Some e /\
       base e = r /\ text_score e = 0 /\
       image_score e = score r /\ combined_score e = score r * (3 # 10)) /\
  fuse [] sample_image (7 # 10) (3 # 10) 1 =
    map (image_entry (3 # 10))
        (firstn 1 (py_sorted_reverse (fun r => score r * (3 # 10))
                     sample_image)) /\
  fuse sample_text [] (7 # 10) (3 # 10) (- (1)) =
    map (text_entry (7 # 10))
        (firstn 1 (py_sorted_reverse (fun r => score r * (7 # 10))
                     sample_text)).
Proof.
  destruct (one_modality sample_search sample_dao [] [] None
              sample_text sample_image (7 # 10) (3 # 10) 1)
    as [_ [H1 [H2 [H3 _]]]].
  destruct (one_modality sample_search sample_dao [] [] None
              sample_text sample_image (7 # 10) (3 # 10) (- (1)))
    as [_ [_ [_ [_ H4]]]].
  split; [apply H1; distinct_ids_tac|].
  split; [apply H2; distinct_ids_tac|].
  split.
  - destruct (H3 ltac:(distinct_ids_tac)) as [ranking [_ [_ [-> [E _]]]]].
    apply E; lia.
  - destruct (H4 ltac:(distinct_ids_tac)) as [ranking [_ [_ [-> [_ [E _]]]]]].
    apply E; lia.
Defined.

(** *** Several results with one id inside a list *)

Lemma occurrences_last (l1 l2 : list SearchResult) (r : SearchResult) :
  ~ In (id r) (ids_of l2) ->
  occurrences (id r) (l1 ++ r :: l2) = occurrences (id r) l1 ++ [r].
Proof.
  intros H; unfold occurrences; rewrite filter_app; simpl.
  rewrite Z.eqb_refl; do 2 f_equal.
  now apply occurrences_absent.
Qed.

(** The claim of C5 fails for the image list: two image results with id 7
    and scores 1/2 and 1/4 leave an entry whose combined score is not the
    one the last result alone would give. *)
Lemma duplicate_image_counterexample :
  exists e,
    dict_get Z.eqb 7%Z (merge [] twice 1 1) = Some e /\
    dict_get Z.eqb 7%Z (merge [] [sample 7 (1 # 4)] 1 1) =
      Some (image_entry 1 (sample 7 (1 # 4))) /\
    ~ combined_score e == combined_score (image_entry 1 (sample 7 (1 # 4))).
Proof.
  eexists; split; [reflexivity|]; split; [reflexivity|].
  simpl; unfold Qeq; simpl; lia.
Qed.

(** C5, amended (duplicate ids inside one list).  Let [r] be the last
    result with its id in a list.  In the text list it wins: the entry is
    the one the list [[r]] alone would give.  In the image list it does
    not overwrite: it sets [image_score] and adds [score r * image_weight]
    to the combined score of the entry that the text pass and the earlier
    image results left under that id, keeping that entry's text score and
    display attributes; without such an entry it inserts its own. *)
Theorem duplicate_ids (tw iw : Q) (l1 l2 other : list SearchResult)
    (r : SearchResult) :
  ~ In (id r) (ids_of l2) ->
  dict_get Z.eqb (id r) (merge (l1 ++ r :: l2) other tw iw) =
    dict_get Z.eqb (id r) (merge [r] other tw iw) /\
  (forall e',
     dict_get Z.eqb (id r) (merge other l1 tw iw) = Some e' ->
     dict_get Z.eqb (id r) (merge other (l1 ++ r :: l2) tw iw) =
       Some {| base := base e';
               text_score := text_score e';
               image_score := score r;
               combined_score := combined_score e' + score r * iw |}) /\
  (dict_get Z.eqb (id r) (merge other l1 tw iw) = None ->
   dict_get Z.eqb (id r) (merge other (l1 ++ r :: l2) tw iw) =
     Some (image_entry iw r)).
Proof.
  intros H; repeat split.
  - rewrite !merge_get, (occurrences_last l1 l2 r H).
    f_equal; unfold text_pass, occurrences; simpl.
    now rewrite fold_left_app, Z.eqb_refl.
  - intros e' He'; rewrite merge_get in *.
    rewrite (occurrences_last l1 l2 r H).
    unfold image_pass in *; rewrite fold_left_app; simpl.
    now rewrite He'.
  - intros He'; rewrite merge_get in *.
    rewrite (occurrences_last l1 l2 r H).
    unfold image_pass in *; rewrite fold_left_app; simpl.
    now rewrite He'.
Qed.

Lemma duplicate_ids_witness :
  dict_get Z.eqb 7%Z (merge ([sample 7 (1 # 2)] ++ sample 7 (1 # 4) :: [])
                            sample_text (7 # 10) (3 # 10)) =
    dict_get Z.eqb 7%Z (merge [sample 7 (1 # 4)] sample_text (7 # 10) (3 # 10)) /\
  (forall e',
     dict_get Z.eqb 7%Z (merge sample_text [sample 7 (1 # 2)] (7 # 10) (3 # 10)) =
       Some e' ->
     dict_get Z.eqb 7%Z
       (merge sample_text ([sample 7 (1 # 2)] ++ sample 7 (1 # 4) :: [])
              (7 # 10) (3 # 10)) =
       Some {| base := base e';
               text_score := text_score e';
               image_score := 1 # 4;
               combined_score := combined_score e' + (1 # 4) * (3 # 10) |}) /\
  (dict_get Z.eqb 7%Z (merge sample_text [sample 7 (1 # 2)] (7 # 10) (3 # 10)) =
     None ->
   dict_get Z.eqb 7%Z
     (merge sample_text ([sample 7 (1 # 2)] ++ sample 7 (1 # 4) :: [])
            (7 # 10) (3 # 10)) =
     Some (image_entry (3 # 10) (sample 7 (1 # 4)))).
Proof.
  apply (duplicate_ids (7 # 10) (3 # 10) [sample 7 (1 # 2)] []
           _ (sample 7 (1 # 4))).
  simpl; tauto.
Defined.

(** *** Length and order of the returned list *)

Lemma merge_length (text image : list SearchResult) (tw iw : Q) :
  length (dict_values (merge text image tw iw)) = distinct_ids text image.
Proof.
  unfold dict_values, distinct_ids; rewrite length_map.
  rewrite <- (length_map fst); fold (dict_keys (merge text image tw iw)).
  apply Permutation_length, NoDup_Permutation.
  - apply merge_keys_NoDup.
  - apply NoDup_nodup.
  - intros i; rewrite merge_keys_In; symmetry; apply nodup_In.
Qed.

(** The claim of C6 fails at [top_k = 0]: [hybrid_search] asks both
    searches for [0 * 2] results, and on a store that refuses that limit
    it raises instead of returning an empty list. *)
Lemma zero_limit_counterexample :
  hybrid_search strict_search sample_dao [] [] (7 # 10) (3 # 10) 0 None =
    Raise MilvusException /\
  exists out,
    hybrid_search strict_search sample_dao [] [] (7 # 10) (3 # 10) 1 None =
      Ok out /\
    length out = 1%nat.
Proof.
  split; [reflexivity|].
  eexists; split; reflexivity.
Qed.

(** C6, amended (truncation).  [hybrid_search] returns a list only when
    both searches, asked for [top_k * 2] results, return theirs;
    otherwise it raises what the failing search raised.  The list it
    then returns has, for [top_k >= 0],
    [min(top_k, number of distinct ids across both lists)] entries; it is
    empty for [top_k = 0] whatever the lists, and empty for two empty
    lists whatever [top_k]. *)
Theorem truncation
    (search : Milvus.Collection -> string -> string -> list Q -> Z ->
              option string -> result (list (list Hit)))
    (self : DAO) (tv iv : list Q) (tw iw : Q) (k : Z) (f : option string) :
  (forall text image,
     search_by_description search self tv (k * 2) f = Ok text ->
     search_by_image search self iv (k * 2) f = Ok image ->
     exists out,
       hybrid_search search self tv iv tw iw k f = Ok out /\
       ((0 <= k)%Z ->
        Z.of_nat (length out) =
          Z.min k (Z.of_nat (distinct_ids text image))) /\
       (k = 0%Z -> out = []) /\
       (text = [] -> image = [] -> out = []) /\
       exists n, out = firstn n (ranked text image tw iw)) /\
  (forall e,
     hybrid_search search self tv iv tw iw k f = Raise e <->
     search_by_description search self tv (k * 2) f = Raise e \/
     ((exists text,
         search_by_description search self tv (k * 2) f = Ok text) /\
      search_by_image search self iv (k * 2) f = Raise e)).
Proof.
  split.
  - intros text image Ht Hi; exists (fuse text image tw iw k).
    split; [unfold hybrid_search; now rewrite Ht, Hi|].
    split; [|split; [|split]].
    + intros Hk; unfold fuse, ranked.
      rewrite py_slice_to_nonneg, length_firstn by exact Hk.
      rewrite py_sorted_reverse_length, merge_length; lia.
    + intros ->; reflexivity.
    + intros -> ->; unfold fuse, py_slice_to; simpl.
      destruct (0 <=? k)%Z; [apply firstn_nil | reflexivity].
    + apply py_slice_to_prefix.
  - intros e; unfold hybrid_search.
    destruct (search_by_description search self tv (k * 2) f)
      as [text|e1]; simpl.
    + destruct (search_by_image search self iv (k * 2) f)
        as [image|e2]; simpl.
      * split; [discriminate|]; intros [H|[_ H]]; discriminate.
      * split.
        -- intros [= ->]; right; split; [now exists text | reflexivity].
        -- intros [H|[_ H]]; [discriminate | now injection H as ->].
    + split.
      * intros [= ->]; now left.
      * intros [H|[[t Ht] _]]; [now injection H as -> | discriminate].
Qed.

Lemma truncation_witness :
  exists out,
    hybrid_search sample_search sample_dao [] [] (7 # 10) (3 # 10) 2 None =
      Ok out /\
    Z.of_nat (length out) =
      Z.min 2 (Z.of_nat (distinct_ids sample_text sample_image)).
Proof.
  destruct (proj1 (truncation sample_search sample_dao [] []
                     (7 # 10) (3 # 10) 2 None)
              sample_text sample_image eq_refl eq_refl)
    as [out [H [L _]]].
  exists out; split; [exact H | apply L; lia].
Defined.



(** Text results (1, 0.9) and (2, 0.4), image results (2, 0.8) and
    (3, 0.95), weights 0.7 and 0.3: the combined scores are 0.63, 0.52 and
    0.285. *)
Example scenario_order :
  fused_ids (fuse sample_text sample_image (7 # 10) (3 # 10) 3) = [1; 2; 3]%Z.
Proof. reflexivity. Qed.

(** Equal combined scores: the id inserted by the text pass comes first. *)
Example tie_keeps_text_first :
  fused_ids (fuse [sample 5 (1 # 2)] [sample 6 (1 # 2)] (1 # 2) (2 # 4) 2) =
  [5; 6]%Z.
Proof. reflexivity. Qed.

(** *** Image weight zero *)

Lemma image_pass_zero (iw : Q) (occ : list SearchResult) (t e : Merged) :
  iw == 0 -> image_pass iw (Some t) occ = Some e -> same_text_entry e t.
Proof.
  intros Hiw; unfold image_pass; revert t.
  induction occ as [|r occ IH]; intros t; simpl.
  - intros [= <-]; repeat split; reflexivity.
  - intros H; apply IH in H; destruct H as [Hb [Ht Hc]]; simpl in *.
    repeat split; [exact Hb | exact Ht |].
    rewrite Hc, Hiw; ring.
Qed.

Lemma merge_get_id (text image : list SearchResult) (tw iw : Q) (i : Z)
    (e : Merged) :
  dict_get Z.eqb i (merge text image tw iw) = Some e -> id (base e) = i.
Proof.
  intros H; apply (dict_get_In Z.eqb Zeqb_eq) in H.
  eapply merge_entry_id; exact H.
Qed.

(** With image weight zero, the text entries of [merged] are, in order,
    those of the merge of the text list alone, up to the value of the
    combined score. *)
Lemma merge_text_part (text image : list SearchResult) (tw iw : Q) :
  iw == 0 ->
  Forall2 same_text_entry
    (filter (in_text text) (dict_values (merge text image tw iw)))
    (dict_values (merge text [] tw iw)).
Proof.
  intros Hiw.
  pose proof (merge_lookup_all text image tw iw) as HM.
  pose proof (merge_lookup_all text [] tw iw) as H0.
  rewrite merge_keys in HM, H0; simpl in H0; rewrite app_nil_r in H0.
  apply Forall2_app_inv_l in HM.
  destruct HM as [V1 [V2 [H1 [H2 ->]]]].
  rewrite filter_app.
  rewrite (filter_all (in_text text) V1), (filter_none (in_text text) V2).
  - rewrite app_nil_r.
    eapply Forall2_join; [|exact H1|exact H0]; intros i e t Hi He Ht.
    cbv beta in He, Ht.
    rewrite merge_get in He, Ht; simpl in Ht.
    rewrite Ht in He; now apply image_pass_zero in He.
  - intros e He.
    apply Forall2_Forall_r in H2; rewrite Forall_forall in H2.
    destruct (H2 e He) as [i [Hi Hget]].
    apply merge_get_id in Hget; unfold in_text; rewrite Hget.
    apply first_seen_In, filter_In in Hi; destruct Hi as [_ Hi].
    now apply negb_true_iff in Hi.
  - intros e He.
    apply Forall2_Forall_r in H1; rewrite Forall_forall in H1.
    destruct (H1 e He) as [i [Hi Hget]].
    apply merge_get_id in Hget; unfold in_text; rewrite Hget.
    now apply mem_id_In, first_seen_In.
Qed.

Lemma same_text_entry_ids (l1 l2 : list Merged) :
  Forall2 same_text_entry l1 l2 -> fused_ids l1 = fused_ids l2.
Proof.
  induction 1 as [|e t l1 l2 [Hb _] H IH]; simpl; [reflexivity|].
  now rewrite Hb, IH.
Qed.

(** C9 (zero-weight neutrality).  With [image_weight] zero, the entries of
    the ranked list whose ids the text search found are, in order, the
    entries of the ranking of the text list alone: same result, same text
    score, combined score of the same value whatever the image scores.
    After the cut to [top_k] the ids that remain are a prefix of that
    ranking. *)
Theorem zero_image_weight (text image : list SearchResult) (tw iw : Q) (k : Z) :
  iw == 0 ->
  Forall2 same_text_entry
    (filter (in_text text) (ranked text image tw iw))
    (ranked text [] tw iw) /\
  exists n,
    fused_ids (filter (in_text text) (fuse text image tw iw k)) =
    firstn n (fused_ids (ranked text [] tw iw)).
Proof.
  intros Hiw.
  assert (G : Forall2 same_text_entry
                (filter (in_text text) (ranked text image tw iw))
                (ranked text [] tw iw)).
  { unfold ranked; rewrite py_sorted_reverse_filter.
    apply py_sorted_reverse_Forall2; [|now apply merge_text_part].
    intros a b [_ [_ H]]; exact H. }
  split; [exact G|].
  unfold fuse.
  destruct (py_slice_to_prefix k (ranked text image tw iw)) as [n ->].
  destruct (filter_firstn (in_text text) n (ranked text image tw iw)) as [m ->].
  exists m; unfold fused_ids at 1; rewrite <- firstn_map; f_equal.
  apply (same_text_entry_ids G).
Qed.

Lemma zero_image_weight_witness :
  Forall2 same_text_entry
    (filter (in_text sample_text) (ranked sample_text sample_image (7 # 10) 0))
    (ranked sample_text [] (7 # 10) 0) /\
  exists n,
    fused_ids (filter (in_text sample_text)
                 (fuse sample_text sample_image (7 # 10) 0 2)) =
    firstn n (fused_ids (ranked sample_text [] (7 # 10) 0)).
Proof.
  apply (@zero_image_weight sample_text sample_image (7 # 10) 0 2).
  reflexivity.
Defined.

(** *** Weights are not validated *)











(** Whether [hybrid_search] raises is decided by the two searches alone. *)
Lemma hybrid_search_raise
    (search : Milvus.Collection -> string -> string -> list Q -> Z ->
              option string -> result (list (list Hit)))
    (self : DAO) (tv iv : list Q) (tw iw : Q) (k : Z) (f : option string)
    (e : exn) :
  hybrid_search search self tv iv tw iw k f = Raise e <->
  search_by_description search self tv (k * 2) f = Raise e \/
  ((exists text, search_by_description search self tv (k * 2) f = Ok text) /\
   search_by_image search self iv (k * 2) f = Raise e).
Proof.
  unfold hybrid_search.
  destruct (search_by_description search self tv (k * 2) f) as [text|e1]; simpl.
  - destruct (search_by_image search self iv (k * 2) f) as [image|e2]; simpl.
    + split; [discriminate|]; intros [H|[_ H]]; discriminate.
    + split.
      * intros [= ->]; right; split; [now exists text | reflexivity].
      * intros [H|[_ H]]; [discriminate | now injection H as ->].
  - split.
    + intros [= ->]; now left.
    + intros [H|[[t Ht] _]]; [now injection H as -> | discriminate].
Qed.


End HybridFacts.

(** ** Score normalization *)

Lemma mapM_Forall2 {A B : Type} (f : A -> result B) (P : A -> B -> Prop)
    (xs : list A) :
  Forall (fun x => exists y, f x = Ok y /\ P x y) xs ->
  exists ys, mapM f xs = Ok ys /\ Forall2 P xs ys.
Proof.
  induction 1 as [|x xs [y [Hy Py]] H [ys [Hys Pys]]]; simpl.
  - exists []; split; [reflexivity | constructor].
  - exists (y :: ys); rewrite Hy, Hys; split; [reflexivity | now constructor].
Qed.

(** *** Rounding to the nearest double *)

Section Rounding.
Import Float64.

Lemma pow2_pos (z : Z) : 0 < pow2 z.
Proof. apply Qpower_0_lt; reflexivity. Qed.

Lemma pow2_le (a b : Z) : (a <= b)%Z -> pow2 a <= pow2 b.
Proof. intros H; apply Qpower_le_compat_l; [exact H | discriminate]. Qed.

Lemma pow2_plus (a b : Z) : pow2 (a + b) == pow2 a * pow2 b.
Proof. apply Qpower_plus; discriminate. Qed.

Lemma pow2_inject (n : Z) : (0 <= n)%Z -> inject_Z (2 ^ n) == pow2 n.
Proof. intros H; unfold pow2; now rewrite Zpower_Qpower. Qed.

Ltac compare_facts H :=
  match type of H with
  | _ = Eq => apply (proj2 (Qeq_alt _ _)) in H
  | _ = Lt => apply (proj2 (Qlt_alt _ _)) in H
  | _ = Gt => apply (proj2 (Qgt_alt _ _)) in H
  end.

Lemma nearest_even_bounds (x : Q) :
  (Qfloor x <= nearest_even x <= Qfloor x + 1)%Z.
Proof.
  unfold nearest_even.
  destruct (Qcompare (x - inject_Z (Qfloor x)) (1 # 2)); [destruct (Z.even _)| |]; lia.
Qed.

Lemma nearest_even_Z (n : Z) : nearest_even (inject_Z n) = n.
Proof.
  unfold nearest_even; rewrite Qfloor_Z.
  assert (Qcompare (inject_Z n - inject_Z n) (1 # 2) = Lt) as ->; [|reflexivity].
  apply (proj1 (Qlt_alt _ _)); lra.
Qed.

Lemma nearest_even_le (x y : Q) :
  x <= y -> (nearest_even x <= nearest_even y)%Z.
Proof.
  intros H.
  pose proof (Qfloor_resp_le _ _ H) as F.
  pose proof (nearest_even_bounds x) as Bx.
  pose proof (nearest_even_bounds y) as By.
  destruct (Z.eq_dec (Qfloor x) (Qfloor y)) as [E|N]; [|lia].
  unfold nearest_even; rewrite <- E.
  destruct (Qcompare (x - inject_Z (Qfloor x)) (1 # 2)) eqn:Cx;
    destruct (Qcompare (y - inject_Z (Qfloor x)) (1 # 2)) eqn:Cy;
    try (destruct (Z.even (Qfloor x))); try lia;
    compare_facts Cx; compare_facts Cy; exfalso; lra.
Qed.

Lemma ilog2_spec (q : Q) :
  0 < q -> pow2 (ilog2 q) <= q /\ q < pow2 (ilog2 q + 1).
Proof.
  intros Hq; destruct q as [n d]; unfold ilog2; cbn [Qnum Qden].
  assert (Hn : (0 < n)%Z) by (unfold Qlt in Hq; simpl in Hq; lia).
  pose proof (Z.log2_spec n Hn) as [Ln Un].
  pose proof (Z.log2_spec (Zpos d) (Pos2Z.is_pos d)) as [Ld Ud].
  pose proof (Z.log2_nonneg n) as Nn.
  pose proof (Z.log2_nonneg (Zpos d)) as Nd.
  set (a := Z.log2 n) in *; set (b := Z.log2 (Zpos d)) in *.
  assert (Q1 : n # d == inject_Z n / inject_Z (Zpos d)) by apply Qmake_Qdiv.
  assert (Dpos : 0 < inject_Z (Zpos d)) by reflexivity.
  assert (PA : pow2 a <= inject_Z n).
  { rewrite <- pow2_inject by exact Nn. now rewrite <- Zle_Qle. }
  assert (PA' : inject_Z n < pow2 (a + 1)).
  { rewrite <- pow2_inject by lia. rewrite <- Zlt_Qlt.
    now replace (a + 1)%Z with (Z.succ a) by lia. }
  assert (PB : pow2 b <= inject_Z (Zpos d)).
  { rewrite <- pow2_inject by exact Nd. now rewrite <- Zle_Qle. }
  assert (PB' : inject_Z (Zpos d) < pow2 (b + 1)).
  { rewrite <- pow2_inject by lia. rewrite <- Zlt_Qlt.
    now replace (b + 1)%Z with (Z.succ b) by lia. }
  pose proof (pow2_pos b) as Pb.
  assert (Up : n # d < pow2 (a - b + 1)).
  { rewrite Q1; apply Qlt_shift_div_r; [exact Dpos|].
    assert (pow2 (a + 1) == pow2 (a - b + 1) * pow2 b) as E.
    { rewrite <- pow2_plus; now replace (a - b + 1 + b)%Z with (a + 1)%Z by lia. }
    pose proof (pow2_pos (a - b + 1)). nra. }
  assert (Lo : pow2 (a - b - 1) <= n # d).
  { rewrite Q1; apply Qle_shift_div_l; [exact Dpos|].
    assert (pow2 a == pow2 (a - b - 1) * pow2 (b + 1)) as E.
    { rewrite <- pow2_plus; now replace (a - b - 1 + (b + 1))%Z with a by lia. }
    pose proof (pow2_pos (a - b - 1)). nra. }
  destruct (Qle_bool (pow2 (a - b)) (n # d)) eqn:C.
  - apply Qle_bool_iff in C; split; [exact C | exact Up].
  - split; [exact Lo|].
    replace (a - b - 1 + 1)%Z with (a - b)%Z by lia.
    apply Qnot_le_lt; intros H; apply Qle_bool_iff in H; congruence.
Qed.

Lemma ilog2_le (a b : Q) : 0 < a -> a <= b -> (ilog2 a <= ilog2 b)%Z.
Proof.
  intros Ha Hab.
  destruct (ilog2_spec Ha) as [La _].
  destruct (@ilog2_spec b ltac:(lra)) as [_ Ub].
  destruct (Z_le_gt_dec (ilog2 a) (ilog2 b)) as [H|H]; [exact H|].
  pose proof (@pow2_le (ilog2 b + 1) (ilog2 a) ltac:(lia)); lra.
Qed.

Lemma round_pos_le (a b : Q) : 0 < a -> a <= b -> round_pos a <= round_pos b.
Proof.
  intros Ha Hab; assert (Hb : 0 < b) by lra.
  pose proof (ilog2_le Ha Hab) as L.
  destruct (ilog2_spec Ha) as [_ Ua].
  destruct (ilog2_spec Hb) as [Lb _].
  unfold round_pos.
  set (ea := ulp_exp a); set (eb := ulp_exp b).
  assert (Hea : (ilog2 a - 52 <= ea)%Z) by (unfold ea, ulp_exp; lia).
  assert (Heab : (ea <= eb)%Z) by (unfold ea, eb, ulp_exp; lia).
  pose proof (pow2_pos ea) as Pa; pose proof (pow2_pos eb) as Pb.
  destruct (Z.eq_dec ea eb) as [E|N].
  - rewrite <- E.
    assert (a / pow2 ea <= b / pow2 ea) as D.
    { apply Qle_shift_div_l; [exact Pa|].
      assert (a / pow2 ea * pow2 ea == a) as -> by (field; lra). exact Hab. }
    apply nearest_even_le in D; rewrite Zle_Qle in D. nra.
  - assert (Heb : eb = (ilog2 b - 52)%Z) by (unfold ea, eb, ulp_exp in *; lia).
    assert (A1 : inject_Z (nearest_even (a / pow2 ea)) <= inject_Z (2 ^ 53)).
    { assert (nearest_even (a / pow2 ea) <=
              nearest_even (inject_Z (2 ^ 53)))%Z as A0.
      { apply nearest_even_le.
        apply Qle_shift_div_r; [exact Pa|].
        rewrite pow2_inject by lia. rewrite <- pow2_plus.
        pose proof (@pow2_le (ilog2 a + 1) (53 + ea) ltac:(lia)). lra. }
      rewrite nearest_even_Z in A0. now rewrite <- Zle_Qle. }
    assert (B1 : inject_Z (2 ^ 52) <= inject_Z (nearest_even (b / pow2 eb))).
    { assert (nearest_even (inject_Z (2 ^ 52)) <=
              nearest_even (b / pow2 eb))%Z as B0.
      { apply nearest_even_le.
        apply Qle_shift_div_l; [exact Pb|].
        rewrite pow2_inject by lia. rewrite <- pow2_plus.
        replace (52 + eb)%Z with (ilog2 b) by lia. exact Lb. }
      rewrite nearest_even_Z in B0. now rewrite <- Zle_Qle. }
    rewrite pow2_inject in A1, B1 by lia.
    assert (pow2 53 * pow2 ea <= pow2 52 * pow2 eb) as M.
    { rewrite <- !pow2_plus. apply pow2_le; lia. }
    pose proof (pow2_pos 52); pose proof (pow2_pos 53).
    nra.
Qed.

Lemma round_pos_nonneg (a : Q) : 0 <= a -> 0 <= round_pos a.
Proof.
  intros Ha; unfold round_pos.
  pose proof (pow2_pos (ulp_exp a)) as P.
  assert (inject_Z 0 <= a / pow2 (ulp_exp a)) as D.
  { apply Qle_shift_div_l; [exact P|]. change (inject_Z 0) with 0. lra. }
  apply nearest_even_le in D; rewrite (nearest_even_Z 0) in D.
  rewrite Zle_Qle in D. change (inject_Z 0) with 0 in D.
  apply Qmult_le_0_compat; lra.
Qed.

Lemma round_le (a b : Q) : 0 <= a -> a <= b -> round a <= round b.
Proof.
  intros Ha Hab; unfold round.
  destruct (Qcompare a 0) eqn:Ca.
  - destruct (Qcompare b 0) eqn:Cb.
    + lra.
    + compare_facts Cb; compare_facts Ca; lra.
    + compare_facts Cb; apply round_pos_nonneg; lra.
  - compare_facts Ca; lra.
  - compare_facts Ca.
    destruct (Qcompare b 0) eqn:Cb.
    + compare_facts Cb; lra.
    + compare_facts Cb; lra.
    + now apply round_pos_le.
Qed.

(** The doubles the statements below use as landmarks. *)
Lemma round_landmarks :
  round 1 == 1 /\ round (1 + max_float) == max_float /\
  0 < round (1 / max_float).
Proof. split; [|split]; vm_compute; reflexivity. Qed.

(** The model on doubles that are well known: 0.1 is
    [0x1.999999999999ap-4], [0.1 + 0.2] is [0x1.3333333333334p-2] and not
    the double of 0.3, a tie goes to the even neighbour, and the least
    subnormal is [2^-1074]. *)
Example round_known_doubles :
  round (1 # 10) == inject_Z 0x1999999999999a * pow2 (-56) /\
  add (round (1 # 10)) (round (2 # 10)) ==
    inject_Z 0x13333333333334 * pow2 (-54) /\
  ~ add (round (1 # 10)) (round (2 # 10)) == round (3 # 10) /\
  round (1 + pow2 (-53)) == 1 /\
  round (1 + 3 * pow2 (-53)) == 1 + pow2 (-51) /\
  round (1 + pow2 (-52)) == 1 + pow2 (-52) /\
  round (pow2 (-1075) + pow2 (-1080)) == pow2 (-1074) /\
  round (pow2 (-1075)) == 0.
Proof.
  repeat split; try (vm_compute; reflexivity).
  intros H; apply Qeq_bool_iff in H; vm_compute in H; discriminate H.
Qed.

Lemma score_of_cases (d : Q) :
  finite_distance d ->
  score_of d = Ok (round (1 / round (1 + d))) /\
  normalized64 d (round (1 / round (1 + d))).
Proof.
  intros [H0 H1]; destruct round_landmarks as [R1 [RM RT]].
  assert (A1 : 1 <= round (1 + d)).
  { pose proof (@round_le 1 (1 + d) ltac:(lra) ltac:(lra)); lra. }
  assert (A2 : round (1 + d) <= max_float).
  { pose proof (@round_le (1 + d) (1 + max_float) ltac:(lra) ltac:(lra)).
    lra. }
  assert (M : 0 < max_float) by (vm_compute; reflexivity).
  assert (I1 : 1 / round (1 + d) <= 1).
  { apply Qle_shift_div_r; lra. }
  assert (I0 : 1 / max_float <= 1 / round (1 + d)).
  { apply Qle_shift_div_l; [lra|].
    assert (1 / max_float * round (1 + d) == round (1 + d) / max_float) as ->
      by (field; lra).
    apply Qle_shift_div_r; lra. }
  assert (IP : 0 <= 1 / max_float).
  { apply Qle_shift_div_l; lra. }
  unfold score_of, div, add.
  destruct (Qeq_bool (round (1 + d)) 0) eqn:E.
  - apply Qeq_bool_eq in E; lra.
  - split; [reflexivity|]; split; [reflexivity|]; split; [|split].
    + pose proof (round_le IP I0); lra.
    + pose proof (@round_le (1 / round (1 + d)) 1 ltac:(lra) I1); lra.
    + intros D.
      assert (1 <= 1 / round (1 + d)) as I2.
      { apply Qle_shift_div_l; [lra|].
        assert (round (1 + d) <= round 1) by (apply round_le; lra). lra. }
      pose proof (@round_le 1 (1 / round (1 + d)) ltac:(lra) I2).
      pose proof (@round_le (1 / round (1 + d)) 1 ltac:(lra) I1).
      lra.
Qed.

Lemma score_of_le (d d' : Q) :
  0 <= d -> d <= d' ->
  round (1 / round (1 + d')) <= round (1 / round (1 + d)).
Proof.
  intros H0 H1; destruct round_landmarks as [R1 _].
  assert (A : 1 <= round (1 + d)).
  { pose proof (@round_le 1 (1 + d) ltac:(lra) ltac:(lra)); lra. }
  assert (B : round (1 + d) <= round (1 + d')) by (apply round_le; lra).
  apply round_le.
  - apply Qle_shift_div_l; lra.
  - apply Qle_shift_div_l; [lra|].
    assert (1 / round (1 + d') * round (1 + d) ==
            round (1 + d) / round (1 + d')) as -> by (field; lra).
    apply Qle_shift_div_r; lra.
Qed.
End Rounding.

Lemma multimodal_format_hit64 (h : TourismMultimodalDAO.Hit) :
  finite_distance (TourismMultimodalDAO.hit_distance h) ->
  exists r, TourismMultimodalDAO.format_hit64 h = Ok r /\
            TourismMultimodalDAO.id r = TourismMultimodalDAO.hit_id h /\
            TourismMultimodalDAO.distance r = TourismMultimodalDAO.hit_distance h /\
            TourismMultimodalDAO.score r =
              Float64.round
                (1 / Float64.round (1 + TourismMultimodalDAO.hit_distance h)).
Proof.
  intros H; unfold TourismMultimodalDAO.format_hit64.
  destruct (score_of_cases H) as [-> _]; simpl.
  eexists; split; [reflexivity|]; repeat split.
Qed.

Lemma baichay_format_hit64 (h : BaiChayTourismDAO.Hit) :
  finite_distance (BaiChayTourismDAO.hit_distance h) ->
  exists r, BaiChayTourismDAO.format_hit64 h = Ok r /\
            BaiChayTourismDAO.id r = BaiChayTourismDAO.hit_id h /\
            BaiChayTourismDAO.distance r = BaiChayTourismDAO.hit_distance h /\
            BaiChayTourismDAO.score r =
              Float64.round
                (1 / Float64.round (1 + BaiChayTourismDAO.hit_distance h)).
Proof.
  intros H; unfold BaiChayTourismDAO.format_hit64.
  destruct (score_of_cases H) as [-> _]; simpl.
  eexists; split; [reflexivity|]; repeat split.
Qed.

(** The claim of C8 fails in the doubles of the source: the distances 0
    and 2^-60 differ, and both get the score 1, because [1 + 2^-60]
    rounds to 1.  The score does not strictly decrease. *)
Lemma score_not_strict_counterexample :
  0 < Float64.pow2 (-60) /\
  (exists r r',
     TourismMultimodalDAO.format_hit64 (Samples.sample_hit 1 0) = Ok r /\
     TourismMultimodalDAO.format_hit64
       (Samples.sample_hit 2 (Float64.pow2 (-60))) = Ok r' /\
     TourismMultimodalDAO.score r == 1 /\
     TourismMultimodalDAO.score r' == 1 /\
     ~ TourismMultimodalDAO.score r' < TourismMultimodalDAO.score r) /\
  (exists r r',
     BaiChayTourismDAO.format_hit64 (Samples.park_hit 1 0) = Ok r /\
     BaiChayTourismDAO.format_hit64
       (Samples.park_hit 2 (Float64.pow2 (-60))) = Ok r' /\
     BaiChayTourismDAO.score r == 1 /\
     BaiChayTourismDAO.score r' == 1 /\
     ~ BaiChayTourismDAO.score r' < BaiChayTourismDAO.score r).
Proof.
  split; [vm_compute; reflexivity|]; split.
  - eexists _, _; split; [vm_compute; reflexivity|].
    split; [vm_compute; reflexivity|].
    split; [vm_compute; reflexivity|].
    split; [vm_compute; reflexivity|].
    vm_compute; discriminate.
  - eexists _, _; split; [vm_compute; reflexivity|].
    split; [vm_compute; reflexivity|].
    split; [vm_compute; reflexivity|].
    split; [vm_compute; reflexivity|].
    vm_compute; discriminate.
Qed.

(** C8, amended (score normalization in doubles).  For hits whose
    distances are finite and not negative both [_format_results] succeed:
    [1 + d] rounds to a double that is at least 1, so the divisor is never
    zero.  Each hit gets as score the double nearest to 1 over the double
    nearest to [1 + d]; it lies in (0, 1] and is 1 when [d] is 0.  Of two
    such distances the larger one never gets the larger score: the score
    is non-increasing in the distance. *)
Theorem score_normalization :
  (forall results : list (list TourismMultimodalDAO.Hit),
     Forall (fun h => finite_distance (TourismMultimodalDAO.hit_distance h))
            (concat results) ->
     exists out,
       TourismMultimodalDAO.format_results64 results = Ok out /\
       Forall2 (fun h r =>
                  TourismMultimodalDAO.distance r = TourismMultimodalDAO.hit_distance h /\
                  normalized64 (TourismMultimodalDAO.hit_distance h)
                               (TourismMultimodalDAO.score r))
               (concat results) out) /\
  (forall results : list (list BaiChayTourismDAO.Hit),
     Forall (fun h => finite_distance (BaiChayTourismDAO.hit_distance h))
            (concat results) ->
     exists out,
       BaiChayTourismDAO.format_results64 results = Ok out /\
       Forall2 (fun h r =>
                  BaiChayTourismDAO.distance r = BaiChayTourismDAO.hit_distance h /\
                  normalized64 (BaiChayTourismDAO.hit_distance h)
                               (BaiChayTourismDAO.score r))
               (concat results) out) /\
  (forall h h' r r',
     0 <= TourismMultimodalDAO.hit_distance h ->
     TourismMultimodalDAO.hit_distance h <= TourismMultimodalDAO.hit_distance h' ->
     TourismMultimodalDAO.hit_distance h' <= Float64.max_float ->
     TourismMultimodalDAO.format_hit64 h = Ok r ->
     TourismMultimodalDAO.format_hit64 h' = Ok r' ->
     TourismMultimodalDAO.score r' <= TourismMultimodalDAO.score r) /\
  (forall h h' r r',
     0 <= BaiChayTourismDAO.hit_distance h ->
     BaiChayTourismDAO.hit_distance h <= BaiChayTourismDAO.hit_distance h' ->
     BaiChayTourismDAO.hit_distance h' <= Float64.max_float ->
     BaiChayTourismDAO.format_hit64 h = Ok r ->
     BaiChayTourismDAO.format_hit64 h' = Ok r' ->
     BaiChayTourismDAO.score r' <= BaiChayTourismDAO.score r).
Proof.
  split; [|split; [|split]].
  - intros results H; apply mapM_Forall2.
    eapply Forall_impl; [|exact H]; intros h Hh.
    destruct (multimodal_format_hit64 h Hh) as [r [Hr [_ [Hd Hs]]]].
    exists r; split; [exact Hr|]; split; [exact Hd|].
    rewrite Hs; now apply score_of_cases.
  - intros results H; apply mapM_Forall2.
    eapply Forall_impl; [|exact H]; intros h Hh.
    destruct (baichay_format_hit64 h Hh) as [r [Hr [_ [Hd Hs]]]].
    exists r; split; [exact Hr|]; split; [exact Hd|].
    rewrite Hs; now apply score_of_cases.
  - intros h h' r r' H0 H1 H2 Hr Hr'.
    destruct (@multimodal_format_hit64 h ltac:(split; lra))
      as [x [Hx [_ [_ Hs]]]].
    destruct (@multimodal_format_hit64 h' ltac:(split; lra))
      as [x' [Hx' [_ [_ Hs']]]].
    rewrite Hx in Hr; rewrite Hx' in Hr'.
    injection Hr as <-; injection Hr' as <-.
    rewrite Hs, Hs'; now apply score_of_le.
  - intros h h' r r' H0 H1 H2 Hr Hr'.
    destruct (@baichay_format_hit64 h ltac:(split; lra))
      as [x [Hx [_ [_ Hs]]]].
    destruct (@baichay_format_hit64 h' ltac:(split; lra))
      as [x' [Hx' [_ [_ Hs']]]].
    rewrite Hx in Hr; rewrite Hx' in Hr'.
    injection Hr as <-; injection Hr' as <-.
    rewrite Hs, Hs'; now apply score_of_le.
Qed.

Lemma score_normalization_witness :
  (exists out,
     TourismMultimodalDAO.format_results64
       [[Samples.sample_hit 1 0; Samples.sample_hit 2 (1 # 10)]] = Ok out /\
     Forall2 (fun h r =>
                TourismMultimodalDAO.distance r = TourismMultimodalDAO.hit_distance h /\
                normalized64 (TourismMultimodalDAO.hit_distance h)
                             (TourismMultimodalDAO.score r))
             [Samples.sample_hit 1 0; Samples.sample_hit 2 (1 # 10)] out) /\
  (exists out,
     BaiChayTourismDAO.format_results64
       [[Samples.park_hit 1 0]; [Samples.park_hit 2 (1 # 10)]] = Ok out /\
     Forall2 (fun h r =>
                BaiChayTourismDAO.distance r = BaiChayTourismDAO.hit_distance h /\
                normalized64 (BaiChayTourismDAO.hit_distance h)
                             (BaiChayTourismDAO.score r))
             [Samples.park_hit 1 0; Samples.park_hit 2 (1 # 10)] out) /\
  (forall r r',
     TourismMultimodalDAO.format_hit64 (Samples.sample_hit 1 0) = Ok r ->
     TourismMultimodalDAO.format_hit64 (Samples.sample_hit 2 (1 # 10)) = Ok r' ->
     TourismMultimodalDAO.score r' <= TourismMultimodalDAO.score r) /\
  (forall r r',
     BaiChayTourismDAO.format_hit64 (Samples.park_hit 1 0) = Ok r ->
     BaiChayTourismDAO.format_hit64 (Samples.park_hit 2 (1 # 10)) = Ok r' ->
     BaiChayTourismDAO.score r' <= BaiChayTourismDAO.score r).
Proof.
  assert (F : forall d, Qle_bool 0 d && Qle_bool d Float64.max_float = true ->
                        finite_distance d).
  { intros d H; apply andb_true_iff in H; destruct H as [H1 H2].
    split; now apply Qle_bool_iff. }
  destruct score_normalization as [H1 [H2 [H3 H4]]].
  split; [|split; [|split]].
  - apply (H1 [[Samples.sample_hit 1 0; Samples.sample_hit 2 (1 # 10)]]).
    repeat constructor; apply F; vm_compute; reflexivity.
  - apply (H2 [[Samples.park_hit 1 0]; [Samples.park_hit 2 (1 # 10)]]).
    repeat constructor; apply F; vm_compute; reflexivity.
  - intros r r'.
    apply (H3 (Samples.sample_hit 1 0) (Samples.sample_hit 2 (1 # 10)) r r');
      apply Qle_bool_iff; vm_compute; reflexivity.
  - intros r r'.
    apply (H4 (Samples.park_hit 1 0) (Samples.park_hit 2 (1 # 10)) r r');
      apply Qle_bool_iff; vm_compute; reflexivity.
Defined.

(** ** Validation and writes of [insert_data] *)

Lemma String_eqb_eq (a b : string) : String.eqb a b = true <-> a = b.
Proof. apply String.eqb_eq. Qed.

(** A loop whose body either passes on good elements or raises. *)
Lemma forM_cases {A : Type} (body : A -> result unit) (good : A -> bool)
    (bad : exn -> bool) :
  (forall x, if good x then body x = Ok tt
             else exists e, body x = Raise e /\ bad e = true) ->
  forall l, if forallb good l then forM_ body l = Ok tt
            else exists e, forM_ body l = Raise e /\ bad e = true.
Proof.
  intros H l; induction l as [|x l IH]; simpl; [reflexivity|].
  specialize (H x); destruct (good x); simpl.
  - rewrite H; simpl; exact IH.
  - destruct H as [e [-> He]]; now exists e.
Qed.

Lemma py_len_raise (v : value) (e : exn) : py_len v = Raise e -> e = TypeError.
Proof. destruct v; simpl; congruence. Qed.

Lemma has_field_get (field : string) (item : Item) :
  has_field field item = true ->
  exists v, dict_get String.eqb field item = Some v /\ getitem item field = Ok v.
Proof.
  unfold has_field, dict_mem, getitem.
  destruct (dict_get String.eqb field item) as [v|]; [|discriminate].
  intros _; now exists v.
Qed.

(** The two checks on a vector field, once the field is known to be there,
    followed by the rest of the loop body. *)
Lemma vector_check_then (item : Item) (field : string) (n : nat)
    (rest : result unit) :
  has_field field item = true ->
  if len_is item field n
  then (v <- getitem item field ;; m <- py_len v ;;
        py_assert (m =? n)%nat "" ;;; rest) = rest
  else exists e,
      (v <- getitem item field ;; m <- py_len v ;;
       py_assert (m =? n)%nat "" ;;; rest) = Raise e /\
      is_validation_error e = true.
Proof.
  intros H; destruct (has_field_get _ _ H) as [v [Hg Hv]].
  unfold len_is; rewrite Hg, Hv; simpl.
  destruct (py_len v) as [m|e] eqn:E; simpl.
  - unfold py_assert; destruct (m =? n)%nat; [reflexivity|].
    eexists; split; reflexivity.
  - apply py_len_raise in E; subst; eexists; split; reflexivity.
Qed.

Lemma vector_check (item : Item) (field : string) (n : nat) :
  has_field field item = true ->
  if len_is item field n
  then (v <- getitem item field ;; m <- py_len v ;;
        py_assert (m =? n)%nat "") = Ok tt
  else exists e,
      (v <- getitem item field ;; m <- py_len v ;;
       py_assert (m =? n)%nat "") = Raise e /\ is_validation_error e = true.
Proof.
  intros H; destruct (has_field_get _ _ H) as [v [Hg Hv]].
  unfold len_is; rewrite Hg, Hv; simpl.
  destruct (py_len v) as [m|e] eqn:E; simpl.
  - unfold py_assert; destruct (m =? n)%nat; [reflexivity|].
    eexists; split; reflexivity.
  - apply py_len_raise in E; subst; eexists; split; reflexivity.
Qed.

Lemma required_check (required : list string) (item : Item) :
  if forallb (fun field => has_field field item) required
  then forM_ (fun field =>
                py_assert (has_field field item)
                          ("Missing '" ++ field ++ "'")%string) required = Ok tt
  else exists e,
      forM_ (fun field =>
               py_assert (has_field field item)
                         ("Missing '" ++ field ++ "'")%string) required = Raise e /\
      is_validation_error e = true.
Proof.
  apply forM_cases; intros field; unfold py_assert.
  destruct (has_field field item); [reflexivity|].
  eexists; split; reflexivity.
Qed.

Lemma forallb_In {A : Type} (f : A -> bool) (l : list A) (x : A) :
  forallb f l = true -> In x l -> f x = true.
Proof. intros H; apply (proj1 (forallb_forall f l) H). Qed.

Lemma column_present (field : string) (data : list Item) :
  forallb (has_field field) data = true ->
  exists col, mapM (fun item => getitem item field) data = Ok col /\
              length col = length data.
Proof.
  induction data as [|item data IH]; simpl; intros H.
  - now exists [].
  - apply andb_true_iff in H; destruct H as [H1 H2].
    destruct (has_field_get _ _ H1) as [v [_ ->]]; simpl.
    destruct (IH H2) as [col [-> Hl]]; simpl.
    exists (v :: col); split; [reflexivity | simpl; now rewrite Hl].
Qed.

Lemma rows_of_length (columns : list (list value)) :
  length (Milvus.rows_of columns) = length (hd [] columns).
Proof.
  unfold Milvus.rows_of; now rewrite length_map, length_seq.
Qed.

Module IngestFacts.
Import IngestSpec.

(** *** [BaiChayTourismDAO] *)

Lemma validate_item_cases (item : Item) :
  if well_formed item then BaiChayTourismDAO.validate_item item = Ok tt
  else exists e, BaiChayTourismDAO.validate_item item = Raise e /\
                 is_validation_error e = true.
Proof.
  unfold well_formed, BaiChayTourismDAO.validate_item.
  pose proof (required_check BaiChayTourismDAO.required_fields item) as R.
  destruct (forallb _ BaiChayTourismDAO.required_fields) eqn:F.
  - rewrite R; cbn [bind andb].
    apply vector_check.
    apply (forallb_In _ _ "description_vector" F); simpl; tauto.
  - destruct R as [e [-> He]]; cbn [bind andb]; now exists e.
Qed.

Lemma validate_cases (data : list Item) :
  if forallb well_formed data then BaiChayTourismDAO.validate data = Ok tt
  else exists e, BaiChayTourismDAO.validate data = Raise e /\
                 is_validation_error e = true.
Proof. apply forM_cases, validate_item_cases. Qed.

Lemma well_formed_field (data : list Item) (field : string) :
  forallb well_formed data = true ->
  In field BaiChayTourismDAO.required_fields ->
  forallb (has_field field) data = true.
Proof.
  intros H Hf; apply forallb_forall; intros item Hi.
  apply (forallb_In _ _ item H) in Hi.
  unfold well_formed in Hi; apply andb_true_iff in Hi; destruct Hi as [Hi _].
  exact (forallb_In _ _ field Hi Hf).
Qed.

Lemma entities_of_well_formed (data : list Item) :
  forallb well_formed data = true ->
  exists entities,
    BaiChayTourismDAO.entities_of data = Ok entities /\
    length (hd [] entities) = length data.
Proof.
  intros H; unfold BaiChayTourismDAO.entities_of, BaiChayTourismDAO.column.
  destruct (column_present "id" data) as [c1 [-> L1]];
    [apply well_formed_field; simpl; tauto|]; simpl.
  destruct (column_present "name" data) as [c2 [-> _]];
    [apply well_formed_field; simpl; tauto|]; simpl.
  destruct (column_present "type" data) as [c3 [-> _]];
    [apply well_formed_field; simpl; tauto|]; simpl.
  destruct (column_present "description" data) as [c4 [-> _]];
    [apply well_formed_field; simpl; tauto|]; simpl.
  destruct (column_present "description_vector" data) as [c5 [-> _]];
    [apply well_formed_field; simpl; tauto|]; simpl.
  eexists; split; [reflexivity | exact L1].
Qed.

Lemma insert_data_cases
    (accepts : Milvus.Collection -> list (list value) -> bool)
    (self : BaiChayTourismDAO.DAO) (data : list Item) :
  if forallb well_formed data
  then exists entities,
      BaiChayTourismDAO.entities_of data = Ok entities /\
      length (hd [] entities) = length data /\
      BaiChayTourismDAO.insert_data accepts self data =
        if accepts (BaiChayTourismDAO.collection self) entities
        then (Ok (hd [] entities),
              {| BaiChayTourismDAO.collection :=
                   Milvus.flush
                     {| Milvus.persisted :=
                          Milvus.persisted (BaiChayTourismDAO.collection self);
                        Milvus.pending :=
                          Milvus.pending (BaiChayTourismDAO.collection self)
                          ++ Milvus.rows_of entities |} |})
        else (Raise MilvusException, self)
  else exists e,
      BaiChayTourismDAO.insert_data accepts self data = (Raise e, self) /\
      is_validation_error e = true.
Proof.
  pose proof (validate_cases data) as V.
  unfold BaiChayTourismDAO.insert_data.
  destruct (forallb well_formed data) eqn:F.
  - destruct (entities_of_well_formed data F) as [entities [E L]].
    exists entities; rewrite V, E; unfold Milvus.insert.
    split; [reflexivity|]; split; [exact L|].
    now destruct (accepts _ entities).
  - destruct V as [e [-> He]]; now exists e.
Qed.

Lemma well_formed_ignores (item : Item) (field : string) (v : value) :
  In field ["price_min"; "price_max"; "rating"] ->
  well_formed (dict_set String.eqb field v item) = well_formed item.
Proof.
  intros H; unfold well_formed, len_is, has_field, dict_mem; simpl.
  rewrite !(dict_get_set String.eqb String_eqb_eq).
  simpl in H; destruct H as [<-|[<-|[<-|[]]]]; reflexivity.
Qed.

(** *** [TourismMultimodalDAO] *)

Lemma multimodal_validate_item_cases (item : Item) :
  if well_formed_multimodal item
  then TourismMultimodalDAO.validate_item item = Ok tt
  else exists e, TourismMultimodalDAO.validate_item item = Raise e /\
                 is_validation_error e = true.
Proof.
  unfold well_formed_multimodal, TourismMultimodalDAO.validate_item.
  pose proof (required_check TourismMultimodalDAO.required_fields item) as R.
  destruct (forallb _ TourismMultimodalDAO.required_fields) eqn:F.
  - rewrite R; cbn [bind andb].
    assert (Hi : has_field "image_vector" item = true)
      by (apply (forallb_In _ _ "image_vector" F); simpl; tauto).
    assert (Hd : has_field "description_vector" item = true)
      by (apply (forallb_In _ _ "description_vector" F); simpl; tauto).
    pose proof (vector_check_then item "image_vector"
                  TourismMultimodalDAO.IMAGE_VECTOR_DIM
                  (dv <- getitem item "description_vector" ;;
                   m <- py_len dv ;;
                   py_assert (m =? TourismMultimodalDAO.DESCRIPTION_VECTOR_DIM)%nat "")
                  Hi) as C1.
    destruct (len_is item "image_vector" _); cbn [andb].
    + rewrite C1; now apply vector_check.
    + exact C1.
  - destruct R as [e [-> He]]; cbn [bind andb]; now exists e.
Qed.

Lemma multimodal_validate_cases (data : list Item) :
  if forallb well_formed_multimodal data
  then TourismMultimodalDAO.validate data = Ok tt
  else exists e, TourismMultimodalDAO.validate data = Raise e /\
                 is_validation_error e = true.
Proof. apply forM_cases, multimodal_validate_item_cases. Qed.



Lemma flush_rows (c : Milvus.Collection) (new : list Milvus.row) :
  Milvus.rows (Milvus.flush {| Milvus.persisted := Milvus.persisted c;
                               Milvus.pending := Milvus.pending c ++ new |}) =
  Milvus.rows c ++ new.
Proof.
  unfold Milvus.rows, Milvus.flush; simpl.
  now rewrite app_nil_r, app_assoc.
Qed.

Lemma multimodal_well_formed_field (data : list Item) (field : string) :
  forallb well_formed_multimodal data = true ->
  In field TourismMultimodalDAO.required_fields ->
  forallb (has_field field) data = true.
Proof.
  intros H Hf; apply forallb_forall; intros item Hi.
  apply (forallb_In _ _ item H) in Hi.
  unfold well_formed_multimodal in Hi.
  apply andb_true_iff in Hi; destruct Hi as [Hi _].
  apply andb_true_iff in Hi; destruct Hi as [Hi _].
  exact (forallb_In _ _ field Hi Hf).
Qed.

Lemma multimodal_columns (data : list Item) :
  forallb well_formed_multimodal data = true ->
  exists common dvs ivs,
    TourismMultimodalDAO.common_columns data = Ok common /\
    TourismMultimodalDAO.column "description_vector" data = Ok dvs /\
    TourismMultimodalDAO.column "image_vector" data = Ok ivs.
Proof.
  intros H.
  unfold TourismMultimodalDAO.common_columns, TourismMultimodalDAO.column.
  destruct (column_present "id" data) as [c1 [-> _]];
    [apply multimodal_well_formed_field; simpl; tauto|]; simpl.
  destruct (column_present "location" data) as [c2 [-> _]];
    [apply multimodal_well_formed_field; simpl; tauto|]; simpl.
  destruct (column_present "type" data) as [c3 [-> _]];
    [apply multimodal_well_formed_field; simpl; tauto|]; simpl.
  destruct (column_present "description" data) as [c4 [-> _]];
    [apply multimodal_well_formed_field; simpl; tauto|]; simpl.
  destruct (column_present "image_url" data) as [c5 [-> _]];
    [apply multimodal_well_formed_field; simpl; tauto|]; simpl.
  destruct (column_present "price" data) as [c6 [-> _]];
    [apply multimodal_well_formed_field; simpl; tauto|]; simpl.
  destruct (column_present "description_vector" data) as [c7 [-> _]];
    [apply multimodal_well_formed_field; simpl; tauto|].
  destruct (column_present "image_vector" data) as [c8 [-> _]];
    [apply multimodal_well_formed_field; simpl; tauto|].
  now eexists _, _, _.
Qed.

Lemma multimodal_insert_cases
    (accepts : Milvus.Collection -> list (list value) -> bool)
    (self : TourismMultimodalDAO.DAO) (data : list Item) :
  if forallb well_formed_multimodal data
  then forall e, fst (TourismMultimodalDAO.insert_data accepts self data) = Raise e ->
                 e = MilvusException
  else exists e,
      TourismMultimodalDAO.insert_data accepts self data = (Raise e, self) /\
      is_validation_error e = true.
Proof.
  pose proof (multimodal_validate_cases data) as V.
  unfold TourismMultimodalDAO.insert_data.
  destruct (forallb well_formed_multimodal data) eqn:F.
  - destruct (multimodal_columns data F) as [common [dvs [ivs [C [D I]]]]].
    rewrite V, C, D; unfold Milvus.insert.
    destruct (accepts _ (common ++ [dvs])); [|simpl; congruence].
    rewrite I; cbn [TourismMultimodalDAO.image_collection].
    destruct (accepts _ (common ++ [ivs])); simpl; congruence.
  - destruct V as [e [-> He]]; now exists e.
Qed.

(** The claim of C7 fails: a record with [price_min] 5 above [price_max] 1
    and a rating of 9 is taken, and the entity count grows by one. *)
Lemma unchecked_price_counterexample :
  dict_get String.eqb "price_min" odd_prices = Some (VFloat 5) /\
  dict_get String.eqb "price_max" odd_prices = Some (VFloat 1) /\
  1 < 5 /\
  dict_get String.eqb "rating" odd_prices = Some (VFloat 9) /\
  5 < 9 /\
  exists self',
    BaiChayTourismDAO.insert_data accept_all empty_dao [odd_prices] =
      (Ok [VInt 1], self') /\
    BaiChayTourismDAO.total_count empty_dao = 0%nat /\
    BaiChayTourismDAO.total_count self' = 1%nat.
Proof.
  repeat (split; [reflexivity|]).
  eexists; split; [vm_compute; reflexivity|].
  split; reflexivity.
Qed.

(** C7, amended (validation of a batch).  [insert_data] raises from its
    validation pass exactly when some record of the batch lacks a
    required field or has a vector field whose [len] is not the declared
    dimension (the description vector, and for the multimodal DAO the
    image vector too); the DAO is then returned as it was, nothing being
    written.  The values of [price_min], [price_max] and [rating] play no
    part in validation.  A batch of well-formed records is written and
    counted when the server takes it, and otherwise fails with the
    server's exception only. *)
Theorem insert_validation
    (accepts : Milvus.Collection -> list (list value) -> bool)
    (self : BaiChayTourismDAO.DAO) (mself : TourismMultimodalDAO.DAO)
    (data : list Item) :
  (forallb well_formed data = false ->
   exists e,
     BaiChayTourismDAO.insert_data accepts self data = (Raise e, self) /\
     is_validation_error e = true) /\
  (forallb well_formed data = true ->
   exists entities,
     BaiChayTourismDAO.entities_of data = Ok entities /\
     (accepts (BaiChayTourismDAO.collection self) entities = false ->
      BaiChayTourismDAO.insert_data accepts self data =
        (Raise MilvusException, self)) /\
     (accepts (BaiChayTourismDAO.collection self) entities = true ->
      exists keys self',
        BaiChayTourismDAO.insert_data accepts self data = (Ok keys, self') /\
        length keys = length data /\
        BaiChayTourismDAO.total_count self' =
          (BaiChayTourismDAO.total_count self +
           length (Milvus.pending (BaiChayTourismDAO.collection self)) +
           length data)%nat)) /\
  (forall item field v,
     In field ["price_min"; "price_max"; "rating"] ->
     well_formed (dict_set String.eqb field v item) = well_formed item) /\
  (forallb well_formed_multimodal data = false ->
   exists e,
     TourismMultimodalDAO.insert_data accepts mself data = (Raise e, mself) /\
     is_validation_error e = true) /\
  (forallb well_formed_multimodal data = true ->
   forall e,
     fst (TourismMultimodalDAO.insert_data accepts mself data) = Raise e ->
     e = MilvusException).
Proof.
  pose proof (insert_data_cases accepts self data) as B.
  pose proof (multimodal_insert_cases accepts mself data) as M.
  split; [|split; [|split; [|split]]].
  - intros F; rewrite F in B; exact B.
  - intros F; rewrite F in B; destruct B as [entities [E [L I]]].
    exists entities; split; [exact E|]; split; intros A; rewrite A in I.
    + exact I.
    + eexists _, _; split; [exact I|]; split; [exact L|].
      unfold BaiChayTourismDAO.total_count, Milvus.num_entities; simpl.
      rewrite !length_app, rows_of_length, L; lia.
  - apply well_formed_ignores.
  - intros F; rewrite F in M; exact M.
  - intros F; rewrite F in M; exact M.
Qed.

Lemma insert_validation_witness :
  (exists e,
     BaiChayTourismDAO.insert_data accept_all empty_dao [odd_prices; no_vector] =
       (Raise e, empty_dao) /\
     is_validation_error e = true) /\
  (exists keys self',
     BaiChayTourismDAO.insert_data accept_all empty_dao [odd_prices] =
       (Ok keys, self') /\
     length keys = 1%nat /\
     BaiChayTourismDAO.total_count self' = 1%nat) /\
  well_formed (dict_set String.eqb "rating" (VFloat 9) no_vector) =
    well_formed no_vector /\
  (exists e,
     TourismMultimodalDAO.insert_data accept_all Samples.sample_dao
       [beach; short_vector] = (Raise e, Samples.sample_dao) /\
     is_validation_error e = true) /\
  (forall e,
     fst (TourismMultimodalDAO.insert_data accept_all Samples.sample_dao [beach]) =
       Raise e -> e = MilvusException).
Proof.
  destruct (insert_validation accept_all empty_dao Samples.sample_dao
              [odd_prices; no_vector]) as [H1 _].
  destruct (insert_validation accept_all empty_dao Samples.sample_dao
              [odd_prices]) as [_ [H2 [H3 _]]].
  destruct (insert_validation accept_all empty_dao Samples.sample_dao
              [beach; short_vector]) as [_ [_ [_ [H4 _]]]].
  destruct (insert_validation accept_all empty_dao Samples.sample_dao
              [beach]) as [_ [_ [_ [_ H5]]]].
  split; [apply H1; vm_compute; reflexivity|].
  split.
  - destruct (H2 eq_refl) as [entities [_ [_ H]]].
    destruct (H eq_refl) as [keys [self' [Hi [Hl Hc]]]].
    exists keys, self'; split; [exact Hi|]; split; [exact Hl | exact Hc].
  - split; [apply H3; simpl; tauto|].
    split; [apply H4; vm_compute; reflexivity|].
    apply H5; vm_compute; reflexivity.
Defined.







End IngestFacts.

(** * Further properties *)

(** ** Rows written by [insert_data] *)

Lemma column_values (field : string) (default : value) (data : list Item) :
  forallb (has_field field) data = true ->
  mapM (fun item => getitem item field) data =
  Ok (map (fun item => get_default item field default) data).
Proof.
  induction data as [|item data IH]; simpl; intros H; [reflexivity|].
  apply andb_true_iff in H; destruct H as [H1 H2].
  destruct (has_field_get _ _ H1) as [v [Hg Hv]].
  rewrite Hv, (IH H2); simpl; unfold get_default; now rewrite Hg.
Qed.

Lemma transpose_columns {X : Type} (g : X -> Item -> value) (F : list X)
    (data : list Item) :
  map (fun i => map (fun x => nth i (map (g x) data) VNone) F)
      (seq 0 (length data)) =
  map (fun item => map (fun x => g x item) F) data.
Proof.
  induction data as [|item data IH]; simpl; [reflexivity|].
  f_equal; rewrite <- seq_shift, map_map; exact IH.
Qed.

Lemma rows_of_columns {X : Type} (g : X -> Item -> value) (F : list X)
    (data : list Item) :
  F <> [] ->
  Milvus.rows_of (map (fun x => map (g x) data) F) =
  map (fun item => map (fun x => g x item) F) data.
Proof.
  intros HF; unfold Milvus.rows_of.
  destruct F as [|x F]; [congruence|]; simpl hd.
  rewrite length_map, <- transpose_columns.
  apply map_ext; intros i; now rewrite map_map.
Qed.

Module RowFacts.
Import IngestSpec ExtraSpec.

Lemma entities_of_rows (data : list Item) :
  forallb well_formed data = true ->
  BaiChayTourismDAO.entities_of data =
  Ok (map (fun fd => map (fun item => get_default item (fst fd) (snd fd)) data)
          entity_fields).
Proof.
  intros H; unfold BaiChayTourismDAO.entities_of, BaiChayTourismDAO.column.
  rewrite (column_values "id" VNone data)
    by (apply IngestFacts.well_formed_field; simpl; tauto).
  rewrite (column_values "name" VNone data)
    by (apply IngestFacts.well_formed_field; simpl; tauto).
  rewrite (column_values "type" VNone data)
    by (apply IngestFacts.well_formed_field; simpl; tauto).
  rewrite (column_values "description" VNone data)
    by (apply IngestFacts.well_formed_field; simpl; tauto).
  rewrite (column_values "description_vector" VNone data)
    by (apply IngestFacts.well_formed_field; simpl; tauto).
  reflexivity.
Qed.

(** What a call of [BaiChayTourismDAO.insert_data] comes to. *)
Lemma insert_data_outcome
    (accepts : Milvus.Collection -> list (list value) -> bool)
    (self : BaiChayTourismDAO.DAO) (data : list Item) :
  (exists e, BaiChayTourismDAO.insert_data accepts self data = (Raise e, self)) \/
  (forallb well_formed data = true /\
   exists self',
     BaiChayTourismDAO.insert_data accepts self data =
       (Ok (map (fun item => get_default item "id" VNone) data), self') /\
     Milvus.rows (BaiChayTourismDAO.collection self') =
       Milvus.rows (BaiChayTourismDAO.collection self) ++ map row_of data /\
     Milvus.pending (BaiChayTourismDAO.collection self') = []).
Proof.
  pose proof (IngestFacts.insert_data_cases accepts self data) as C.
  destruct (forallb well_formed data) eqn:F.
  - destruct C as [entities [E [_ I]]].
    rewrite (entities_of_rows data F) in E; injection E as <-.
    destruct (accepts _ _); [right | left; now exists MilvusException].
    split; [reflexivity|]; eexists; split; [exact I|]; split.
    + simpl BaiChayTourismDAO.collection.
      rewrite IngestFacts.flush_rows; f_equal.
      exact (@rows_of_columns _
               (fun fd item => get_default item (fst fd) (snd fd))
               entity_fields data ltac:(discriminate)).
    + reflexivity.
  - destruct C as [e [I _]]; left; now exists e.
Qed.

(** X1.  A successful [BaiChayTourismDAO.insert_data] adds one row per
    record, in input order; the row holds the record's values in the order
    of the schema's fields, with the defaults of [insert_data] for the
    optional fields the record lacks.  The keys returned are the records'
    ids in input order, nothing is left pending, and the entity count is
    the number of rows. *)
Theorem baichay_rows_written
    (accepts : Milvus.Collection -> list (list value) -> bool)
    (self self' : BaiChayTourismDAO.DAO) (data : list Item)
    (keys : list value) :
  BaiChayTourismDAO.insert_data accepts self data = (Ok keys, self') ->
  keys = map (fun item => get_default item "id" VNone) data /\
  Milvus.rows (BaiChayTourismDAO.collection self') =
    Milvus.rows (BaiChayTourismDAO.collection self) ++ map row_of data /\
  map fst entity_fields =
    map Schema.name (Schema.fields BaiChaySchema.create_schema) /\
  BaiChayTourismDAO.total_count self' =
    length (Milvus.rows (BaiChayTourismDAO.collection self')).
Proof.
  intros H.
  destruct (insert_data_outcome accepts self data)
    as [[e He]|[_ [s [Hs [Hr Hp]]]]]; rewrite H in *; [discriminate|].
  injection Hs as -> ->.
  split; [reflexivity|]; split; [exact Hr|]; split; [reflexivity|].
  unfold BaiChayTourismDAO.total_count, Milvus.num_entities, Milvus.rows.
  now rewrite Hp, app_nil_r.
Qed.

Lemma baichay_rows_written_witness :
  [VInt 1] = map (fun item => get_default item "id" VNone) [odd_prices] /\
  Milvus.rows (BaiChayTourismDAO.collection
                 (snd (BaiChayTourismDAO.insert_data accept_all empty_dao
                         [odd_prices]))) =
    Milvus.rows (BaiChayTourismDAO.collection empty_dao) ++
    map row_of [odd_prices] /\
  map fst entity_fields =
    map Schema.name (Schema.fields BaiChaySchema.create_schema) /\
  BaiChayTourismDAO.total_count
    (snd (BaiChayTourismDAO.insert_data accept_all empty_dao [odd_prices])) =
    length (Milvus.rows
              (BaiChayTourismDAO.collection
                 (snd (BaiChayTourismDAO.insert_data accept_all empty_dao
                         [odd_prices])))).
Proof.
  apply (@baichay_rows_written accept_all empty_dao
           (snd (BaiChayTourismDAO.insert_data accept_all empty_dao [odd_prices]))
           [odd_prices] [VInt 1]).
  vm_compute; reflexivity.
Defined.

Lemma multimodal_validated (data : list Item) :
  TourismMultimodalDAO.validate data = Ok tt ->
  forallb well_formed_multimodal data = true.
Proof.
  intros H; pose proof (IngestFacts.multimodal_validate_cases data) as C.
  destruct (forallb well_formed_multimodal data); [reflexivity|].
  destruct C as [e [He _]]; congruence.
Qed.

Lemma multimodal_entities (data : list Item) :
  forallb well_formed_multimodal data = true ->
  TourismMultimodalDAO.common_columns data =
    Ok (map (fun f => map (fun item => get_default item f VNone) data)
            ["id"; "location"; "type"; "description"; "image_url"; "price"]) /\
  TourismMultimodalDAO.column "description_vector" data =
    Ok (map (fun item => get_default item "description_vector" VNone) data) /\
  TourismMultimodalDAO.column "image_vector" data =
    Ok (map (fun item => get_default item "image_vector" VNone) data).
Proof.
  intros H.
  unfold TourismMultimodalDAO.common_columns, TourismMultimodalDAO.column.
  rewrite (column_values "id" VNone data)
    by (apply IngestFacts.multimodal_well_formed_field; simpl; tauto).
  rewrite (column_values "location" VNone data)
    by (apply IngestFacts.multimodal_well_formed_field; simpl; tauto).
  rewrite (column_values "type" VNone data)
    by (apply IngestFacts.multimodal_well_formed_field; simpl; tauto).
  rewrite (column_values "description" VNone data)
    by (apply IngestFacts.multimodal_well_formed_field; simpl; tauto).
  rewrite (column_values "image_url" VNone data)
    by (apply IngestFacts.multimodal_well_formed_field; simpl; tauto).
  rewrite (column_values "price" VNone data)
    by (apply IngestFacts.multimodal_well_formed_field; simpl; tauto).
  rewrite (column_values "description_vector" VNone data)
    by (apply IngestFacts.multimodal_well_formed_field; simpl; tauto).
  rewrite (column_values "image_vector" VNone data)
    by (apply IngestFacts.multimodal_well_formed_field; simpl; tauto).
  repeat split.
Qed.

Lemma text_rows (data : list Item) :
  Milvus.rows_of
    (map (fun f => map (fun item => get_default item f VNone) data)
         ["id"; "location"; "type"; "description"; "image_url"; "price"] ++
     [map (fun item => get_default item "description_vector" VNone) data]) =
  map (row_for MultimodalSchema.create_text_schema) data.
Proof.
  exact (@rows_of_columns _
           (fun fs item => get_default item (Schema.name fs) VNone)
           (Schema.fields MultimodalSchema.create_text_schema) data
           ltac:(discriminate)).
Qed.

Lemma image_rows (data : list Item) :
  Milvus.rows_of
    (map (fun f => map (fun item => get_default item f VNone) data)
         ["id"; "location"; "type"; "description"; "image_url"; "price"] ++
     [map (fun item => get_default item "image_vector" VNone) data]) =
  map (row_for MultimodalSchema.create_image_schema) data.
Proof.
  exact (@rows_of_columns _
           (fun fs item => get_default item (Schema.name fs) VNone)
           (Schema.fields MultimodalSchema.create_image_schema) data
           ltac:(discriminate)).
Qed.

(** X3.  A successful [TourismMultimodalDAO.insert_data] adds one row per
    record to each collection, in input order: to the text collection the
    record's values for the fields of the text schema, to the image
    collection its values for the fields of the image schema, each in
    schema order. *)
Theorem multimodal_rows_written
    (accepts : Milvus.Collection -> list (list value) -> bool)
    (self self' : TourismMultimodalDAO.DAO) (data : list Item)
    (ids : TourismMultimodalDAO.InsertIds) :
  TourismMultimodalDAO.insert_data accepts self data = (Ok ids, self') ->
  Milvus.rows (TourismMultimodalDAO.text_collection self') =
    Milvus.rows (TourismMultimodalDAO.text_collection self) ++
    map (row_for MultimodalSchema.create_text_schema) data /\
  Milvus.rows (TourismMultimodalDAO.image_collection self') =
    Milvus.rows (TourismMultimodalDAO.image_collection self) ++
    map (row_for MultimodalSchema.create_image_schema) data /\
  TourismMultimodalDAO.text_ids ids =
    map (fun item => get_default item "id" VNone) data /\
  TourismMultimodalDAO.entity_counts self' =
    (length (Milvus.rows (TourismMultimodalDAO.text_collection self')),
     length (Milvus.rows (TourismMultimodalDAO.image_collection self'))).
Proof.
  unfold TourismMultimodalDAO.insert_data.
  destruct (TourismMultimodalDAO.validate data) as [[]|] eqn:V; [|intros [=]].
  destruct (multimodal_entities data (multimodal_validated data V))
    as [-> [-> ->]].
  unfold Milvus.insert.
  destruct (accepts _ _); [|intros [=]].
  cbn [TourismMultimodalDAO.image_collection].
  destruct (accepts _ _); [|intros [=]].
  intros [= <- <-]; cbn [TourismMultimodalDAO.text_collection
                           TourismMultimodalDAO.image_collection
                           TourismMultimodalDAO.text_ids].
  split; [|split; [|split]].
  - rewrite IngestFacts.flush_rows; f_equal; exact (text_rows data).
  - rewrite IngestFacts.flush_rows; f_equal; exact (image_rows data).
  - reflexivity.
  - unfold TourismMultimodalDAO.entity_counts, Milvus.num_entities, Milvus.rows.
    cbn [Milvus.flush Milvus.persisted Milvus.pending
         TourismMultimodalDAO.text_collection
         TourismMultimodalDAO.image_collection].
    now rewrite !app_nil_r.
Qed.

Lemma multimodal_rows_written_witness :
  Milvus.rows (TourismMultimodalDAO.text_collection
                 (snd (TourismMultimodalDAO.insert_data accept_all
                         Samples.sample_dao [beach]))) =
    Milvus.rows (TourismMultimodalDAO.text_collection Samples.sample_dao) ++
    map (row_for MultimodalSchema.create_text_schema) [beach] /\
  Milvus.rows (TourismMultimodalDAO.image_collection
                 (snd (TourismMultimodalDAO.insert_data accept_all
                         Samples.sample_dao [beach]))) =
    Milvus.rows (TourismMultimodalDAO.image_collection Samples.sample_dao) ++
    map (row_for MultimodalSchema.create_image_schema) [beach] /\
  [VInt 1] = map (fun item => get_default item "id" VNone) [beach] /\
  TourismMultimodalDAO.entity_counts
    (snd (TourismMultimodalDAO.insert_data accept_all
            Samples.sample_dao [beach])) =
    (length (Milvus.rows
               (TourismMultimodalDAO.text_collection
                  (snd (TourismMultimodalDAO.insert_data accept_all
                          Samples.sample_dao [beach])))),
     length (Milvus.rows
               (TourismMultimodalDAO.image_collection
                  (snd (TourismMultimodalDAO.insert_data accept_all
                          Samples.sample_dao [beach]))))).
Proof.
  apply (@multimodal_rows_written accept_all Samples.sample_dao
           (snd (TourismMultimodalDAO.insert_data accept_all
                   Samples.sample_dao [beach]))
           [beach]
           {| TourismMultimodalDAO.text_ids := [VInt 1];
              TourismMultimodalDAO.image_ids := [VInt 1] |}).
  vm_compute; reflexivity.
Defined.

(** X4.  [TourismMultimodalDAO.insert_data] is not all or nothing: when
    the server takes the text batch and refuses the image batch, the call
    raises the server's exception with the text rows written and flushed
    and the image collection untouched, so two collections that agreed on
    ids and display attributes no longer do. *)
Theorem multimodal_partial_write
    (accepts : Milvus.Collection -> list (list value) -> bool)
    (self : TourismMultimodalDAO.DAO) (data : list Item)
    (common : list (list value)) (dvs ivs : list value) :
  TourismMultimodalDAO.validate data = Ok tt ->
  TourismMultimodalDAO.common_columns data = Ok common ->
  TourismMultimodalDAO.column "description_vector" data = Ok dvs ->
  TourismMultimodalDAO.column "image_vector" data = Ok ivs ->
  accepts (TourismMultimodalDAO.text_collection self) (common ++ [dvs]) = true ->
  accepts (TourismMultimodalDAO.image_collection self) (common ++ [ivs]) = false ->
  exists self1,
    TourismMultimodalDAO.insert_data accepts self data =
      (Raise MilvusException, self1) /\
    TourismMultimodalDAO.image_collection self1 =
      TourismMultimodalDAO.image_collection self /\
    Milvus.rows (TourismMultimodalDAO.text_collection self1) =
      Milvus.rows (TourismMultimodalDAO.text_collection self) ++
      map (row_for MultimodalSchema.create_text_schema) data /\
    fst (TourismMultimodalDAO.entity_counts self1) =
      length (Milvus.rows (TourismMultimodalDAO.text_collection self1)) /\
    (data <> [] -> agree self -> ~ agree self1).
Proof.
  intros V C D I At Ai.
  destruct (multimodal_entities data (multimodal_validated data V))
    as [C' [D' I']].
  unfold TourismMultimodalDAO.insert_data.
  rewrite V, C, D; unfold Milvus.insert; rewrite At, I.
  cbn [TourismMultimodalDAO.image_collection]; rewrite Ai.
  eexists; split; [reflexivity|].
  cbn [TourismMultimodalDAO.image_collection
       TourismMultimodalDAO.text_collection].
  assert (R : Milvus.rows
                (Milvus.flush
                   {| Milvus.persisted :=
                        Milvus.persisted (TourismMultimodalDAO.text_collection self);
                      Milvus.pending :=
                        Milvus.pending (TourismMultimodalDAO.text_collection self)
                        ++ Milvus.rows_of (common ++ [dvs]) |}) =
              Milvus.rows (TourismMultimodalDAO.text_collection self) ++
              map (row_for MultimodalSchema.create_text_schema) data).
  { rewrite IngestFacts.flush_rows; f_equal.
    rewrite C in C'; rewrite D in D'.
    injection C' as ->; injection D' as ->.
    exact (text_rows data). }
  split; [reflexivity|]; split; [exact R|]; split.
  - unfold TourismMultimodalDAO.entity_counts, Milvus.num_entities, Milvus.rows.
    cbn [fst Milvus.flush Milvus.persisted Milvus.pending
         TourismMultimodalDAO.text_collection].
    now rewrite app_nil_r.
  - intros Hd A1 A2; unfold agree, display in *.
    cbn [TourismMultimodalDAO.image_collection
         TourismMultimodalDAO.text_collection] in A2.
    rewrite R in A2.
    apply (f_equal (@length _)) in A1, A2.
    rewrite !length_map, ?length_app, ?length_map in A1, A2.
    rewrite length_app, length_map in A2.
    unfold Milvus.row in *.
    destruct data; [congruence | cbn [length] in A2; lia].
Qed.

Lemma multimodal_partial_write_witness :
  exists self1,
    TourismMultimodalDAO.insert_data text_only_server Samples.sample_dao [beach] =
      (Raise MilvusException, self1) /\
    TourismMultimodalDAO.image_collection self1 =
      TourismMultimodalDAO.image_collection Samples.sample_dao /\
    Milvus.rows (TourismMultimodalDAO.text_collection self1) =
      Milvus.rows (TourismMultimodalDAO.text_collection Samples.sample_dao) ++
      map (row_for MultimodalSchema.create_text_schema) [beach] /\
    fst (TourismMultimodalDAO.entity_counts self1) =
      length (Milvus.rows (TourismMultimodalDAO.text_collection self1)) /\
    ([beach] <> [] -> agree Samples.sample_dao -> ~ agree self1).
Proof.
  apply (@multimodal_partial_write text_only_server Samples.sample_dao [beach]
           (map (fun f => map (fun item => get_default item f VNone) [beach])
                ["id"; "location"; "type"; "description"; "image_url"; "price"])
           (map (fun item => get_default item "description_vector" VNone) [beach])
           (map (fun item => get_default item "image_vector" VNone) [beach]));
    vm_compute; reflexivity.
Defined.

End RowFacts.

(** ** Search results *)

Lemma mapM_raise {A B : Type} (f : A -> result B) (e : exn) (xs : list A) :
  (forall x e', f x = Raise e' -> e' = e) ->
  Exists (fun x => f x = Raise e) xs -> mapM f xs = Raise e.
Proof.
  intros U; induction 1 as [x xs Hx|x xs H IH]; simpl.
  - now rewrite Hx.
  - destruct (f x) as [y|e'] eqn:E; simpl.
    + now rewrite IH.
    + now rewrite (U x e' E).
Qed.

Lemma py_div_cases (d : Q) :
  (d == - (1) -> py_div 1 (1 + d) = Raise ZeroDivisionError) /\
  (~ d == - (1) -> py_div 1 (1 + d) = Ok (1 / (1 + d))).
Proof.
  unfold py_div; destruct (Qeq_bool (1 + d) 0) eqn:E.
  - apply Qeq_bool_eq in E; split; [reflexivity|].
    intros H; exfalso; apply H; lra.
  - apply Qeq_bool_neq in E; split; [|reflexivity].
    intros H; exfalso; apply E; lra.
Qed.

Lemma py_div_raise (d : Q) (e : exn) :
  py_div 1 (1 + d) = Raise e -> e = ZeroDivisionError.
Proof.
  unfold py_div; destruct (Qeq_bool (1 + d) 0); congruence.
Qed.

Lemma score_weakly_decreasing (d d' : Q) :
  0 <= d -> d <= d' -> 1 / (1 + d') <= 1 / (1 + d).
Proof.
  intros H H'; apply Qle_shift_div_l; [lra|].
  assert (1 / (1 + d') * (1 + d) == (1 + d) / (1 + d')) as ->
    by (field; lra).
  apply Qle_shift_div_r; lra.
Qed.

Lemma Forall2_sorted_transfer {A B : Type} (RA : A -> A -> Prop)
    (RB : B -> B -> Prop) (P : A -> B -> Prop) (l : list A) (l' : list B) :
  (forall a a' b b', RA a a' -> P a b -> P a' b' -> RB b b') ->
  Forall2 P l l' -> StronglySorted RA l -> StronglySorted RB l'.
Proof.
  intros T F; induction F as [|a b l l' Hab F IH]; intros S; [constructor|].
  inversion S as [|? ? S' Ha]; subst; constructor; [now apply IH|].
  clear IH S S'; induction F as [|a' b' l l' Hab' F IH]; constructor.
  - inversion Ha; subst; eapply T; eassumption.
  - inversion Ha; subst; now apply IH.
Qed.

Module SearchFacts.
Import TourismMultimodalDAO HybridSpec.

Lemma format_hit_ok (h : Hit) :
  ~ hit_distance h == - (1) ->
  exists r, format_hit h = Ok r /\ id r = hit_id h /\
            distance r = hit_distance h /\
            score r = 1 / (1 + hit_distance h).
Proof.
  intros H; unfold format_hit.
  rewrite (proj2 (py_div_cases (hit_distance h)) H); simpl.
  eexists; repeat split.
Qed.

Lemma format_hit_raise (h : Hit) (e : exn) :
  format_hit h = Raise e -> e = ZeroDivisionError.
Proof.
  unfold format_hit.
  destruct (py_div 1 (1 + hit_distance h)) eqn:E; simpl; [discriminate|].
  intros [= <-]; now apply py_div_raise in E.
Qed.

Lemma format_hit_zero (h : Hit) :
  hit_distance h == - (1) -> format_hit h = Raise ZeroDivisionError.
Proof.
  intros H; unfold format_hit.
  now rewrite (proj1 (py_div_cases (hit_distance h)) H).
Qed.

(** X10.  [_format_results] gives one result per hit, in the order of the
    hits and with their ids and distances, unless some hit has distance
    -1: then [1 + distance] is zero and it raises [ZeroDivisionError].
    [hybrid_search] raises it as soon as the description search returns
    such a hit. *)
Theorem format_results_division (results : list (list Hit)) :
  (Forall (fun h => ~ hit_distance h == - (1)) (concat results) ->
   exists out,
     format_results results = Ok out /\
     map id out = map hit_id (concat results) /\
     map distance out = map hit_distance (concat results)) /\
  (Exists (fun h => hit_distance h == - (1)) (concat results) ->
   format_results results = Raise ZeroDivisionError /\
   forall search self tv iv tw iw k f,
     search (text_collection self) "description_vector" "COSINE" tv
            (k * 2)%Z f = Ok results ->
     hybrid_search search self tv iv tw iw k f = Raise ZeroDivisionError).
Proof.
  split.
  - intros H.
    destruct (mapM_Forall2 format_hit
                (fun h r => id r = hit_id h /\ distance r = hit_distance h)
                (xs := concat results)) as [out [Ho F]].
    { eapply Forall_impl; [|exact H]; intros h Hh.
      destruct (format_hit_ok h Hh) as [r [Hr [Hi [Hd _]]]].
      exists r; repeat split; assumption. }
    exists out; split; [exact Ho|].
    clear Ho H; induction F as [|h r hs rs [Hi Hd] F [IH1 IH2]]; simpl;
      [split; reflexivity|].
    now rewrite Hi, Hd, IH1, IH2.
  - intros H.
    assert (R : format_results results = Raise ZeroDivisionError).
    { apply mapM_raise; [apply format_hit_raise|].
      apply Exists_exists in H; destruct H as [h [Hh Hd]].
      apply Exists_exists; exists h; split; [exact Hh|].
      now apply format_hit_zero. }
    split; [exact R|].
    intros search self tv iv tw iw k f Hs.
    unfold hybrid_search, search_by_description; rewrite Hs; simpl.
    now rewrite R.
Qed.

Lemma format_results_division_witness :
  (exists out,
     format_results [[Samples.sample_hit 1 0; Samples.sample_hit 2 (1 # 4)]] =
       Ok out /\
     map id out = [1; 2]%Z /\
     map distance out = [0; 1 # 4]) /\
  format_results [[Samples.sample_hit 1 0; Samples.sample_hit 2 (- (1))]] =
    Raise ZeroDivisionError.
Proof.
  split.
  - apply (proj1 (format_results_division
                    [[Samples.sample_hit 1 0; Samples.sample_hit 2 (1 # 4)]])).
    repeat constructor; simpl; intros H; discriminate.
  - apply (proj2 (format_results_division
                    [[Samples.sample_hit 1 0; Samples.sample_hit 2 (- (1))]])).
    apply Exists_cons_tl, Exists_cons_hd; reflexivity.
Defined.

(** X11.  [_format_results] keeps the ranking: hits that come in order of
    non-decreasing distance, none negative, give results in order of
    non-increasing score. *)
Theorem format_results_ranking (results : list (list Hit))
    (out : list SearchResult) :
  Forall (fun h => 0 <= hit_distance h) (concat results) ->
  StronglySorted (fun h h' => hit_distance h <= hit_distance h')
                 (concat results) ->
  format_results results = Ok out ->
  StronglySorted (fun r r' => score r' <= score r) out.
Proof.
  intros P S H.
  destruct (mapM_Forall2 format_hit
              (fun h r => 0 <= hit_distance h /\
                          score r = 1 / (1 + hit_distance h))
              (xs := concat results)) as [out' [Ho F]].
  { eapply Forall_impl; [|exact P]; intros h Hh.
    cbv beta in Hh.
    destruct (format_hit_ok h) as [r [Hr [_ [_ Hs]]]]; [intros E; lra|].
    exists r; repeat split; assumption. }
  unfold format_results in H; rewrite Ho in H; injection H as <-.
  eapply Forall2_sorted_transfer; [|exact F|exact S].
  intros a a' b b' Haa [Ha Hb] [Ha' Hb']; simpl in *.
  rewrite Hb, Hb'; now apply score_weakly_decreasing.
Qed.

Lemma format_results_ranking_witness :
  StronglySorted (fun r r' => score r' <= score r)
    [Samples.sample 1 1; Samples.sample 2 (4 # 5)].
Proof.
  apply (@format_results_ranking
           [[Samples.sample_hit 1 0; Samples.sample_hit 2 (1 # 4)]]).
  - repeat constructor; simpl; lra.
  - repeat constructor; simpl; lra.
  - reflexivity.
Defined.

End SearchFacts.

(** ** More on the fused list *)

Lemma NoDup_firstn {A : Type} (n : nat) (l : list A) :
  NoDup l -> NoDup (firstn n l).
Proof.
  intros H; rewrite <- (firstn_skipn n l) in H.
  exact (NoDup_app_remove_r _ _ H).
Qed.

Module FusionFacts.
Import TourismMultimodalDAO HybridSpec HybridFacts ExtraSpec Samples.

(** X12.  No id occurs twice in the list [hybrid_search] returns, whatever
    the two result lists hold, and every id in it is one of theirs. *)
Theorem fused_ids_distinct (text image : list SearchResult) (tw iw : Q) (k : Z) :
  NoDup (fused_ids (fuse text image tw iw k)) /\
  forall i, In i (fused_ids (fuse text image tw iw k)) ->
            In i (ids_of text ++ ids_of image).
Proof.
  assert (P : Permutation (fused_ids (ranked text image tw iw))
                          (dict_keys (merge text image tw iw))).
  { rewrite <- merge_values_ids; unfold fused_ids, ranked.
    apply Permutation_map, py_sorted_reverse_perm. }
  unfold fuse.
  destruct (py_slice_to_prefix k (ranked text image tw iw)) as [n ->].
  unfold fused_ids at 1 2; rewrite <- firstn_map.
  fold (fused_ids (ranked text image tw iw)); split.
  - apply NoDup_firstn.
    apply (Permutation_NoDup (Permutation_sym P)), merge_keys_NoDup.
  - intros i Hi; apply merge_keys_In with (tw := tw) (iw := iw).
    apply (Permutation_in _ P).
    rewrite <- (firstn_skipn n (fused_ids _)); apply in_or_app; now left.
Qed.

(** *** Where a fused entry comes from *)

Lemma occurrences_In (i : Z) (l : list SearchResult) (r : SearchResult) :
  In r (occurrences i l) -> In r l /\ id r = i.
Proof.
  intros H; split; [|now apply occurrences_id in H].
  unfold occurrences in H; now apply filter_In in H.
Qed.

Lemma occurrences_nil (i : Z) (l : list SearchResult) :
  occurrences i l = [] -> ~ In i (ids_of l).
Proof.
  unfold occurrences, ids_of; intros H Hin.
  apply in_map_iff in Hin; destruct Hin as [r [Hr Hin]].
  assert (In r (filter (fun r => Z.eqb i (id r)) l))
    by (apply filter_In; split; [exact Hin | now apply Z.eqb_eq]).
  rewrite H in *; contradiction.
Qed.

Lemma text_fold_some (tw : Q) (occ : list SearchResult)
    (start : option Merged) (t : Merged) :
  fold_left (fun _ r => Some (text_entry tw r)) occ start = Some t ->
  (occ = [] /\ start = Some t) \/
  (exists r, In r occ /\ t = text_entry tw r).
Proof.
  revert start; induction occ as [|r occ IH]; intros start; simpl.
  - now left.
  - intros H; right; destruct (IH _ H) as [[-> E]|[r' [Hr' E]]].
    + exists r; split; [now left | congruence].
    + exists r'; split; [now right | exact E].
Qed.

Lemma text_pass_cases (tw : Q) (occ : list SearchResult) :
  (occ = [] /\ text_pass tw occ = None) \/
  (exists r, In r occ /\ text_pass tw occ = Some (text_entry tw r)).
Proof.
  unfold text_pass; destruct occ as [|r occ]; [now left|right].
  simpl; destruct (fold_left _ occ (Some (text_entry tw r))) as [t|] eqn:E.
  - destruct (text_fold_some _ _ _ E) as [[-> [= <-]]|[r' [Hr' ->]]].
    + exists r; split; [now left | reflexivity].
    + exists r'; split; [now right | reflexivity].
  - exfalso; revert E; generalize (text_entry tw r).
    induction occ as [|x occ IH]; simpl; [discriminate | intros m; apply IH].
Qed.

Lemma image_pass_from (iw : Q) (occ : list SearchResult) (t e : Merged) :
  image_pass iw (Some t) occ = Some e ->
  base e = base t /\ text_score e = text_score t /\
  ((occ = [] /\ e = t) \/ exists r, In r occ /\ image_score e = score r).
Proof.
  unfold image_pass; revert t; induction occ as [|r occ IH]; intros t; simpl.
  - intros [= <-]; repeat split; now left.
  - intros H; destruct (IH _ H) as [Hb [Ht [[-> ->]|[r' [Hr' Hs]]]]]; simpl in *.
    + repeat split; right; exists r; split; [now left | reflexivity].
    + repeat split; try assumption.
      right; exists r'; split; [now right | exact Hs].
Qed.

Lemma image_pass_fresh (iw : Q) (occ : list SearchResult) (e : Merged) :
  image_pass iw None occ = Some e ->
  In (base e) occ /\ text_score e = 0 /\
  exists r, In r occ /\ image_score e = score r.
Proof.
  destruct occ as [|r occ]; [discriminate|].
  unfold image_pass; simpl; intros H.
  destruct (image_pass_from _ _ _ H) as [Hb [Ht [[-> ->]|[r' [Hr' Hs]]]]];
    simpl in *.
  - repeat split; [now left|]; exists r; split; [now left | reflexivity].
  - rewrite Hb; repeat split; [now left | exact Ht|].
    exists r'; split; [now right | exact Hs].
Qed.

(** X13.  Every entry of the returned list carries the attributes of one
    input result with its id.  When the text search found the id, they are
    those of a text result, whose score is the text score, whatever the
    image result holds; otherwise they are those of an image result and
    the text score is 0.  The image score is 0 or the score of an image
    result with that id. *)
Theorem fused_provenance (text image : list SearchResult) (tw iw : Q) (k : Z)
    (e : Merged) :
  In e (fuse text image tw iw k) ->
  ((In (base e) text /\ text_score e = score (base e)) \/
   (~ In (id (base e)) (ids_of text) /\ In (base e) image /\
    text_score e = 0)) /\
  ((image_score e = 0 /\ ~ In (id (base e)) (ids_of image)) \/
   (exists r, In r image /\ id r = id (base e) /\ image_score e = score r)).
Proof.
  intros H; apply fuse_entry in H; rewrite merge_get in H.
  destruct (text_pass_cases tw (occurrences (id (base e)) text))
    as [[Ot Tt]|[rt [Hrt Tt]]]; rewrite Tt in H.
  - apply image_pass_fresh in H; destruct H as [Hb [Ht [r [Hr Hs]]]].
    split.
    + right; split; [now apply occurrences_nil|].
      split; [now apply occurrences_In in Hb | exact Ht].
    + right; exists r; apply occurrences_In in Hr.
      repeat split; tauto.
  - apply image_pass_from in H.
    destruct H as [Hb [Ht Hi]]; simpl in Hb, Ht; split.
    + left; rewrite Hb, Ht; split; [now apply occurrences_In in Hrt | reflexivity].
    + destruct Hi as [[Oi ->]|[r [Hr Hs]]].
      * left; split; [reflexivity | now apply occurrences_nil].
      * right; exists r; apply occurrences_In in Hr; repeat split; tauto.
Qed.

Lemma fused_provenance_witness :
  ((In (base (add_image (3 # 10) (text_entry (7 # 10) (sample 2 (4 # 10)))
                        (sample 2 (8 # 10)))) sample_text /\
    4 # 10 = 4 # 10) \/
   (~ In 2%Z (ids_of sample_text) /\
    In (sample 2 (4 # 10)) sample_image /\ 4 # 10 = 0)) /\
  ((8 # 10 = 0 /\ ~ In 2%Z (ids_of sample_image)) \/
   (exists r, In r sample_image /\ id r = 2%Z /\ 8 # 10 = score r)).
Proof.
  apply (@fused_provenance sample_text sample_image (7 # 10) (3 # 10) 3
           (add_image (3 # 10) (text_entry (7 # 10) (sample 2 (4 # 10)))
                      (sample 2 (8 # 10)))).
  vm_compute; tauto.
Defined.

(** *** Bounds on the combined score *)

Lemma weighted_bounds (s w : Q) :
  0 <= s -> s <= 1 -> 0 <= w -> 0 <= s * w /\ s * w <= w.
Proof.
  intros H0 H1 Hw; split; [now apply Qmult_le_0_compat|].
  rewrite <- (Qmult_1_l w) at 2; now apply Qmult_le_compat_r.
Qed.

Lemma occurrences_at_most_one (i : Z) (l : list SearchResult) :
  NoDup (ids_of l) ->
  occurrences i l = [] \/ exists r, In r l /\ occurrences i l = [r].
Proof.
  intros H; destruct (in_dec Z.eq_dec i (ids_of l)) as [Hin|Hout].
  - right; apply in_map_iff in Hin; destruct Hin as [r [<- Hr]].
    exists r; split; [exact Hr | now apply occurrences_unique].
  - left; now apply occurrences_absent.
Qed.

Lemma unit_scores_In (l : list SearchResult) (r : SearchResult) :
  unit_scores l -> In r l -> 0 <= score r /\ score r <= 1.
Proof.
  unfold unit_scores; rewrite Forall_forall; intros H Hr; exact (H r Hr).
Qed.

(** X14.  With weights that are not negative, scores in [0, 1] and no id
    twice in the image results, every combined score of the returned list
    lies between 0 and [text_weight + image_weight]. *)
Theorem combined_score_bounds (text image : list SearchResult) (tw iw : Q)
    (k : Z) (e : Merged) :
  0 <= tw -> 0 <= iw -> unit_scores text -> unit_scores image ->
  NoDup (ids_of image) ->
  In e (fuse text image tw iw k) ->
  0 <= combined_score e /\ combined_score e <= tw + iw.
Proof.
  intros Htw Hiw Ut Ui Nd H; apply fuse_entry in H; rewrite merge_get in H.
  destruct (occurrences_at_most_one (id (base e)) image Nd)
    as [Oi|[ri [Hri Oi]]]; rewrite Oi in H;
    destruct (text_pass_cases tw (occurrences (id (base e)) text))
      as [[Ot Tt]|[rt [Hrt Tt]]]; rewrite Tt in H;
    try discriminate; cbn in H; injection H as <-; cbn.
  - apply occurrences_In in Hrt; destruct Hrt as [Hrt _].
    destruct (@unit_scores_In text rt Ut Hrt) as [A B].
    destruct (@weighted_bounds _ _ A B Htw); split; lra.
  - destruct (@unit_scores_In image ri Ui Hri) as [A B].
    destruct (@weighted_bounds _ _ A B Hiw); split; lra.
  - apply occurrences_In in Hrt; destruct Hrt as [Hrt _].
    destruct (@unit_scores_In text rt Ut Hrt) as [A B].
    destruct (@unit_scores_In image ri Ui Hri) as [A' B'].
    destruct (@weighted_bounds _ _ A B Htw), (@weighted_bounds _ _ A' B' Hiw).
    split; lra.
Qed.

Lemma combined_score_bounds_witness :
  0 <= combined_score
         (add_image (3 # 10) (text_entry (7 # 10) (sample 2 (4 # 10)))
                    (sample 2 (8 # 10))) /\
  combined_score
    (add_image (3 # 10) (text_entry (7 # 10) (sample 2 (4 # 10)))
               (sample 2 (8 # 10))) <= (7 # 10) + (3 # 10).
Proof.
  apply (@combined_score_bounds sample_text sample_image (7 # 10) (3 # 10) 3).
  - discriminate.
  - discriminate.
  - repeat constructor; simpl; discriminate.
  - repeat constructor; simpl; discriminate.
  - distinct_ids_tac.
  - vm_compute; tauto.
Defined.

End FusionFacts.

(** ** Which error the validation pass raises *)

Lemma first_missing_raise (required : list string) (item : Item) (f : string) :
  ExtraSpec.first_missing required item = Some f ->
  forM_ (fun field =>
           py_assert (has_field field item)
                     ("Missing '" ++ field ++ "'")%string) required =
    Raise (AssertionError ("Missing '" ++ f ++ "'")%string).
Proof.
  unfold ExtraSpec.first_missing.
  induction required as [|field required IH]; simpl; [discriminate|].
  destruct (has_field field item); simpl.
  - exact IH.
  - now intros [= <-].
Qed.

Lemma first_missing_none (required : list string) (item : Item) :
  ExtraSpec.first_missing required item = None ->
  forM_ (fun field =>
           py_assert (has_field field item)
                     ("Missing '" ++ field ++ "'")%string) required = Ok tt.
Proof.
  unfold ExtraSpec.first_missing.
  induction required as [|field required IH]; simpl; [reflexivity|].
  destruct (has_field field item); simpl; [exact IH | discriminate].
Qed.

(** A loop stops at the first element on which its body raises. *)
Lemma forM_first_raise {A : Type} (body : A -> result unit)
    (good : list A) (bad : A) (rest : list A) (e : exn) :
  Forall (fun x => body x = Ok tt) good ->
  body bad = Raise e ->
  forM_ body (good ++ bad :: rest) = Raise e.
Proof.
  intros G B; induction G as [|x good Hx G IH]; simpl.
  - now rewrite B.
  - now rewrite Hx.
Qed.

(** The length check of a vector field that is present. *)
Lemma length_check (item : Item) (field : string) (v : value) (n : nat)
    (rest : result unit) :
  dict_get String.eqb field item = Some v ->
  (x <- getitem item field ;; m <- py_len x ;;
   py_assert (m =? n)%nat "" ;;; rest) =
  match py_len v with
  | Ok m => if (m =? n)%nat then rest else Raise (AssertionError "")
  | Raise e => Raise e
  end.
Proof.
  intros G; unfold getitem; rewrite G; simpl.
  destruct (py_len v) as [m|e]; simpl; [|reflexivity].
  now destruct (m =? n)%nat.
Qed.

Module ValidationFacts.
Import IngestSpec ExtraSpec.

Lemma baichay_good (good : list Item) :
  forallb well_formed good = true ->
  Forall (fun x => BaiChayTourismDAO.validate_item x = Ok tt) good.
Proof.
  intros F; apply Forall_forall; intros x Hx.
  pose proof (IngestFacts.validate_item_cases x) as C.
  now rewrite (forallb_In _ _ x F Hx) in C.
Qed.

Lemma multimodal_good (good : list Item) :
  forallb well_formed_multimodal good = true ->
  Forall (fun x => TourismMultimodalDAO.validate_item x = Ok tt) good.
Proof.
  intros F; apply Forall_forall; intros x Hx.
  pose proof (IngestFacts.multimodal_validate_item_cases x) as C.
  now rewrite (forallb_In _ _ x F Hx) in C.
Qed.

Lemma baichay_stops
    (accepts : Milvus.Collection -> list (list value) -> bool)
    (self : BaiChayTourismDAO.DAO) (good : list Item) (bad : Item)
    (rest : list Item) (e : exn) :
  forallb well_formed good = true ->
  BaiChayTourismDAO.validate_item bad = Raise e ->
  BaiChayTourismDAO.insert_data accepts self (good ++ bad :: rest) =
    (Raise e, self).
Proof.
  intros G B; unfold BaiChayTourismDAO.insert_data, BaiChayTourismDAO.validate.
  now rewrite (@forM_first_raise _ _ good bad rest e (@baichay_good good G) B).
Qed.

Lemma multimodal_stops
    (accepts : Milvus.Collection -> list (list value) -> bool)
    (self : TourismMultimodalDAO.DAO) (good : list Item) (bad : Item)
    (rest : list Item) (e : exn) :
  forallb well_formed_multimodal good = true ->
  TourismMultimodalDAO.validate_item bad = Raise e ->
  TourismMultimodalDAO.insert_data accepts self (good ++ bad :: rest) =
    (Raise e, self).
Proof.
  intros G B;
    unfold TourismMultimodalDAO.insert_data, TourismMultimodalDAO.validate.
  now rewrite (@forM_first_raise _ _ good bad rest e (@multimodal_good good G) B).
Qed.

(** X16.  The first record of a batch that fails validation decides the
    error of [insert_data], whatever follows it.  If the record lacks a
    required field, the error is an [AssertionError] whose message names
    the first missing field in the order of [required_fields].  If it has
    all of them but [len] of its description vector is not 768, the error
    is an [AssertionError] without message; if the vector has no [len],
    it is the [TypeError] of [len].  The multimodal DAO checks the image
    vector (512) in the same way before the description vector (768): a
    wrong image vector decides the error whatever the description vector
    is, and the description vector is checked once the image vector has
    passed.  In each case the DAO is returned as it was. *)
Theorem validation_error
    (accepts : Milvus.Collection -> list (list value) -> bool)
    (self : BaiChayTourismDAO.DAO) (mself : TourismMultimodalDAO.DAO)
    (good : list Item) (bad : Item) (rest : list Item) :
  (forallb well_formed good = true ->
   (forall f,
      first_missing BaiChayTourismDAO.required_fields bad = Some f ->
      BaiChayTourismDAO.insert_data accepts self (good ++ bad :: rest) =
        (Raise (AssertionError ("Missing '" ++ f ++ "'")%string), self)) /\
   (forall v,
      first_missing BaiChayTourismDAO.required_fields bad = None ->
      dict_get String.eqb "description_vector" bad = Some v ->
      (forall e, py_len v = Raise e ->
         BaiChayTourismDAO.insert_data accepts self (good ++ bad :: rest) =
           (Raise e, self)) /\
      (forall n, py_len v = Ok n ->
         n <> BaiChayTourismDAO.DESCRIPTION_VECTOR_DIM ->
         BaiChayTourismDAO.insert_data accepts self (good ++ bad :: rest) =
           (Raise (AssertionError ""), self)))) /\
  (forallb well_formed_multimodal good = true ->
   (forall f,
      first_missing TourismMultimodalDAO.required_fields bad = Some f ->
      TourismMultimodalDAO.insert_data accepts mself (good ++ bad :: rest) =
        (Raise (AssertionError ("Missing '" ++ f ++ "'")%string), mself)) /\
   (forall v,
      first_missing TourismMultimodalDAO.required_fields bad = None ->
      dict_get String.eqb "image_vector" bad = Some v ->
      (forall e, py_len v = Raise e ->
         TourismMultimodalDAO.insert_data accepts mself (good ++ bad :: rest) =
           (Raise e, mself)) /\
      (forall n, py_len v = Ok n ->
         n <> TourismMultimodalDAO.IMAGE_VECTOR_DIM ->
         TourismMultimodalDAO.insert_data accepts mself (good ++ bad :: rest) =
           (Raise (AssertionError ""), mself))) /\
   (forall iv v,
      first_missing TourismMultimodalDAO.required_fields bad = None ->
      dict_get String.eqb "image_vector" bad = Some iv ->
      py_len iv = Ok TourismMultimodalDAO.IMAGE_VECTOR_DIM ->
      dict_get String.eqb "description_vector" bad = Some v ->
      (forall e, py_len v = Raise e ->
         TourismMultimodalDAO.insert_data accepts mself (good ++ bad :: rest) =
           (Raise e, mself)) /\
      (forall n, py_len v = Ok n ->
         n <> TourismMultimodalDAO.DESCRIPTION_VECTOR_DIM ->
         TourismMultimodalDAO.insert_data accepts mself (good ++ bad :: rest) =
           (Raise (AssertionError ""), mself)))).
Proof.
  split; intros G; [split | split; [|split]].
  - intros f M; apply baichay_stops; [exact G|].
    unfold BaiChayTourismDAO.validate_item.
    now rewrite (@first_missing_raise _ _ _ M).
  - intros v M D.
    assert (BaiChayTourismDAO.validate_item bad =
            match py_len v with
            | Ok m => if (m =? BaiChayTourismDAO.DESCRIPTION_VECTOR_DIM)%nat
                      then Ok tt else Raise (AssertionError "")
            | Raise e => Raise e
            end) as V.
    { unfold BaiChayTourismDAO.validate_item.
      rewrite (@first_missing_none _ _ M); cbn [bind].
      unfold getitem; rewrite D; cbn [bind].
      destruct (py_len v) as [m|e]; cbn [bind]; [|reflexivity].
      unfold py_assert; now destruct (m =? _)%nat. }
    split.
    + intros e L; apply baichay_stops; [exact G|]. now rewrite V, L.
    + intros n L N; apply baichay_stops; [exact G|]. rewrite V, L.
      now rewrite (proj2 (Nat.eqb_neq _ _) N).
  - intros f M; apply multimodal_stops; [exact G|].
    unfold TourismMultimodalDAO.validate_item.
    now rewrite (@first_missing_raise _ _ _ M).
  - intros v M D.
    assert (forall e,
              match py_len v with
              | Ok m => if (m =? TourismMultimodalDAO.IMAGE_VECTOR_DIM)%nat
                        then Ok tt else Raise (AssertionError "")
              | Raise e' => Raise e'
              end = Raise e ->
              TourismMultimodalDAO.validate_item bad = Raise e) as V.
    { intros e H; unfold TourismMultimodalDAO.validate_item.
      rewrite (@first_missing_none _ _ M); cbn [bind].
      rewrite (@length_check bad _ v TourismMultimodalDAO.IMAGE_VECTOR_DIM _ D).
      destruct (py_len v) as [m|e']; [|exact H].
      destruct (m =? _)%nat; [discriminate | exact H]. }
    split.
    + intros e L; apply multimodal_stops; [exact G|]. apply V; now rewrite L.
    + intros n L N; apply multimodal_stops; [exact G|]. apply V; rewrite L.
      now rewrite (proj2 (Nat.eqb_neq _ _) N).
  - intros iv v M Di Li Dv.
    assert (TourismMultimodalDAO.validate_item bad =
            match py_len v with
            | Ok m =>
                if (m =? TourismMultimodalDAO.DESCRIPTION_VECTOR_DIM)%nat
                then Ok tt else Raise (AssertionError "")
            | Raise e => Raise e
            end) as V.
    { unfold TourismMultimodalDAO.validate_item.
      rewrite (@first_missing_none _ _ M); cbn [bind].
      rewrite (@length_check bad _ iv TourismMultimodalDAO.IMAGE_VECTOR_DIM
                 _ Di), Li, Nat.eqb_refl.
      unfold getitem; rewrite Dv; cbn [bind].
      destruct (py_len v) as [m|e]; cbn [bind]; [|reflexivity].
      unfold py_assert; now destruct (m =? _)%nat. }
    split.
    + intros e L; apply multimodal_stops; [exact G|]. now rewrite V, L.
    + intros n L N; apply multimodal_stops; [exact G|]. rewrite V, L.
      now rewrite (proj2 (Nat.eqb_neq _ _) N).
Qed.

Lemma validation_error_witness :
  BaiChayTourismDAO.insert_data accept_all empty_dao
    ([odd_prices] ++ no_vector :: [odd_prices]) =
    (Raise (AssertionError "Missing 'description_vector'"), empty_dao) /\
  BaiChayTourismDAO.insert_data accept_all empty_dao
    ([odd_prices] ++
     dict_set String.eqb "description_vector" (VVec [1; 2]) odd_prices ::
     [no_vector]) =
    (Raise (AssertionError ""), empty_dao) /\
  BaiChayTourismDAO.insert_data accept_all empty_dao
    ([] ++ dict_set String.eqb "description_vector" (VInt 7) odd_prices ::
     [no_vector]) =
    (Raise TypeError, empty_dao) /\
  TourismMultimodalDAO.insert_data accept_all Samples.sample_dao
    ([beach] ++ no_vector :: [short_vector]) =
    (Raise (AssertionError "Missing 'location'"), Samples.sample_dao) /\
  TourismMultimodalDAO.insert_data accept_all Samples.sample_dao
    ([beach] ++ short_vector :: [no_vector]) =
    (Raise (AssertionError ""), Samples.sample_dao) /\
  TourismMultimodalDAO.insert_data accept_all Samples.sample_dao
    ([beach] ++
     dict_set String.eqb "description_vector" (VVec [1; 2]) beach ::
     [no_vector]) =
    (Raise (AssertionError ""), Samples.sample_dao) /\
  TourismMultimodalDAO.insert_data accept_all Samples.sample_dao
    ([beach] ++
     dict_set String.eqb "description_vector" VNone beach :: [no_vector]) =
    (Raise TypeError, Samples.sample_dao).
Proof.
  split; [|split; [|split; [|split; [|split; [|split]]]]].
  - exact (proj1 (proj1 (validation_error accept_all empty_dao
                           Samples.sample_dao [odd_prices] no_vector
                           [odd_prices]) ltac:(reflexivity))
             "description_vector" ltac:(reflexivity)).
  - refine (proj2 (proj2 (proj1 (validation_error accept_all empty_dao
                            Samples.sample_dao [odd_prices]
                            (dict_set String.eqb "description_vector"
                               (VVec [1; 2]) odd_prices) [no_vector])
                            ltac:(reflexivity))
                     (VVec [1; 2]) ltac:(reflexivity) ltac:(reflexivity))
              2%nat ltac:(reflexivity) _).
    vm_compute; lia.
  - refine (proj1 (proj2 (proj1 (validation_error accept_all empty_dao
                            Samples.sample_dao []
                            (dict_set String.eqb "description_vector"
                               (VInt 7) odd_prices) [no_vector])
                            ltac:(reflexivity))
                     (VInt 7) ltac:(reflexivity) ltac:(reflexivity))
              TypeError ltac:(reflexivity)).
  - exact (proj1 (proj2 (validation_error accept_all empty_dao
                           Samples.sample_dao [beach] no_vector
                           [short_vector]) ltac:(reflexivity))
             "location" ltac:(reflexivity)).
  - refine (proj2 (proj1 (proj2 (proj2 (validation_error accept_all empty_dao
                            Samples.sample_dao [beach] short_vector
                            [no_vector]) ltac:(reflexivity)))
                     (VVec [0; 0; 0]) ltac:(reflexivity) ltac:(reflexivity))
              3%nat ltac:(reflexivity) _).
    vm_compute; lia.
  - refine (proj2 (proj2 (proj2 (proj2 (validation_error accept_all empty_dao
                            Samples.sample_dao [beach]
                            (dict_set String.eqb "description_vector"
                               (VVec [1; 2]) beach) [no_vector])
                            ltac:(reflexivity)))
                     (VVec (repeat 0 512)) (VVec [1; 2])
                     ltac:(reflexivity) ltac:(reflexivity)
                     ltac:(reflexivity) ltac:(reflexivity))
              2%nat ltac:(reflexivity) _).
    vm_compute; lia.
  - refine (proj1 (proj2 (proj2 (proj2 (validation_error accept_all empty_dao
                            Samples.sample_dao [beach]
                            (dict_set String.eqb "description_vector"
                               VNone beach) [no_vector])
                            ltac:(reflexivity)))
                     (VVec (repeat 0 512)) VNone
                     ltac:(reflexivity) ltac:(reflexivity)
                     ltac:(reflexivity) ltac:(reflexivity))
              TypeError ltac:(reflexivity)).
Defined.

End ValidationFacts.

(** ** Opening and dropping collections *)

Section PyDictMore.
Context {K V : Type}.
Variable eqb : K -> K -> bool.
Hypothesis eqb_eq : forall a b, eqb a b = true <-> a = b.

Lemma dict_set_set (k : K) (v v' : V) (d : dict) :
  dict_set eqb k v (dict_set eqb k v' d) = dict_set eqb k v d.
Proof.
  induction d as [|[k0 v0] d IH]; simpl.
  - now rewrite (proj2 (eqb_eq k k) eq_refl).
  - destruct (eqb k k0) eqn:E; simpl; rewrite E; [reflexivity|].
    now rewrite IH.
Qed.

Lemma dict_set_same (k : K) (v : V) (d : dict) :
  dict_get eqb k d = Some v -> dict_set eqb k v d = d.
Proof.
  induction d as [|[k0 v0] d IH]; simpl; [discriminate|].
  destruct (eqb k k0); [now intros [= ->] | intros H; now rewrite IH].
Qed.

Lemma dict_get_remove (k k0 : K) (d : @dict K V) :
  dict_get eqb k (filter (fun kv => negb (eqb (fst kv) k0)) d) =
  if eqb k k0 then None else dict_get eqb k d.
Proof.
  induction d as [|[k1 v1] d IH]; simpl.
  - now destruct (eqb k k0).
  - destruct (eqb k1 k0) eqn:E1; simpl.
    + rewrite IH. destruct (eqb k k0) eqn:E; [reflexivity|].
      destruct (eqb k k1) eqn:E2; [|reflexivity].
      apply eqb_eq in E1, E2; subst.
      rewrite (proj2 (eqb_eq k0 k0) eq_refl) in E; discriminate.
    + destruct (eqb k k1) eqn:E2.
      * destruct (eqb k k0) eqn:E; [|reflexivity].
        apply eqb_eq in E, E2; subst.
        rewrite (proj2 (eqb_eq k1 k1) eq_refl) in E1; discriminate.
      * exact IH.
Qed.

Lemma filter_absent (k0 : K) (d : @dict K V) :
  dict_get eqb k0 d = None ->
  filter (fun kv => negb (eqb (fst kv) k0)) d = d.
Proof.
  induction d as [|[k1 v1] d IH]; simpl; [reflexivity|].
  destruct (eqb k0 k1) eqn:E; [discriminate|]; intros H.
  destruct (eqb k1 k0) eqn:E1; simpl.
  - apply eqb_eq in E1; subst.
    rewrite (proj2 (eqb_eq k0 k0) eq_refl) in E; discriminate.
  - now rewrite IH.
Qed.
End PyDictMore.

Lemma in_names_In (n : string) (l : list string) :
  Registry.in_names n l = true <-> In n l.
Proof.
  unfold Registry.in_names; rewrite existsb_exists; split.
  - intros [x [Hx E]]; apply String.eqb_eq in E; now subst.
  - intros H; exists n; split; [exact H | apply String.eqb_refl].
Qed.

Module SetupFacts.
Import Registry SetupSpec.

Lemma name_eqb_eq (a b : string * string) : name_eqb a b = true <-> a = b.
Proof.
  destruct a as [a1 a2], b as [b1 b2]; unfold name_eqb; simpl.
  rewrite andb_true_iff, !String.eqb_eq; split.
  - now intros [-> ->].
  - now intros [= -> ->].
Qed.

Lemma name_eqb_refl (a : string * string) : name_eqb a a = true.
Proof. now apply name_eqb_eq. Qed.

Lemma name_eqb_neq (a b : string * string) : a <> b -> name_eqb a b = false.
Proof.
  intros N; destruct (name_eqb a b) eqn:E; [|reflexivity].
  now apply name_eqb_eq in E.
Qed.

Lemma lookup_stored (n : string) (s : Server) :
  lookup n s = stored_in (in_use s) n s.
Proof. reflexivity. Qed.

Lemma stored_in_store (d m n : string) (c : Stored) (s : Server) :
  stored_in d m (store n c s) =
  if name_eqb (d, m) (in_use s, n) then Some c else stored_in d m s.
Proof. unfold stored_in, store; simpl. apply (dict_get_set _ name_eqb_eq). Qed.

Lemma lookup_store (n : string) (c : Stored) (s : Server) :
  lookup n (store n c s) = Some c.
Proof.
  rewrite lookup_stored, stored_in_store; simpl.
  now rewrite name_eqb_refl.
Qed.

Lemma store_store (n : string) (c c' : Stored) (s : Server) :
  store n c (store n c' s) = store n c s.
Proof.
  unfold store; simpl; f_equal. apply (dict_set_set _ name_eqb_eq).
Qed.

Lemma store_same (n : string) (c : Stored) (s : Server) :
  lookup n s = Some c -> store n c s = s.
Proof.
  intros H; unfold store; rewrite (dict_set_same _ _ _ H).
  now destruct s.
Qed.

Lemma stored_in_without (d m n : string) (s : Server) :
  stored_in d m (without n s) =
  if name_eqb (d, m) (in_use s, n) then None else stored_in d m s.
Proof.
  unfold stored_in, without; simpl. apply (dict_get_remove _ name_eqb_eq).
Qed.

Lemma without_absent (n : string) (s : Server) :
  lookup n s = None -> without n s = s.
Proof.
  intros H; unfold without.
  rewrite (filter_absent _ name_eqb_eq _ _ H). now destruct s.
Qed.

(** *** The three shapes *)

Lemma switch_to_spec (d : string) (s : Server) :
  switch_to d s = Ok (tt, switched d s).
Proof.
  unfold switch_to, bindS, list_database, switched.
  destruct (in_names d (databases s)) eqn:E.
  - unfold ret, using_database; now rewrite E.
  - unfold create_database; rewrite E.
    unfold using_database; cbn [databases reachable in_use collections].
    assert (in_names d (databases s ++ [d]) = true) as ->; [|reflexivity].
    apply in_names_In, in_or_app; right; now left.
Qed.

Lemma ensure_spec (n : string) (sch : Schema.CollectionSchema)
    (field : string) (params : IndexParams) (s : Server) :
  ensure n sch field params s =
  match prepared sch field params (lookup n s) with
  | Some c => Ok (tt, store n c s)
  | None => Raise MilvusException
  end.
Proof.
  unfold ensure, bindS, has_collection, prepared.
  destruct (lookup n s) as [c|] eqn:L.
  - unfold open_collection, load; cbv beta; rewrite L; cbv beta iota.
    rewrite L.
    destruct (index c) eqn:I; [|reflexivity].
    unfold opened; now rewrite I.
  - unfold new_collection; rewrite L.
    unfold create_index; rewrite lookup_store.
    unfold load; rewrite lookup_store.
    cbn [index schema content loaded].
    now rewrite !store_store.
Qed.

Lemma drop_if_there_spec (n : string) (s : Server) :
  drop_if_there n s = Ok (tt, without n s).
Proof.
  unfold drop_if_there, bindS, has_collection, drop.
  destruct (lookup n s) eqn:L.
  - now rewrite L.
  - unfold ret; now rewrite without_absent.
Qed.

Lemma prepared_again (sch : Schema.CollectionSchema) (field : string)
    (params : IndexParams) (found : option Stored) (c : Stored) :
  prepared sch field params found = Some c ->
  prepared sch field params (Some c) = Some c.
Proof.
  unfold prepared; destruct found as [c0|].
  - destruct (index c0) eqn:I; [|discriminate].
    intros [= <-]; simpl; now rewrite I.
  - now intros [= <-].
Qed.

Lemma switched_lists (d : string) (s : Server) :
  In d (databases (switched d s)) /\
  incl (databases s) (databases (switched d s)).
Proof.
  unfold switched; simpl.
  destruct (in_names d (databases s)) eqn:E.
  - split; [now apply in_names_In | apply incl_refl].
  - split; [apply in_or_app; right; now left | now apply incl_appl, incl_refl].
Qed.

Lemma switched_fixed (d : string) (s : Server) :
  reachable s = true -> in_use s = d -> In d (databases s) ->
  switched d (connected s) = s.
Proof.
  intros R U D; unfold switched, connected; simpl.
  rewrite (proj2 (in_names_In d (databases s)) D).
  destruct s; simpl in *; now subst.
Qed.

(** *** [BaiChayTourismDAO] *)

Lemma baichay_init_cases (s : Server) :
  BaiChaySetup.init s =
  if reachable s
  then match prepared BaiChaySchema.create_schema "description_vector"
               (cosine 256)
               (stored_in BaiChaySetup.DATABASE_NAME
                          BaiChaySetup.COLLECTION_NAME s) with
       | Some c =>
           Ok ({| BaiChayTourismDAO.collection := content c |},
               store BaiChaySetup.COLLECTION_NAME c
                     (switched BaiChaySetup.DATABASE_NAME (connected s)))
       | None => Raise MilvusException
       end
  else Raise MilvusException.
Proof.
  unfold BaiChaySetup.init, BaiChaySetup.connect, Registry.connect.
  unfold bindS at 1.
  destruct (reachable s); [|reflexivity].
  fold (connected s).
  unfold bindS at 1.
  change BaiChaySetup.switch_database
    with (switch_to BaiChaySetup.DATABASE_NAME).
  rewrite switch_to_spec.
  unfold bindS at 1.
  change BaiChaySetup.get_or_create_collection
    with (ensure BaiChaySetup.COLLECTION_NAME BaiChaySchema.create_schema
                 "description_vector" (cosine 256)).
  rewrite ensure_spec.
  change (lookup BaiChaySetup.COLLECTION_NAME
            (switched BaiChaySetup.DATABASE_NAME (connected s)))
    with (stored_in BaiChaySetup.DATABASE_NAME
                    BaiChaySetup.COLLECTION_NAME s).
  destruct (prepared _ _ _ _) as [c|]; [|reflexivity].
  now rewrite lookup_store.
Qed.

Lemma baichay_drop_spec (s : Server) :
  BaiChaySetup.drop_collection s =
  Ok (tt, without BaiChaySetup.COLLECTION_NAME s).
Proof.
  change BaiChaySetup.drop_collection
    with (drop_if_there BaiChaySetup.COLLECTION_NAME).
  apply drop_if_there_spec.
Qed.

(** X17.  On a server that can be reached, [__init__] does not raise,
    provided that the collection, if it is already there, has an index.
    Afterwards the database of the DAO exists and is in use, no database
    has gone, and the collection exists and is loaded.  A collection that
    was there keeps its schema, its index and its rows, which are the
    rows the DAO works on; otherwise the collection is new and empty,
    with the schema of [_create_schema] and a COSINE index on the
    description vector.  Every other collection is as before. *)
Theorem baichay_open (s : Server) :
  reachable s = true ->
  (forall c0,
     stored_in BaiChaySetup.DATABASE_NAME BaiChaySetup.COLLECTION_NAME s =
       Some c0 -> index c0 <> None) ->
  exists dao s' c,
    BaiChaySetup.init s = Ok (dao, s') /\
    in_use s' = BaiChaySetup.DATABASE_NAME /\
    In BaiChaySetup.DATABASE_NAME (databases s') /\
    incl (databases s) (databases s') /\
    lookup BaiChaySetup.COLLECTION_NAME s' = Some c /\
    loaded c = true /\
    BaiChayTourismDAO.collection dao = content c /\
    match stored_in BaiChaySetup.DATABASE_NAME
                    BaiChaySetup.COLLECTION_NAME s with
    | Some c0 =>
        schema c = schema c0 /\ index c = index c0 /\ content c = content c0
    | None =>
        schema c = BaiChaySchema.create_schema /\
        index c = Some ("description_vector", cosine 256) /\
        content c = Milvus.empty
    end /\
    forall d n,
      (d, n) <> (BaiChaySetup.DATABASE_NAME, BaiChaySetup.COLLECTION_NAME) ->
      stored_in d n s' = stored_in d n s.
Proof.
  intros R I; rewrite baichay_init_cases, R.
  assert (exists c,
            prepared BaiChaySchema.create_schema "description_vector"
              (cosine 256)
              (stored_in BaiChaySetup.DATABASE_NAME
                         BaiChaySetup.COLLECTION_NAME s) = Some c /\
            loaded c = true /\
            match stored_in BaiChaySetup.DATABASE_NAME
                            BaiChaySetup.COLLECTION_NAME s with
            | Some c0 =>
                schema c = schema c0 /\ index c = index c0 /\
                content c = content c0
            | None =>
                schema c = BaiChaySchema.create_schema /\
                index c = Some ("description_vector", cosine 256) /\
                content c = Milvus.empty
            end) as [c [P [L M]]].
  { destruct (stored_in _ _ s) as [c0|]; unfold prepared.
    - specialize (I c0 eq_refl).
      destruct (index c0) eqn:E; [|now elim I].
      exists (opened c0); split; [reflexivity|]; split; [reflexivity|].
      split; [reflexivity|]. split; [exact E | reflexivity].
    - eexists; split; [reflexivity|]; split; [reflexivity|].
      split; [reflexivity|]. split; reflexivity. }
  rewrite P; exists {| BaiChayTourismDAO.collection := content c |}.
  exists (store BaiChaySetup.COLLECTION_NAME c
                (switched BaiChaySetup.DATABASE_NAME (connected s))), c.
  split; [reflexivity|]. split; [reflexivity|].
  split; [exact (proj1 (switched_lists _ (connected s)))|].
  split; [exact (proj2 (switched_lists _ (connected s)))|].
  split; [apply lookup_store|].
  split; [exact L|]. split; [reflexivity|]. split; [exact M|].
  intros d n N; rewrite stored_in_store.
  change (in_use (switched BaiChaySetup.DATABASE_NAME (connected s)))
    with BaiChaySetup.DATABASE_NAME.
  now rewrite (name_eqb_neq N).
Qed.

Lemma baichay_open_witness :
  exists dao s' c,
    BaiChaySetup.init used_server = Ok (dao, s') /\
    in_use s' = BaiChaySetup.DATABASE_NAME /\
    In BaiChaySetup.DATABASE_NAME (databases s') /\
    incl (databases used_server) (databases s') /\
    lookup BaiChaySetup.COLLECTION_NAME s' = Some c /\
    loaded c = true /\
    BaiChayTourismDAO.collection dao = content c /\
    match stored_in BaiChaySetup.DATABASE_NAME
                    BaiChaySetup.COLLECTION_NAME used_server with
    | Some c0 =>
        schema c = schema c0 /\ index c = index c0 /\ content c = content c0
    | None =>
        schema c = BaiChaySchema.create_schema /\
        index c = Some ("description_vector", cosine 256) /\
        content c = Milvus.empty
    end /\
    forall d n,
      (d, n) <> (BaiChaySetup.DATABASE_NAME, BaiChaySetup.COLLECTION_NAME) ->
      stored_in d n s' = stored_in d n used_server.
Proof.
  apply (baichay_open used_server); [reflexivity|].
  intros c0 H; vm_compute in H; injection H as <-; discriminate.
Defined.

(** X18.  Opening is idempotent: when [__init__] has succeeded, running
    it again on the server it left gives the same DAO and leaves the
    server as it is. *)
Theorem baichay_reopen (s s' : Server) (dao : BaiChayTourismDAO.DAO) :
  BaiChaySetup.init s = Ok (dao, s') ->
  BaiChaySetup.init s' = Ok (dao, s').
Proof.
  rewrite baichay_init_cases.
  destruct (reachable s); [|discriminate].
  destruct (prepared _ _ _ _) as [c|] eqn:P; [|discriminate].
  intros [= <- <-]; rewrite baichay_init_cases.
  cbn [reachable store switched connected].
  change (stored_in BaiChaySetup.DATABASE_NAME BaiChaySetup.COLLECTION_NAME
            (store BaiChaySetup.COLLECTION_NAME c
               (switched BaiChaySetup.DATABASE_NAME (connected s))))
    with (lookup BaiChaySetup.COLLECTION_NAME
            (store BaiChaySetup.COLLECTION_NAME c
               (switched BaiChaySetup.DATABASE_NAME (connected s)))).
  rewrite lookup_store, (prepared_again _ _ _ _ P).
  rewrite switched_fixed;
    [| reflexivity | reflexivity
     | exact (proj1 (switched_lists _ (connected s)))].
  now rewrite store_store.
Qed.

Lemma baichay_reopen_witness :
  exists dao s',
    BaiChaySetup.init used_server = Ok (dao, s') /\
    BaiChaySetup.init s' = Ok (dao, s').
Proof.
  eexists _, _; split; [reflexivity|].
  apply (@baichay_reopen used_server); reflexivity.
Defined.

(** X19.  [drop_collection] does not raise, whether the collection is
    there or not.  Afterwards the database in use has no collection of
    that name, the databases and every other collection are as before,
    and dropping again changes nothing. *)
Theorem baichay_drop (s : Server) :
  exists s',
    BaiChaySetup.drop_collection s = Ok (tt, s') /\
    lookup BaiChaySetup.COLLECTION_NAME s' = None /\
    databases s' = databases s /\
    in_use s' = in_use s /\
    (forall d n,
       (d, n) <> (in_use s, BaiChaySetup.COLLECTION_NAME) ->
       stored_in d n s' = stored_in d n s) /\
    BaiChaySetup.drop_collection s' = Ok (tt, s').
Proof.
  exists (without BaiChaySetup.COLLECTION_NAME s).
  assert (lookup BaiChaySetup.COLLECTION_NAME
            (without BaiChaySetup.COLLECTION_NAME s) = None) as L.
  { rewrite lookup_stored, stored_in_without; simpl.
    now rewrite name_eqb_refl. }
  split; [apply baichay_drop_spec|]. split; [exact L|].
  split; [reflexivity|]. split; [reflexivity|]. split.
  - intros d n N; rewrite stored_in_without. now rewrite (name_eqb_neq N).
  - rewrite baichay_drop_spec. now rewrite (without_absent _ _ L).
Qed.

(** X20.  Dropping the collection of an opened DAO and opening again
    gives a DAO on a new, empty collection: it counts no entity, and the
    collection has the schema of [_create_schema] and the COSINE
    index. *)
Theorem baichay_recreate (s s1 : Server) (dao : BaiChayTourismDAO.DAO) :
  BaiChaySetup.init s = Ok (dao, s1) ->
  exists s2 dao' s3,
    BaiChaySetup.drop_collection s1 = Ok (tt, s2) /\
    BaiChaySetup.init s2 = Ok (dao', s3) /\
    BaiChayTourismDAO.collection dao' = Milvus.empty /\
    BaiChayTourismDAO.total_count dao' = 0%nat /\
    lookup BaiChaySetup.COLLECTION_NAME s3 =
      Some (created BaiChaySchema.create_schema "description_vector"
                    (cosine 256)).
Proof.
  rewrite baichay_init_cases.
  destruct (reachable s); [|discriminate].
  destruct (prepared _ _ _ _) as [c|]; [|discriminate].
  intros [= <- <-].
  eexists _, _, _; split; [apply baichay_drop_spec|].
  rewrite baichay_init_cases.
  cbn [reachable store switched connected without].
  assert (stored_in BaiChaySetup.DATABASE_NAME BaiChaySetup.COLLECTION_NAME
            (without BaiChaySetup.COLLECTION_NAME
               (store BaiChaySetup.COLLECTION_NAME c
                  (switched BaiChaySetup.DATABASE_NAME (connected s)))) =
          None) as ->.
  { rewrite stored_in_without; reflexivity. }
  cbn [prepared]; split; [reflexivity|].
  split; [reflexivity|]. split; [reflexivity|]. apply lookup_store.
Qed.

Lemma baichay_recreate_witness :
  exists dao s1 s2 dao' s3,
    BaiChaySetup.init used_server = Ok (dao, s1) /\
    BaiChayTourismDAO.total_count dao = 1%nat /\
    BaiChaySetup.drop_collection s1 = Ok (tt, s2) /\
    BaiChaySetup.init s2 = Ok (dao', s3) /\
    BaiChayTourismDAO.collection dao' = Milvus.empty /\
    BaiChayTourismDAO.total_count dao' = 0%nat /\
    lookup BaiChaySetup.COLLECTION_NAME s3 =
      Some (created BaiChaySchema.create_schema "description_vector"
                    (cosine 256)).
Proof.
  destruct (@baichay_recreate used_server _ _ eq_refl)
    as [s2 [dao' [s3 H]]].
  eexists _, _, s2, dao', s3; split; [reflexivity|].
  split; [reflexivity|]. exact H.
Defined.

(** *** [TourismMultimodalDAO] *)

Lemma multimodal_init_cases (s : Server) :
  MultimodalSetup.init s =
  if reachable s
  then match prepared MultimodalSchema.create_text_schema
               "description_vector" (cosine 128)
               (stored_in MultimodalSetup.DATABASE_NAME
                          MultimodalSetup.TEXT_COLLECTION_NAME s),
             prepared MultimodalSchema.create_image_schema
               "image_vector" (l2 128)
               (stored_in MultimodalSetup.DATABASE_NAME
                          MultimodalSetup.IMAGE_COLLECTION_NAME s) with
       | Some t, Some i =>
           Ok ({| TourismMultimodalDAO.text_collection := content t;
                  TourismMultimodalDAO.image_collection := content i |},
               store MultimodalSetup.IMAGE_COLLECTION_NAME i
                 (store MultimodalSetup.TEXT_COLLECTION_NAME t
                    (switched MultimodalSetup.DATABASE_NAME (connected s))))
       | _, _ => Raise MilvusException
       end
  else Raise MilvusException.
Proof.
  unfold MultimodalSetup.init, MultimodalSetup.connect, Registry.connect.
  unfold bindS at 1.
  destruct (reachable s); [|reflexivity].
  fold (connected s).
  unfold bindS at 1.
  change MultimodalSetup.switch_database
    with (switch_to MultimodalSetup.DATABASE_NAME).
  rewrite switch_to_spec.
  unfold bindS at 1.
  change MultimodalSetup.get_or_create_text_collection
    with (ensure MultimodalSetup.TEXT_COLLECTION_NAME
                 MultimodalSchema.create_text_schema
                 "description_vector" (cosine 128)).
  rewrite ensure_spec.
  change (lookup MultimodalSetup.TEXT_COLLECTION_NAME
            (switched MultimodalSetup.DATABASE_NAME (connected s)))
    with (stored_in MultimodalSetup.DATABASE_NAME
                    MultimodalSetup.TEXT_COLLECTION_NAME s).
  destruct (prepared _ _ _ (stored_in _ MultimodalSetup.TEXT_COLLECTION_NAME s))
    as [t|]; [|reflexivity].
  unfold bindS at 1.
  change MultimodalSetup.get_or_create_image_collection
    with (ensure MultimodalSetup.IMAGE_COLLECTION_NAME
                 MultimodalSchema.create_image_schema
                 "image_vector" (l2 128)).
  rewrite ensure_spec.
  rewrite (lookup_stored MultimodalSetup.IMAGE_COLLECTION_NAME), stored_in_store.
  change (stored_in _ MultimodalSetup.IMAGE_COLLECTION_NAME
            (switched MultimodalSetup.DATABASE_NAME (connected s)))
    with (stored_in MultimodalSetup.DATABASE_NAME
                    MultimodalSetup.IMAGE_COLLECTION_NAME s).
  change (name_eqb _ _) with false; cbv iota.
  destruct (prepared _ _ _ (stored_in _ MultimodalSetup.IMAGE_COLLECTION_NAME s))
    as [i|]; [|reflexivity].
  rewrite lookup_store.
  rewrite (lookup_stored MultimodalSetup.TEXT_COLLECTION_NAME), stored_in_store.
  change (name_eqb _ _) with false; cbv iota.
  change (stored_in _ MultimodalSetup.TEXT_COLLECTION_NAME
            (store MultimodalSetup.TEXT_COLLECTION_NAME t
               (switched MultimodalSetup.DATABASE_NAME (connected s))))
    with (lookup MultimodalSetup.TEXT_COLLECTION_NAME
            (store MultimodalSetup.TEXT_COLLECTION_NAME t
               (switched MultimodalSetup.DATABASE_NAME (connected s)))).
  now rewrite lookup_store.
Qed.

Lemma multimodal_drop_spec (s : Server) :
  MultimodalSetup.drop_collections s =
  Ok (tt, without MultimodalSetup.IMAGE_COLLECTION_NAME
            (without MultimodalSetup.TEXT_COLLECTION_NAME s)).
Proof.
  change MultimodalSetup.drop_collections
    with (bindS (drop_if_there MultimodalSetup.TEXT_COLLECTION_NAME)
                (fun _ => drop_if_there MultimodalSetup.IMAGE_COLLECTION_NAME)).
  unfold bindS; rewrite drop_if_there_spec. apply drop_if_there_spec.
Qed.

(** X21.  On a server that can be reached, [__init__] of the multimodal
    DAO does not raise, provided that each of its two collections, if
    already there, has an index.  Afterwards its database exists and is
    in use, and both collections exist and are loaded.  A collection that
    was there keeps schema, index and rows; a new text collection is
    empty, with the text schema and a COSINE index on the description
    vector, and a new image collection is empty, with the image schema
    and an L2 index on the image vector.  Every other collection is as
    before. *)
Theorem multimodal_open (s : Server) :
  reachable s = true ->
  (forall n c0,
     In n [MultimodalSetup.TEXT_COLLECTION_NAME;
           MultimodalSetup.IMAGE_COLLECTION_NAME] ->
     stored_in MultimodalSetup.DATABASE_NAME n s = Some c0 ->
     index c0 <> None) ->
  exists dao s' t i,
    MultimodalSetup.init s = Ok (dao, s') /\
    in_use s' = MultimodalSetup.DATABASE_NAME /\
    In MultimodalSetup.DATABASE_NAME (databases s') /\
    incl (databases s) (databases s') /\
    lookup MultimodalSetup.TEXT_COLLECTION_NAME s' = Some t /\
    lookup MultimodalSetup.IMAGE_COLLECTION_NAME s' = Some i /\
    loaded t = true /\ loaded i = true /\
    TourismMultimodalDAO.text_collection dao = content t /\
    TourismMultimodalDAO.image_collection dao = content i /\
    match stored_in MultimodalSetup.DATABASE_NAME
                    MultimodalSetup.TEXT_COLLECTION_NAME s with
    | Some c0 => t = opened c0
    | None => t = created MultimodalSchema.create_text_schema
                          "description_vector" (cosine 128)
    end /\
    match stored_in MultimodalSetup.DATABASE_NAME
                    MultimodalSetup.IMAGE_COLLECTION_NAME s with
    | Some c0 => i = opened c0
    | None => i = created MultimodalSchema.create_image_schema
                          "image_vector" (l2 128)
    end /\
    forall d n,
      (d, n) <> (MultimodalSetup.DATABASE_NAME,
                 MultimodalSetup.TEXT_COLLECTION_NAME) ->
      (d, n) <> (MultimodalSetup.DATABASE_NAME,
                 MultimodalSetup.IMAGE_COLLECTION_NAME) ->
      stored_in d n s' = stored_in d n s.
Proof.
  intros R I; rewrite multimodal_init_cases, R.
  assert (forall sch field params n,
            In n [MultimodalSetup.TEXT_COLLECTION_NAME;
                  MultimodalSetup.IMAGE_COLLECTION_NAME] ->
            exists c,
              prepared sch field params
                (stored_in MultimodalSetup.DATABASE_NAME n s) = Some c /\
              loaded c = true /\
              match stored_in MultimodalSetup.DATABASE_NAME n s with
              | Some c0 => c = opened c0
              | None => c = created sch field params
              end) as P.
  { intros sch field params n Hn; specialize (I n).
    destruct (stored_in _ n s) as [c0|]; unfold prepared.
    - specialize (I c0 Hn eq_refl).
      destruct (index c0) eqn:E; [|now elim I].
      exists (opened c0); split; [reflexivity|]; split; reflexivity.
    - eexists; split; [reflexivity|]; split; reflexivity. }
  destruct (P MultimodalSchema.create_text_schema "description_vector"
              (cosine 128) MultimodalSetup.TEXT_COLLECTION_NAME
              ltac:(simpl; tauto)) as [t [Pt [Lt Mt]]].
  destruct (P MultimodalSchema.create_image_schema "image_vector"
              (l2 128) MultimodalSetup.IMAGE_COLLECTION_NAME
              ltac:(simpl; tauto)) as [i [Pi [Li Mi]]].
  rewrite Pt, Pi.
  eexists _, _, t, i; split; [reflexivity|]. split; [reflexivity|].
  split; [exact (proj1 (switched_lists _ (connected s)))|].
  split; [exact (proj2 (switched_lists _ (connected s)))|].
  split.
  { rewrite lookup_stored, stored_in_store.
    change (name_eqb _ _) with false; cbv iota.
    exact (lookup_store MultimodalSetup.TEXT_COLLECTION_NAME t _). }
  split; [apply lookup_store|].
  split; [exact Lt|]. split; [exact Li|].
  split; [reflexivity|]. split; [reflexivity|].
  split; [exact Mt|]. split; [exact Mi|].
  intros d n N1 N2; rewrite !stored_in_store.
  change (in_use (store _ _ _)) with MultimodalSetup.DATABASE_NAME.
  change (in_use (switched _ _)) with MultimodalSetup.DATABASE_NAME.
  now rewrite (name_eqb_neq N1), (name_eqb_neq N2).
Qed.

Lemma multimodal_open_witness :
  exists dao s' t i,
    MultimodalSetup.init used_server = Ok (dao, s') /\
    in_use s' = MultimodalSetup.DATABASE_NAME /\
    In MultimodalSetup.DATABASE_NAME (databases s') /\
    incl (databases used_server) (databases s') /\
    lookup MultimodalSetup.TEXT_COLLECTION_NAME s' = Some t /\
    lookup MultimodalSetup.IMAGE_COLLECTION_NAME s' = Some i /\
    loaded t = true /\ loaded i = true /\
    TourismMultimodalDAO.text_collection dao = content t /\
    TourismMultimodalDAO.image_collection dao = content i /\
    match stored_in MultimodalSetup.DATABASE_NAME
                    MultimodalSetup.TEXT_COLLECTION_NAME used_server with
    | Some c0 => t = opened c0
    | None => t = created MultimodalSchema.create_text_schema
                          "description_vector" (cosine 128)
    end /\
    match stored_in MultimodalSetup.DATABASE_NAME
                    MultimodalSetup.IMAGE_COLLECTION_NAME used_server with
    | Some c0 => i = opened c0
    | None => i = created MultimodalSchema.create_image_schema
                          "image_vector" (l2 128)
    end /\
    forall d n,
      (d, n) <> (MultimodalSetup.DATABASE_NAME,
                 MultimodalSetup.TEXT_COLLECTION_NAME) ->
      (d, n) <> (MultimodalSetup.DATABASE_NAME,
                 MultimodalSetup.IMAGE_COLLECTION_NAME) ->
      stored_in d n s' = stored_in d n used_server.
Proof.
  apply (multimodal_open used_server); [reflexivity|].
  intros n c0 [<-|[<-|[]]] H; vm_compute in H; discriminate.
Defined.

(** X22.  [drop_collections] does not raise, whichever of the two
    collections is there.  Afterwards the database in use has neither of
    them, every other collection is as before, and dropping again changes
    nothing. *)
Theorem multimodal_drop (s : Server) :
  exists s',
    MultimodalSetup.drop_collections s = Ok (tt, s') /\
    lookup MultimodalSetup.TEXT_COLLECTION_NAME s' = None /\
    lookup MultimodalSetup.IMAGE_COLLECTION_NAME s' = None /\
    databases s' = databases s /\
    in_use s' = in_use s /\
    (forall d n,
       (d, n) <> (in_use s, MultimodalSetup.TEXT_COLLECTION_NAME) ->
       (d, n) <> (in_use s, MultimodalSetup.IMAGE_COLLECTION_NAME) ->
       stored_in d n s' = stored_in d n s) /\
    MultimodalSetup.drop_collections s' = Ok (tt, s').
Proof.
  eexists; split; [apply multimodal_drop_spec|].
  assert (lookup MultimodalSetup.TEXT_COLLECTION_NAME
            (without MultimodalSetup.IMAGE_COLLECTION_NAME
               (without MultimodalSetup.TEXT_COLLECTION_NAME s)) = None) as LT.
  { rewrite lookup_stored, !stored_in_without.
    cbn [in_use without]. rewrite name_eqb_refl.
    now destruct (name_eqb _ _). }
  assert (lookup MultimodalSetup.IMAGE_COLLECTION_NAME
            (without MultimodalSetup.IMAGE_COLLECTION_NAME
               (without MultimodalSetup.TEXT_COLLECTION_NAME s)) = None) as LI.
  { rewrite lookup_stored, stored_in_without.
    cbn [in_use without]. now rewrite name_eqb_refl. }
  split; [exact LT|]. split; [exact LI|].
  split; [reflexivity|]. split; [reflexivity|]. split.
  - intros d n N1 N2; rewrite !stored_in_without.
    cbn [in_use without].
    now rewrite (name_eqb_neq N1), (name_eqb_neq N2).
  - rewrite multimodal_drop_spec.
    assert (lookup MultimodalSetup.TEXT_COLLECTION_NAME
              (without MultimodalSetup.TEXT_COLLECTION_NAME s) = None) as L0.
    { rewrite lookup_stored, stored_in_without.
      cbn [in_use without]. now rewrite name_eqb_refl. }
    rewrite (@without_absent MultimodalSetup.TEXT_COLLECTION_NAME
               (without MultimodalSetup.IMAGE_COLLECTION_NAME _) LT).
    now rewrite (@without_absent MultimodalSetup.IMAGE_COLLECTION_NAME
                   (without MultimodalSetup.IMAGE_COLLECTION_NAME _) LI).
Qed.

(** *** Both DAOs in one process *)

(** X23.  The two DAOs share the connection ["default"], and
    [drop_collection] looks for its collection in the database in use.
    Right after the Bai Chay DAO is opened, [drop_collection] removes its
    collection.  Once the multimodal DAO has been opened after it,
    [drop_collection] of the Bai Chay DAO leaves the Bai Chay collection
    stored, with the rows the DAO was opened on. *)
Theorem shared_connection (s s1 s2 : Server)
    (dao : BaiChayTourismDAO.DAO) (mdao : TourismMultimodalDAO.DAO) :
  BaiChaySetup.init s = Ok (dao, s1) ->
  MultimodalSetup.init s1 = Ok (mdao, s2) ->
  (exists s3,
     BaiChaySetup.drop_collection s1 = Ok (tt, s3) /\
     stored_in BaiChaySetup.DATABASE_NAME BaiChaySetup.COLLECTION_NAME s3 =
       None) /\
  (exists s3 c,
     BaiChaySetup.drop_collection s2 = Ok (tt, s3) /\
     stored_in BaiChaySetup.DATABASE_NAME BaiChaySetup.COLLECTION_NAME s3 =
       Some c /\
     content c = BaiChayTourismDAO.collection dao).
Proof.
  rewrite baichay_init_cases.
  destruct (reachable s); [|discriminate].
  destruct (prepared _ _ _ _) as [c|]; [|discriminate].
  intros [= <- <-]; rewrite multimodal_init_cases.
  cbn [reachable store].
  destruct (prepared _ _ _ _) as [t|]; [|discriminate].
  destruct (prepared _ _ _ _) as [i|]; [|discriminate].
  intros [= <- <-]; split.
  - eexists; split; [apply baichay_drop_spec|].
    rewrite stored_in_without; reflexivity.
  - eexists _, c; split; [apply baichay_drop_spec|]. split; [|reflexivity].
    rewrite stored_in_without, !stored_in_store.
    cbn [in_use store switched connected].
    change (name_eqb _ (MultimodalSetup.DATABASE_NAME,
                        BaiChaySetup.COLLECTION_NAME)) with false.
    change (name_eqb _ (MultimodalSetup.DATABASE_NAME,
                        MultimodalSetup.IMAGE_COLLECTION_NAME)) with false.
    change (name_eqb _ (MultimodalSetup.DATABASE_NAME,
                        MultimodalSetup.TEXT_COLLECTION_NAME)) with false.
    cbv iota.
    exact (lookup_store BaiChaySetup.COLLECTION_NAME c
             (switched BaiChaySetup.DATABASE_NAME (connected s))).
Qed.

Lemma shared_connection_witness :
  exists dao s1 mdao s2,
    BaiChaySetup.init used_server = Ok (dao, s1) /\
    MultimodalSetup.init s1 = Ok (mdao, s2) /\
    (exists s3,
       BaiChaySetup.drop_collection s1 = Ok (tt, s3) /\
       stored_in BaiChaySetup.DATABASE_NAME BaiChaySetup.COLLECTION_NAME s3 =
         None) /\
    (exists s3 c,
       BaiChaySetup.drop_collection s2 = Ok (tt, s3) /\
       stored_in BaiChaySetup.DATABASE_NAME BaiChaySetup.COLLECTION_NAME s3 =
         Some c /\
       content c = BaiChayTourismDAO.collection dao).
Proof.
  eexists _, _, _, _; split; [reflexivity|]. split; [reflexivity|].
  eapply (@shared_connection used_server); reflexivity.
Defined.

End SetupFacts.

(** ** What validation looks at *)






Example len_counts_code_points :
  String.length ExtraSpec.accented = 1536%nat /\
  py_len (VStr ExtraSpec.accented) = Ok 768%nat /\
  py_len (VStr (ExtraSpec.str_repeat "é" 384)) = Ok 384%nat.
Proof. split; [|split]; vm_compute; reflexivity. Qed.

Module DimensionFacts.
Import IngestSpec.





End DimensionFacts.

(** ** The crawl-and-insert run *)

Lemma StronglySorted_app_lt (l1 l2 : list Z) (m : Z) :
  StronglySorted Z.lt l1 -> StronglySorted Z.lt l2 ->
  Forall (fun i => (i < m)%Z) l1 -> Forall (fun i => (m <= i)%Z) l2 ->
  StronglySorted Z.lt (l1 ++ l2).
Proof.
  intros S1 S2 B1 B2; induction S1 as [|x l1 S1 IH Hx]; simpl; [exact S2|].
  inversion B1 as [|? ? Bx B1']; subst.
  constructor; [now apply IH|].
  apply Forall_app; split; [exact Hx|].
  eapply Forall_impl; [|exact B2]; intros i Hi; simpl in Hi; lia.
Qed.

Lemma StronglySorted_lt_NoDup (l : list Z) : StronglySorted Z.lt l -> NoDup l.
Proof.
  induction 1 as [|x l S IH Hx]; constructor; [|exact IH].
  intros Hin; rewrite Forall_forall in Hx; specialize (Hx x Hin); lia.
Qed.

Module CrawlFacts.
Import IngestSpec ExtraSpec InsertCrawledData.

Lemma consecutive_S (c : Z) (n : nat) :
  consecutive c (S n) = c :: consecutive (c + 1) n.
Proof.
  unfold consecutive; simpl; rewrite Z.add_0_r; f_equal.
  rewrite <- seq_shift, map_map; apply map_ext; intros k; lia.
Qed.

Lemma consecutive_sorted (c : Z) (n : nat) :
  StronglySorted Z.lt (consecutive c n) /\
  Forall (fun i => (c <= i < c + Z.of_nat n)%Z) (consecutive c n).
Proof.
  revert c; induction n as [|n IH]; intros c.
  - split; constructor.
  - rewrite consecutive_S; destruct (IH (c + 1)%Z) as [S B]; split.
    + constructor; [exact S|].
      eapply Forall_impl; [|exact B]; intros i Hi; simpl in Hi; lia.
    + constructor; [lia|].
      eapply Forall_impl; [|exact B]; intros i Hi; simpl in Hi; lia.
Qed.

(** *** The loop that assigns the ids *)

Lemma update_same (h : Heap) (a : address) (item : Item) :
  update h a item a = item.
Proof. unfold update; now rewrite Nat.eqb_refl. Qed.

Lemma update_other (h : Heap) (a b : address) (item : Item) :
  b <> a -> update h a item b = h b.
Proof.
  intros N; unfold update.
  now rewrite (proj2 (Nat.eqb_neq b a) N).
Qed.

Lemma set_id_twice (c c' : Z) (item : Item) :
  dict_set String.eqb "id" (VInt c')
    (dict_set String.eqb "id" (VInt c) item) =
  dict_set String.eqb "id" (VInt c') item.
Proof. apply (dict_set_set _ String_eqb_eq). Qed.



Lemma assign_ids_spec (l : list entry) :
  forall (h : Heap) (c : Z) (out : result unit) (h' : Heap) (c' : Z),
    assign_ids l h c = (out, h', c') ->
    (c <= c' <= c + Z.of_nat (length l))%Z /\
    (out = Ok tt \/ out = Raise TypeError) /\
    (out = Ok tt <-> ~ In Other l) /\
    (out = Ok tt -> c' = (c + Z.of_nat (length l))%Z) /\
    (forall a, ~ In a (addresses l) -> h' a = h a) /\
    (forall a, h' a = h a \/
               exists k, (c <= k < c')%Z /\
                         h' a = dict_set String.eqb "id" (VInt k) (h a)) /\
    (out = Ok tt ->
     forall a, In a (addresses l) ->
       exists k, (c <= k < c')%Z /\
                 h' a = dict_set String.eqb "id" (VInt k) (h a)).
Proof.
  induction l as [|[a0|] l IH]; intros h c out h' c' H.
  - injection H as <- <- <-; simpl.
    split; [lia|]. split; [now left|]. split; [tauto|].
    split; [intros _; lia|]. split; [reflexivity|].
    split; [now left | intros _ a []].
  - cbn [assign_ids] in H.
    destruct (IH _ _ _ _ _ H) as [B [O [I [C [U [S A]]]]]].
    cbn [length]; split; [lia|]. split; [exact O|].
    split; [rewrite I; simpl; intuition congruence|].
    split; [intros E; rewrite (C E); lia|].
    assert (St : forall a,
              h' a = h a \/
              exists k, (c <= k < c')%Z /\
                        h' a = dict_set String.eqb "id" (VInt k) (h a)).
    { intros a; destruct (Nat.eq_dec a a0) as [->|N].
      - right; destruct (S a0) as [E|[k [Hk E]]]; rewrite E, update_same.
        + exists c; split; [lia | reflexivity].
        + exists k; split; [lia | apply set_id_twice].
      - destruct (S a) as [E|[k [Hk E]]];
          rewrite E, (update_other _ _ N); [now left|].
        right; exists k; split; [lia | reflexivity]. }
    split; [|split; [exact St|]].
    + intros a Ha; simpl in Ha.
      rewrite (U a) by tauto. apply update_other; intros ->; tauto.
    + intros E a Ha; simpl in Ha.
      destruct (Nat.eq_dec a a0) as [->|N].
      * destruct (S a0) as [E0|[k [Hk E0]]]; rewrite E0, update_same.
        -- exists c; split; [lia | reflexivity].
        -- exists k; split; [lia | apply set_id_twice].
      * destruct Ha as [Ha|Ha]; [congruence|].
        destruct (A E a Ha) as [k [Hk E0]].
        exists k; split; [lia|]. now rewrite E0, (update_other _ _ N).
  - injection H as <- <- <-; cbn [length].
    split; [lia|]. split; [now right|].
    split; [split; [discriminate | intros N; exfalso; apply N; now left]|].
    split; [discriminate|]. split; [reflexivity|].
    split; [now left | discriminate].
Qed.


(** Without a dict twice in the list, the ids read through the list are
    consecutive. *)
Lemma assign_ids_distinct (l : list entry) :
  forall (h h' : Heap) (c c' : Z),
    NoDup (addresses l) ->
    assign_ids l h c = (Ok tt, h', c') ->
    ids_read (values h' l) =
      map (fun z => Some (VInt z)) (consecutive c (length l)).
Proof.
  induction l as [|[a|] l IH]; intros h h' c c' D H.
  - reflexivity.
  - cbn [assign_ids] in H; simpl in D.
    inversion D as [|? ? Na D']; subst.
    cbn [length]; rewrite consecutive_S; cbn [map].
    unfold ids_read; cbn [values flat_map app map].
    fold (values h' l); fold (ids_read (values h' l)).
    rewrite (IH _ _ _ _ D' H); f_equal.
    destruct (assign_ids_spec _ _ _ H) as [_ [_ [_ [_ [U _]]]]].
    rewrite (U a Na), update_same.
    now rewrite (dict_get_set String.eqb String_eqb_eq), String.eqb_refl.
  - cbn [assign_ids] in H; discriminate.
Qed.




(** *** The category loop *)


Lemma handed_app (l1 l2 : list (list Item * result (list value))) :
  handed (l1 ++ l2) = handed l1 ++ handed l2.
Proof. unfold handed; now rewrite map_app, concat_app. Qed.


Section Loop.
Variable crawl_category : string -> option Z -> Z -> bool -> result Crawled.
Variable insert_data :
  BaiChayTourismDAO.DAO -> list Item ->
  result (list value) * BaiChayTourismDAO.DAO.
Variable write : string -> list Item -> Written.







(** The ids handed over, when the crawler returns no dict twice. *)
Lemma increasing_ids_trans (run0 run1 run2 : Run)
    (new1 new2 : list (list Item * result (list value))) (ids1 ids2 : list Z) :
  increasing_ids run0 run1 new1 ids1 ->
  increasing_ids run1 run2 new2 ids2 ->
  (id_counter run0 <= id_counter run1 <= id_counter run2)%Z ->
  increasing_ids run0 run2 (new1 ++ new2) (ids1 ++ ids2).
Proof.
  intros (E1 & S1 & B1) (E2 & S2 & B2) L; unfold increasing_ids.
  split; [|split].
  - unfold ids_read in *; rewrite handed_app, !map_app; f_equal; assumption.
  - apply (StronglySorted_app_lt (m := id_counter run1)); try assumption.
    + eapply Forall_impl; [|exact B1]; intros z Hz; simpl in Hz; lia.
    + eapply Forall_impl; [|exact B2]; intros z Hz; simpl in Hz; lia.
  - apply Forall_app; split.
    + eapply Forall_impl; [|exact B1]; intros z Hz; simpl in Hz; lia.
    + eapply Forall_impl; [|exact B2]; intros z Hz; simpl in Hz; lia.
Qed.

Lemma process_category_ids (run : Run) (category : string) :
  no_alias crawl_category ->
  exists new ids,
    calls (process_category crawl_category insert_data write run category) =
      calls run ++ new /\
    increasing_ids run
      (process_category crawl_category insert_data write run category)
      new ids /\
    (id_counter run <=
     id_counter (process_category crawl_category insert_data write
                   run category))%Z.
Proof.
  intros NA; unfold process_category.
  assert (Z0 : forall r, (id_counter run <= id_counter r)%Z ->
                         increasing_ids run r [] []).
  { intros r _; split; [reflexivity|]; split; constructor. }
  destruct (crawl_category category MAX_ITEMS_PER_CATEGORY
              MAX_PAGES_PER_CATEGORY USE_SAFE_METHOD) as [crawled|e] eqn:Cr.
  2:{ exists [], []; rewrite app_nil_r; split; [reflexivity|].
      split; [apply Z0; lia | lia]. }
  pose proof (NA _ _ _ _ _ Cr) as ND.
  destruct (items crawled) as [|e0 l] eqn:Ei.
  { exists [], []; rewrite app_nil_r; split; [reflexivity|].
    split; [apply Z0; lia | lia]. }
  destruct (assign_ids (e0 :: l) (heap crawled) (id_counter run))
    as [[out h'] c'] eqn:A.
  destruct (CrawlFacts.assign_ids_spec _ _ _ A) as [B [_ [_ [C _]]]].
  destruct out as [[]|e].
  2:{ exists [], []; cbn [calls id_counter]; rewrite app_nil_r.
      split; [reflexivity|]. split; [apply Z0; cbn; lia | lia]. }
  pose proof (C eq_refl) as Cc.
  pose proof (@assign_ids_distinct _ _ _ _ _ ND A) as Ids.
  destruct (consecutive_sorted (id_counter run) (length (e0 :: l)))
    as [So Bo].
  assert (G : forall out d,
            increasing_ids run
              {| dao := d; total_inserted := 0; id_counter := c';
                 files := []; calls := [] |}
              [(values h' (e0 :: l), out)]
              (consecutive (id_counter run) (length (e0 :: l)))).
  { intros out d; split; [|split].
    - unfold handed; simpl; rewrite app_nil_r; exact Ids.
    - exact So.
    - cbn [id_counter]; rewrite Cc; exact Bo. }
  destruct (insert_data (dao run) (values h' (e0 :: l)))
    as [[keys|e] dao'] eqn:D.
  - eexists [_], _; cbn [calls id_counter].
    split; [reflexivity|]. split; [|lia].
    destruct (G (Ok keys) dao') as (E & S & Bd).
    split; [exact E|]. split; [exact S | exact Bd].
  - eexists [_], _; cbn [calls id_counter].
    split; [reflexivity|]. split; [|lia].
    destruct (G (Raise e) dao') as (E & S & Bd).
    split; [exact E|]. split; [exact S | exact Bd].
Qed.

Lemma process_all_ids (categories : list string) (run : Run) :
  no_alias crawl_category ->
  exists new ids,
    calls (process_all crawl_category insert_data write categories run) =
      calls run ++ new /\
    increasing_ids run
      (process_all crawl_category insert_data write categories run) new ids /\
    (id_counter run <=
     id_counter (process_all crawl_category insert_data write
                   categories run))%Z.
Proof.
  intros NA; revert run.
  induction categories as [|category rest IH]; intros run.
  - exists [], []; cbn; rewrite app_nil_r; split; [reflexivity|].
    split; [|lia]. split; [reflexivity|]; split; constructor.
  - destruct (process_category_ids run category NA)
      as (new1 & ids1 & C1 & I1 & L1).
    destruct (IH (process_category crawl_category insert_data write
                    run category)) as (new2 & ids2 & C2 & I2 & L2).
    exists (new1 ++ new2), (ids1 ++ ids2); cbn [process_all fold_left].
    fold (process_all crawl_category insert_data write rest
            (process_category crawl_category insert_data write run category)).
    split; [now rewrite C2, C1, app_assoc|]. split; [|lia].
    apply (increasing_ids_trans I1 I2); lia.
Qed.
End Loop.

(** *** Backup files *)





(** X5.  When the crawler never returns a list with the same dict in it
    twice, the ids of the records that [main] hands to [insert_data],
    taken over the whole run in the order of the calls, increase
    strictly from 1 on: they are pairwise distinct and lie below the
    final id counter.  This holds whatever the calls do and whatever the
    collection held before, which [main] never looks at. *)
Theorem run_ids
    (crawl_category : string -> option Z -> Z -> bool -> result Crawled)
    (insert_data : BaiChayTourismDAO.DAO -> list Item ->
                   result (list value) * BaiChayTourismDAO.DAO)
    (write : string -> list Item -> Written)
    (dao0 : BaiChayTourismDAO.DAO) (files0 : @dict string File) (run : Run) :
  no_alias crawl_category ->
  main crawl_category insert_data write (Ok dao0) files0 = Some run ->
  exists ids,
    ids_read (handed (calls run)) = map (fun z => Some (VInt z)) ids /\
    StronglySorted Z.lt ids /\
    NoDup ids /\
    Forall (fun z => (1 <= z < id_counter run)%Z) ids.
Proof.
  intros NA H.
  destruct (process_all_ids insert_data write CATEGORIES_TO_CRAWL
              {| dao := dao0; total_inserted := 0; id_counter := 1;
                 files := files0; calls := [] |} NA)
    as (new & ids & C & (E & S & B) & _).
  unfold main in H.
  set (r := process_all crawl_category insert_data write
              CATEGORIES_TO_CRAWL _) in *.
  injection H as <-.
  cbn [calls app id_counter] in *; rewrite C.
  exists ids; split; [exact E|]. split; [exact S|].
  split; [now apply StronglySorted_lt_NoDup | exact B].
Qed.

Lemma sample_no_alias : no_alias sample_crawl.
Proof.
  intros category mi mp safe crawled; unfold sample_crawl.
  destruct (String.eqb category "tour");
    [intros [= <-]; simpl; repeat constructor; simpl; intuition lia|].
  destruct (String.eqb category "luu-tru"); [discriminate|].
  destruct (String.eqb category "am-thuc");
    [intros [= <-]; simpl; repeat constructor; simpl; tauto|].
  destruct (String.eqb category "nha-hang");
    intros [= <-]; simpl; repeat constructor; simpl; tauto.
Qed.

Lemma run_ids_witness :
  exists ids,
    ids_read (handed (calls sample_run)) =
      map (fun z => Some (VInt z)) ids /\
    StronglySorted Z.lt ids /\
    NoDup ids /\
    Forall (fun z => (1 <= z < id_counter sample_run)%Z) ids.
Proof.
  apply (@run_ids sample_crawl
           (BaiChayTourismDAO.insert_data accept_all) write_all
           empty_dao [] sample_run sample_no_alias).
  reflexivity.
Defined.

(** With a dict twice in the list, the two entries are read with one id:
    the ids handed over repeat. *)
Example aliasing_repeats_ids :
  ids_read
    (handed
       (calls (process_all aliasing_crawl
                 (BaiChayTourismDAO.insert_data accept_all) write_all
                 ["tour"; "am-thuc"] fresh_run))) =
  [Some (VInt 2); Some (VInt 2); Some (VInt 4); Some (VInt 4)].
Proof. vm_compute; reflexivity. Qed.





Example sample_run_counters :
  id_counter sample_run = 5%Z /\
  total_inserted sample_run = 2%Z /\
  map snd (calls sample_run) =
    [Ok [VInt 1; VInt 2];
     Raise (AssertionError "Missing 'description_vector'")] /\
  files sample_run =
    [("backup_tour.json",
      Json (map without_vector
              (values (snd (fst (assign_ids [Dict 0%nat; Dict 1%nat]
                                   sample_heap 1)))
                      [Dict 0%nat; Dict 1%nat])))] /\
  files (process_all sample_crawl
           (BaiChayTourismDAO.insert_data accept_all) write_but_tour
           CATEGORIES_TO_CRAWL fresh_run) =
    [("backup_tour.json", Incomplete)].
Proof. vm_compute; repeat split. Qed.

End CrawlFacts.
